(** * McSAS3: the Monte Carlo core, the aggregator and the HDF5 key/value sink

    A shallow embedding of [mcsas3/mccore.py], [mcsas3/mcanalysis.py] and
    [mcsas3/McHDF.py], and of the handling of the arguments in
    [mcsas3_cli_runner.py].  Python floats are IEEE binary64 numbers, modelled by
    Rocq's primitive floats; Python objects that are mutated in place
    ([self._model], [self._opt], the class-level dictionaries of
    [McAnalysis], the HDF5 file) live in an explicit state that is threaded
    through a state-and-exception monad, so that what a method has already
    written survives an exception it raises later, as in Python. *)

From Stdlib Require Import Floats ZArith Lia Ascii DecimalString DecimalPos.
From stdpp Require Import gmap strings list.

Open Scope Z_scope.

(** ** Python exceptions and the state-and-exception monad *)

Module Py.

Inductive Exn : Type :=
| AssertionError (msg : string)
| KeyError
| IndexError
| TypeError
| ValueError
| ZeroDivisionError
| AttributeError
| IllConditioned.

Inductive Res (A : Type) : Type :=
| Ok (a : A)
| Raise (e : Exn).
Arguments Ok {A} a.
Arguments Raise {A} e.

Definition is_Ok {A} (r : Res A) : bool :=
  match r with Ok _ => true | Raise _ => false end.

Definition res_map {A B} (f : A -> B) (r : Res A) : Res B :=
  match r with Ok a => Ok (f a) | Raise e => Raise e end.

(** A computation over a mutable world [S]: it returns a value or raises,
    and in both cases leaves a world behind. *)
Definition M (S A : Type) : Type := S -> Res A * S.

Definition ret {S A} (a : A) : M S A := fun s => (Ok a, s).

Definition bind {S A B} (m : M S A) (k : A -> M S B) : M S B :=
  fun s => match m s with
           | (Ok a, s') => k a s'
           | (Raise e, s') => (Raise e, s')
           end.

Definition raise {S A} (e : Exn) : M S A := fun s => (Raise e, s).

Definition get {S} : M S S := fun s => (Ok s, s).

Definition gets {S A} (f : S -> A) : M S A := fun s => (Ok (f s), s).

Definition modify {S} (f : S -> S) : M S unit := fun s => (Ok tt, f s).

(** A pure fallible step (a library call that may raise). *)
Definition lift {S A} (r : Res A) : M S A := fun s => (r, s).

(** [assert cond, msg] *)
Definition assert_ {S} (cond : bool) (msg : string) : M S unit :=
  if cond then ret tt else raise (AssertionError msg).

(** [for x in xs: body x] *)
Fixpoint for_ {S A} (xs : list A) (body : A -> M S unit) : M S unit :=
  match xs with
  | [] => ret tt
  | x :: xs' => bind (body x) (fun _ => for_ xs' body)
  end.

End Py.

Import Py.

#[global] Instance M_ret {S} : MRet (M S) := fun A => @ret S A.
#[global] Instance M_bind {S} : MBind (M S) := fun A B k m => @bind S A B m k.

(** ** Numbers and arrays (Python [float], [int], and one-dimensional numpy arrays) *)

Module Np.

#[local] Open Scope float_scope.

Abbreviation vec := (list float).

(** Conversion of a Python [int] to a [float]: round to nearest even. *)
Definition float_of_int (z : Z) : float :=
  SF2Prim (binary_normalize prec emax z 0 false).

Definition nan : float := PrimFloat.nan.

(** Elementwise arithmetic; all arrays the core combines come from the same
    kernel, bound to one Q grid, so their shapes agree. *)
Definition vadd (a b : vec) : vec := zip_with PrimFloat.add a b.
Definition vsub (a b : vec) : vec := zip_with PrimFloat.sub a b.
Definition vmul (a b : vec) : vec := zip_with PrimFloat.mul a b.
Definition vdiv_s (a : vec) (d : float) : vec := (fun x => x / d) <$> a.
Definition vmul_s (a : vec) (c : float) : vec := (fun x => x * c) <$> a.
Definition vadd_s (a : vec) (c : float) : vec := (fun x => x + c) <$> a.

(** [np.zeros(n)]; a negative length is a [ValueError]. *)
Definition zeros (n : Z) : Res vec :=
  if (n <? 0)%Z then Raise ValueError else Ok (replicate (Z.to_nat n) 0).

(** [a[i] = v] on a one-dimensional array: negative indices count from the
    end, anything outside [-len, len) is an [IndexError]. *)
Definition setitem (a : vec) (i : Z) (v : float) : Res vec :=
  let n := Z.of_nat (length a) in
  if ((0 <=? i) && (i <? n))%Z then Ok (<[Z.to_nat i := v]> a)
  else if ((- n <=? i) && (i <? 0))%Z then Ok (<[Z.to_nat (n + i) := v]> a)
  else Raise IndexError.

(** [np.add.reduce]: the first element starts the accumulation; an empty
    reduction is the identity [0.0]. *)
Definition sum (xs : vec) : float :=
  match xs with
  | [] => 0
  | x :: r => foldl PrimFloat.add x r
  end.

(** [ndarray.mean]: the sum divided by the number of items. *)
Definition mean (xs : vec) : float :=
  sum xs / float_of_int (Z.of_nat (length xs)).

(** [ndarray.std(ddof)]: deviations from the mean, squared, summed, divided
    by [max (N - ddof) 0], square root. *)
Definition std (ddof : Z) (xs : vec) : float :=
  let m := mean xs in
  let d := (fun x => x - m) <$> xs in
  let sq := (fun x => x * x) <$> d in
  PrimFloat.sqrt (sum sq / float_of_int (Z.max (Z.of_nat (length xs) - ddof)%Z 0%Z)).

(** [np.array(rows)] for a list of one-dimensional arrays: the rows must all
    have the length of the first. *)
Definition array2d (rows : list vec) : Res (list vec) :=
  match rows with
  | [] => Ok []
  | r0 :: _ =>
      if forallb (fun r => Nat.eqb (length r) (length r0)) rows
      then Ok rows else Raise ValueError
  end.

(** Column [j] of a two-dimensional array. *)
Definition column (rows : list vec) (j : nat) : vec :=
  (fun r => default nan (r !! j)) <$> rows.

(** Reduction along [axis = 0]: one result per column. *)
Definition reduce_axis0 (f : vec -> float) (rows : list vec) : vec :=
  match rows with
  | [] => []
  | r0 :: _ => (fun j => f (column rows j)) <$> seq 0 (length r0)
  end.

(** [np.diff] *)
Fixpoint diff (xs : vec) : vec :=
  match xs with
  | x :: (y :: _) as r => (y - x) :: diff r
  | _ => []
  end.

(** [all(a == b)]: the comparison is elementwise; an array of one element
    is broadcast against the other, and arrays whose lengths differ
    otherwise cannot be compared, which is a [ValueError] (numpy before 1.25
    gave [False] there, on which the builtin [all] raises a [TypeError]). *)
Definition all_eq (a b : vec) : Res bool :=
  if Nat.eqb (length a) (length b)
  then Ok (forallb (fun p => PrimFloat.eqb p.1 p.2) (zip a b))
  else match a, b with
       | [x], _ => Ok (forallb (fun y => PrimFloat.eqb x y) b)
       | _, [y] => Ok (forallb (fun x => PrimFloat.eqb x y) a)
       | _, _ => Raise ValueError
       end.

(** Neither NaN nor infinite. *)
Definition finite (x : float) : bool :=
  negb (PrimFloat.is_nan x) && negb (PrimFloat.is_infinity x).

(** pandas reductions skip NaN entries ([skipna = True]). *)
Definition dropna (xs : vec) : vec :=
  filter (fun x => PrimFloat.is_nan x = false) xs.

(** [DataFrame.mean()] on one column. *)
Definition pd_mean (xs : vec) : float := mean (dropna xs).

(** [DataFrame.std(ddof)] on one column: NaN when at most [ddof] values
    are left. *)
Definition pd_std (ddof : Z) (xs : vec) : float :=
  let ys := dropna xs in
  if (Z.of_nat (length ys) <=? ddof)%Z then nan else std ddof ys.

End Np.

(** ** McHDF.py: the HDF5 key/value sink *)

Module HDF.

(** Values that reach [_HDFstoreKV]. *)
Inductive Scalar : Type :=
| SFloat (f : float)
| SInt (z : Z)
| SStr (s : string).

Inductive Dtype : Type :=
| Float64
| Int64
| Unicode (width : nat)
| VlenStr.

Record NdArray : Type := mkNdArray
  { dtype : Dtype; shape : list nat; data : list Scalar }.

Inductive PyValue : Type :=
| PyNone
| PyTuple (items : list Scalar)
| PyList (items : list Scalar)
| PyArray (a : NdArray)
| PyScalar (s : Scalar).

(** An HDF5 file is a tree of groups with datasets at the leaves; a path
    such as [/entry1/analysis/] is its list of components. *)
#[warnings="-register-all"] Inductive Node : Type :=
| Group (members : gmap string Node)
| Dataset (d : NdArray).

Abbreviation Path := (list string).
Abbreviation FileSystem := (gmap string Node).

Definition dtype_eqb (a b : Dtype) : bool :=
  match a, b with
  | Float64, Float64 | Int64, Int64 | VlenStr, VlenStr => true
  | Unicode n, Unicode m => Nat.eqb n m
  | _, _ => false
  end.

(** [h5f[path]], from the root. *)
Fixpoint lookup_path (p : Path) (n : Node) : option Node :=
  match p with
  | [] => Some n
  | c :: p' =>
      match n with
      | Group ms =>
          match ms !! c with
          | Some child => lookup_path p' child
          | None => None
          end
      | Dataset _ => None
      end
  end.

(** [h5f.require_group(path)]: opens the group, creating it and the missing
    groups above it.  A dataset in the way is an error: a [TypeError] where
    the path ends (the object there is not a group), a [ValueError] above
    (no group can be created below a dataset). *)
Fixpoint require_group (p : Path) (n : Node) : Res Node :=
  match n with
  | Dataset _ => Raise (match p with [] => TypeError | _ => ValueError end)
  | Group ms =>
      match p with
      | [] => Ok n
      | c :: p' =>
          match require_group p' (default (Group ∅) (ms !! c)) with
          | Ok child => Ok (Group (<[c := child]> ms))
          | Raise e => Raise e
          end
      end
  end.

(** Replace the members of the group at [p]. *)
Fixpoint alter_group (f : gmap string Node -> gmap string Node)
    (p : Path) (n : Node) : Node :=
  match n with
  | Dataset _ => n
  | Group ms =>
      match p with
      | [] => Group (f ms)
      | c :: p' => Group (alter (alter_group f p') c ms)
      end
  end.

(** What is stored under [p] in file [fn] (nothing if there is no such file). *)
Definition h5_get (fs : FileSystem) (fn : string) (p : Path) : option Node :=
  match fs !! fn with
  | Some root => lookup_path p root
  | None => None
  end.

(** numpy and h5py conversions, left abstract: [np.array] of a sequence, the
    zero-dimensional array h5py builds from a scalar, [numpy.can_cast], and
    the write [dset[()] = value] into an existing dataset. *)
Class H5Library : Type :=
  { np_array : list Scalar -> NdArray;
    np_scalar : Scalar -> NdArray;
    can_cast : Dtype -> Dtype -> bool;
    h5_assign : NdArray -> Scalar -> Res NdArray }.

Section StoreKV.

Context `{H5Library}.

(** [h5py.File(filename)]: open for update, creating an empty file if there
    is none. *)
Definition h5_open (fn : string) : M FileSystem unit :=
  modify (fun fs => match fs !! fn with
                    | Some _ => fs
                    | None => <[fn := Group ∅]> fs
                    end).

Definition h5_require_group (fn : string) (p : Path) : M FileSystem unit :=
  fun fs =>
    match require_group p (default (Group ∅) (fs !! fn)) with
    | Ok root' => (Ok tt, <[fn := root']> fs)
    | Raise e => (Raise e, fs)
    end.

(** An operation on the members of the open group [h5g]. *)
Definition on_group (fn : string) (p : Path)
    (f : gmap string Node -> Res (gmap string Node)) : M FileSystem unit :=
  fun fs =>
    match h5_get fs fn p with
    | Some (Group ms) =>
        match f ms with
        | Ok ms' =>
            (Ok tt, alter (alter_group (fun _ => ms') p) fn fs)
        | Raise e => (Raise e, fs)
        end
    | _ => (Raise KeyError, fs)
    end.

(** numpy's fixed-width Unicode strings (['<U3'], ['<U6'], ...), for which
    HDF5 has no type. *)
Definition is_unicode (t : Dtype) : bool :=
  match t with Unicode _ => true | _ => false end.

(** [h5g.require_dataset(key, data, shape, dtype)]: creates the dataset if
    there is none, and otherwise only checks that the existing one fits.
    The creation of a dataset of fixed-width Unicode strings is a
    [TypeError] ("No conversion path for dtype"), and nothing is created. *)
Definition require_dataset (key : string) (a : NdArray)
    (ms : gmap string Node) : Res (gmap string Node) :=
  match ms !! key with
  | None =>
      if is_unicode (dtype a) then Raise TypeError
      else Ok (<[key := Dataset a]> ms)
  | Some (Group _) => Raise TypeError
  | Some (Dataset d) =>
      if bool_decide (shape a = shape d) && can_cast (dtype a) (dtype d)
      then Ok ms else Raise TypeError
  end.

(** The non-array branch: [h5g.get(key, None)], then [create_dataset] or
    [dset[()] = value]. *)
Definition store_scalar (key : string) (v : Scalar)
    (ms : gmap string Node) : Res (gmap string Node) :=
  match ms !! key with
  | None => Ok (<[key := Dataset (np_scalar v)]> ms)
  | Some (Dataset d) =>
      match h5_assign d v with
      | Ok d' => Ok (<[key := Dataset d']> ms)
      | Raise e => Raise e
      end
  | Some (Group _) => Raise TypeError
  end.

(** The array branch: an array of type ['<U6'] is converted to
    variable-length strings; strings of any other width go to
    [require_dataset] as they are. *)
Definition store_array (key : string) (a : NdArray) :
    gmap string Node -> Res (gmap string Node) :=
  let a' :=
    if dtype_eqb (dtype a) (Unicode 6)
    then mkNdArray VlenStr (shape a) (data a) else a in
  require_dataset key a'.

Definition _HDFstoreKV (filename : option string) (path : option Path)
    (key : option string) (value : PyValue) : M FileSystem unit :=
  assert_ (bool_decide (is_Some filename))
    "filename (output filename) cannot be empty" ;;
  assert_ (bool_decide (is_Some path)) "HDF5 path cannot be empty" ;;
  assert_ (bool_decide (is_Some key)) "key cannot be empty" ;;
  match filename, path, key with
  | Some fn, Some p, Some k =>
      h5_open fn ;;
      h5_require_group fn p ;;
      (* tuples and lists have become arrays here; None is skipped *)
      let value :=
        match value with
        | PyTuple l | PyList l => PyArray (np_array l)
        | _ => value
        end in
      match value with
      | PyArray a => on_group fn p (store_array k a)
      | PyScalar s => on_group fn p (store_scalar k s)
      | PyNone | PyTuple _ | PyList _ => ret tt
      end
  | _, _, _ => ret tt
  end.

End StoreKV.

End HDF.

(** ** mccore.py: the Monte Carlo core *)

Module Core.

Import Np.

(** A contribution: parameter name -> value. *)
Abbreviation Params := (gmap string float).

(** [x0 = (scaling, background)]; the source reads [x0[0]] and [x0[1]]. *)
Record X0 : Type := mkX0 { scaling : float; background : float }.

Record MeasData : Type := mkMeasData { Q : vec; I : vec; ISigma : vec }.

(** The fields of [McModel] the core touches.  [parameterSet] is a pandas
    DataFrame addressed by row label through [.loc]. *)
Record McModel : Type := mkModel
  { parameterSet : gmap Z Params;
    volumes : vec;
    staticParameters : Params;
    pickParameters : Params;
    nContrib : Z }.

(** The fields of [McOpt].  The counters and the two integer targets are
    Python integers; [convCrit] and [gof] are floats. *)
Record McOpt : Type := mkOpt
  { modelI : vec;
    x0 : X0;
    gof : float;
    testModelI : vec;
    testX0 : X0;
    testModelV : float;
    step : Z;
    accepted : Z;
    maxIter : Z;
    maxAccept : Z;
    convCrit : float;
    repetition : Z }.

(** What the core gets from the rest of the package and from its libraries:
    the sasmodels kernel call on a kernel made for a Q grid, returning
    [(Fsq, V_shell)]; the scaling-and-background solver built for
    [(I, ISigma)], which may raise; the random draw behind [McModel.pick];
    [np.testing.assert_approx_equal] as a test; and the constructors that
    read a stored repetition back.  The kernel, the draw and the readers are
    functions here, "deterministic, pure" as the kernel interface has it:
    nothing below speaks of a kernel, a draw or a reader that raises. *)
Class Externals : Type :=
  { Rng : Type;
    call_Fq : vec -> Params -> vec * float;
    OSB_match : vec -> vec -> vec -> X0 -> Res (X0 * float);
    generateRandomParameterSet : Rng -> Params * Rng;
    approx_equal : float -> float -> Z -> bool;
    McModel_load : string -> Z -> McModel;
    McOpt_load : string -> Z -> McOpt }.

Section McCore.

Context `{Externals}.

(** [self]: the measurement data, the model, the optimisation state, and the
    state of the random generator [pick] draws from. *)
Record McCore : Type := mkCore
  { _measData : MeasData;
    _model : McModel;
    _opt : McOpt;
    rng : Rng }.

Definition with_model (f : McModel -> McModel) (self : McCore) : McCore :=
  mkCore (_measData self) (f (_model self)) (_opt self) (rng self).
Definition with_opt (f : McOpt -> McOpt) (self : McCore) : McCore :=
  mkCore (_measData self) (_model self) (f (_opt self)) (rng self).
Definition with_rng (r : Rng) (self : McCore) : McCore :=
  mkCore (_measData self) (_model self) (_opt self) r.

Definition set_parameterSet (v : gmap Z Params) (m : McModel) : McModel :=
  mkModel v (volumes m) (staticParameters m) (pickParameters m) (nContrib m).
Definition set_volumes (v : vec) (m : McModel) : McModel :=
  mkModel (parameterSet m) v (staticParameters m) (pickParameters m) (nContrib m).
Definition set_pickParameters (v : Params) (m : McModel) : McModel :=
  mkModel (parameterSet m) (volumes m) (staticParameters m) v (nContrib m).

Definition set_modelI (v : vec) (o : McOpt) : McOpt :=
  mkOpt v (x0 o) (gof o) (testModelI o) (testX0 o) (testModelV o) (step o)
    (accepted o) (maxIter o) (maxAccept o) (convCrit o) (repetition o).
Definition set_x0 (v : X0) (o : McOpt) : McOpt :=
  mkOpt (modelI o) v (gof o) (testModelI o) (testX0 o) (testModelV o) (step o)
    (accepted o) (maxIter o) (maxAccept o) (convCrit o) (repetition o).
Definition set_gof (v : float) (o : McOpt) : McOpt :=
  mkOpt (modelI o) (x0 o) v (testModelI o) (testX0 o) (testModelV o) (step o)
    (accepted o) (maxIter o) (maxAccept o) (convCrit o) (repetition o).
Definition set_testModelI (v : vec) (o : McOpt) : McOpt :=
  mkOpt (modelI o) (x0 o) (gof o) v (testX0 o) (testModelV o) (step o)
    (accepted o) (maxIter o) (maxAccept o) (convCrit o) (repetition o).
Definition set_testX0 (v : X0) (o : McOpt) : McOpt :=
  mkOpt (modelI o) (x0 o) (gof o) (testModelI o) v (testModelV o) (step o)
    (accepted o) (maxIter o) (maxAccept o) (convCrit o) (repetition o).
Definition set_testModelV (v : float) (o : McOpt) : McOpt :=
  mkOpt (modelI o) (x0 o) (gof o) (testModelI o) (testX0 o) v (step o)
    (accepted o) (maxIter o) (maxAccept o) (convCrit o) (repetition o).
Definition set_step (v : Z) (o : McOpt) : McOpt :=
  mkOpt (modelI o) (x0 o) (gof o) (testModelI o) (testX0 o) (testModelV o) v
    (accepted o) (maxIter o) (maxAccept o) (convCrit o) (repetition o).
Definition set_accepted (v : Z) (o : McOpt) : McOpt :=
  mkOpt (modelI o) (x0 o) (gof o) (testModelI o) (testX0 o) (testModelV o)
    (step o) v (maxIter o) (maxAccept o) (convCrit o) (repetition o).

(** [parameterSet.loc[i]]: a missing row label is a [KeyError]. *)
Definition loc (ps : gmap Z Params) (i : Z) : Res Params :=
  match ps !! i with
  | Some row => Ok row
  | None => Raise KeyError
  end.

(** [calcModelIV]: the kernel is called on [dict(staticParameters,
    **parameters)], in which [parameters] take precedence. *)
Definition calcModelIV (parameters : Params) : M McCore (vec * float) :=
  self ← get;
  let '(Fsq, V_shell) :=
    call_Fq (Q (_measData self)) (parameters ∪ staticParameters (_model self)) in
  mret (vdiv_s Fsq V_shell, V_shell).

Definition initModelI : M McCore unit :=
  self ← get;
  row0 ← lift (loc (parameterSet (_model self)) 0);
  '(I0, _) ← calcModelIV row0;
  modify (with_opt (set_modelI (replicate (length I0) 0%float))) ;;
  vols ← lift (zeros (nContrib (_model self)));
  modify (with_model (set_volumes vols)) ;;
  for_ (seqZ 0 (nContrib (_model self))) (fun contribi =>
    self ← get;
    row ← lift (loc (parameterSet (_model self)) contribi);
    '(Ic, Vc) ← calcModelIV row;
    modify (with_opt (fun o =>
      set_modelI
        (vadd (modelI o) (vdiv_s Ic (float_of_int (nContrib (_model self))))) o)) ;;
    vols' ← lift (setitem (volumes (_model self)) contribi Vc);
    modify (with_model (set_volumes vols'))).

(** [evaluate(testData)]: [testX0] is assigned only if the solver returns. *)
Definition evaluate (testData : option vec) : M McCore float :=
  self ← get;
  let testData := default (modelI (_opt self)) testData in
  '(tx0, g) ← lift (OSB_match (I (_measData self)) (ISigma (_measData self))
                      testData (x0 (_opt self)));
  modify (with_opt (set_testX0 tx0)) ;;
  mret g.

(** [step % nContrib] on Python integers. *)
Definition contribIndex : M McCore Z :=
  self ← get;
  if nContrib (_model self) =? 0 then raise ZeroDivisionError
  else mret (step (_opt self) `mod` nContrib (_model self)).

Definition reEvaluate : M McCore float :=
  i ← contribIndex;
  self ← get;
  row ← lift (loc (parameterSet (_model self)) i);
  '(Iold, _) ← calcModelIV row;
  '(Ipick, Vpick) ← calcModelIV (pickParameters (_model self));
  modify (with_opt (fun o =>
    set_testModelI
      (vadd (modelI o)
         (vdiv_s (vsub Ipick Iold) (float_of_int (nContrib (_model self))))) o)) ;;
  modify (with_opt (set_testModelV Vpick)) ;;
  self ← get;
  evaluate (Some (testModelI (_opt self))).

Definition reject : M McCore unit := mret tt.

(** [accept]: [.loc[i] = row] replaces the row labelled [i] (and would add
    it if there were none). *)
Definition accept : M McCore unit :=
  i ← contribIndex;
  modify (with_model (fun m =>
    set_parameterSet (<[i := pickParameters m]> (parameterSet m)) m)) ;;
  modify (with_opt (fun o => set_modelI (testModelI o) o)) ;;
  i ← contribIndex;
  self ← get;
  vols ← lift (setitem (volumes (_model self)) i (testModelV (_opt self)));
  modify (with_model (set_volumes vols)) ;;
  modify (with_opt (fun o => set_x0 (testX0 o) o)) ;;
  modify (with_opt (fun o => set_accepted (accepted o + 1) o)).

(** Modelled from the spec: [McModel.pick] (mcmodel.py is not among the
    sources) "sets pickParameters to a fresh independent draw from the
    prior; does not mutate parameterSet". *)
Definition pick : M McCore unit :=
  modify (fun self =>
    let '(p, r) := generateRandomParameterSet (rng self) in
    with_rng r (with_model (set_pickParameters p) self)).

Definition iterate : M McCore unit :=
  pick ;;
  newGof ← reEvaluate;
  self ← get;
  (if (newGof <? gof (_opt self))%float
   then accept ;; modify (with_opt (set_gof newGof))
   else mret tt) ;;
  modify (with_opt (fun o => set_step (step o + 1) o)).

(** The loop test of [optimize]; [&] on booleans evaluates all three. *)
Definition keepGoing (o : McOpt) : bool :=
  (accepted o <? maxAccept o) && (step o <? maxIter o)
  && (convCrit o <? gof o)%float.

(** [while keepGoing: iterate()].  Every pass that returns adds one to
    [step], so [maxIter - step] passes always suffice; [fuel] counts them.
    The [print] calls of the source only write to standard output and are
    left out. *)
Fixpoint optimize_loop (fuel : nat) : M McCore unit :=
  self ← get;
  if keepGoing (_opt self) then
    match fuel with
    | O => mret tt
    | S fuel' => iterate ;; optimize_loop fuel'
    end
  else mret tt.

Definition optimize : M McCore unit :=
  self ← get;
  optimize_loop (Z.to_nat (maxIter (_opt self) - step (_opt self))).

(** [load]: rebuilds the model and the optimisation state from the file. *)
Definition load (measData : MeasData) (r : Rng) (loadFromFile : string)
    (loadFromRepetition : option Z) : Res McCore :=
  match loadFromRepetition with
  | None =>
      Raise (AssertionError
        "When you are loading from a file, a repetition index must be specified")
  | Some rep =>
      Ok (mkCore measData (McModel_load loadFromFile rep)
            (McOpt_load loadFromFile rep) r)
  end.

(** [np.testing.assert_approx_equal(actual, desired, significant, err_msg)] *)
Definition assert_approx_equal (actual desired : float) (significant : Z)
    (err_msg : string) : M McCore unit :=
  if approx_equal actual desired significant then mret tt
  else raise (AssertionError err_msg).

(** The part of [__init__] after [self._model] and [self._opt] are set.
    The solver object and the kernel that it builds from the measurement
    data are what [OSB_match] and [call_Fq] take their first arguments for. *)
Definition init_body (loaded : option (float * X0)) : M McCore unit :=
  initModelI ;;
  g ← evaluate None;
  modify (with_opt (set_gof g)) ;;
  modify (with_opt (fun o => set_x0 (testX0 o) o)) ;;
  match loaded with
  | Some (testGof, testX0) =>
      self ← get;
      assert_approx_equal testGof (gof (_opt self)) 3
        "goodness-of-fit mismatch between loaded results and new calculation" ;;
      assert_approx_equal (scaling testX0) (scaling (x0 (_opt self))) 3
        "scaling factor mismatch between loaded results and new calculation" ;;
      assert_approx_equal (background testX0) (background (x0 (_opt self))) 3
        "background mismatch between loaded results and new calculation"
  | None => mret tt
  end.

(** [McCore(measData, model, opt, loadFromFile, loadFromRepetition)]: the
    object exists only if the constructor returns.  [model] and [opt]
    default to [None], on which the first attribute access fails. *)
Definition McCore_init (measData : option MeasData) (model : option McModel)
    (opt : option McOpt) (r : Rng) (loadFromFile : option string)
    (loadFromRepetition : option Z) : Res McCore :=
  match measData with
  | None => Raise (AssertionError "measurement data must be provided to McCore")
  | Some md =>
      match loadFromFile with
      | Some file =>
          match load md r file loadFromRepetition with
          | Ok self =>
              match init_body (Some (gof (_opt self), x0 (_opt self))) self with
              | (Ok _, self') => Ok self'
              | (Raise e, _) => Raise e
              end
          | Raise e => Raise e
          end
      | None =>
          match model, opt with
          | Some model, Some opt =>
              let self := mkCore md model (set_accepted 0 (set_step 0 opt)) r in
              match init_body None self with
              | (Ok _, self') => Ok self'
              | (Raise e, _) => Raise e
              end
          | _, _ => Raise AttributeError
          end
      end
  end.

(** *** Closed forms used in the statements below *)

(** The trial intensity of the spec: "testModelI = modelI + (Fsq_pick/V_pick
    - Fsq_old/V_old) / N_c", for the row [row] that the pick would replace. *)
Definition trialI (self : McCore) (row : Params) : vec :=
  let old := call_Fq (Q (_measData self)) (row ∪ staticParameters (_model self)) in
  let new := call_Fq (Q (_measData self))
               (pickParameters (_model self) ∪ staticParameters (_model self)) in
  vadd (modelI (_opt self))
    (vdiv_s (vsub (vdiv_s new.1 new.2) (vdiv_s old.1 old.2))
       (float_of_int (nContrib (_model self)))).

(** The volume of the pick. *)
Definition trialV (self : McCore) : float :=
  (call_Fq (Q (_measData self))
     (pickParameters (_model self) ∪ staticParameters (_model self))).2.

(** The state after an accepted move that set [volumes] to [vols]. *)
Definition accepted_core (self : McCore) (vols : vec) : McCore :=
  let m := _model self in
  let o := _opt self in
  let i := step o `mod` nContrib m in
  mkCore (_measData self)
    (mkModel (<[i := pickParameters m]> (parameterSet m)) vols
       (staticParameters m) (pickParameters m) (nContrib m))
    (mkOpt (testModelI o) (testX0 o) (gof o) (testModelI o) (testX0 o)
       (testModelV o) (step o) (accepted o + 1) (maxIter o) (maxAccept o)
       (convCrit o) (repetition o))
    (rng self).

(** The intensity and the volume of one row, as [calcModelIV] returns them. *)
Definition contribution (self : McCore) (row : Params) : vec * float :=
  let r := call_Fq (Q (_measData self)) (row ∪ staticParameters (_model self)) in
  (vdiv_s r.1 r.2, r.2).

(** The sum of the spec's initialisation, "modelI = (1/N_c) Σ Fsq_i / V_i":
    every row's intensity over [nContrib], added in row order onto [K]
    zeros. *)
Definition summed_intensity (self : McCore) (K : nat) (rows : list Params) : vec :=
  foldl (fun acc row =>
           vadd acc (vdiv_s (contribution self row).1
                       (float_of_int (nContrib (_model self)))))
        (replicate K 0%float) rows.

Definition init_state (self : McCore) (mI vols : vec) : McCore :=
  with_opt (set_modelI mI) (with_model (set_volumes vols) self).

(** The three assertions that end a reload, in their order. *)
Definition init_asserts (testGof : float) (testX0 : X0) (o : McOpt) : Res unit :=
  if negb (approx_equal testGof (gof o) 3) then
    Raise (AssertionError
      "goodness-of-fit mismatch between loaded results and new calculation")
  else if negb (approx_equal (scaling testX0) (scaling (x0 o)) 3) then
    Raise (AssertionError
      "scaling factor mismatch between loaded results and new calculation")
  else if negb (approx_equal (background testX0) (background (x0 o)) 3) then
    Raise (AssertionError
      "background mismatch between loaded results and new calculation")
  else Ok tt.

(** The three comparisons of the reload check, to 3 significant digits. *)
Definition reload_agrees (stored core : McCore) : bool :=
  approx_equal (gof (_opt stored)) (gof (_opt core)) 3
  && approx_equal (scaling (x0 (_opt stored))) (scaling (x0 (_opt core))) 3
  && approx_equal (background (x0 (_opt stored))) (background (x0 (_opt core))) 3.

Definition reload_messages : list string :=
  ["goodness-of-fit mismatch between loaded results and new calculation";
   "scaling factor mismatch between loaded results and new calculation";
   "background mismatch between loaded results and new calculation"]%string.

(** The ensemble is consistent: one volume per contribution, and each the
    kernel volume of the row with its label. *)
Definition ensemble_consistent (self : McCore) : Prop :=
  Z.of_nat (length (volumes (_model self))) = nContrib (_model self)
  /\ forall i : nat, Z.of_nat i < nContrib (_model self) ->
       exists row,
         parameterSet (_model self) !! Z.of_nat i = Some row
         /\ volumes (_model self) !! i = Some (contribution self row).2.

(** The rows labelled [0 .. n-1] all exist. *)
Definition rows_present (ps : gmap Z Params) (n : Z) : bool :=
  forallb (fun i => bool_decide (is_Some (ps !! i))) (seqZ 0 n).

End McCore.

End Core.

(** ** mcanalysis.py: averaging over the repetitions *)

Module Analysis.

Import Np Core.

(** A Python [dict] with integer keys: insertion ordered, and assigning to
    a key that is present keeps its place. *)
Abbreviation PyDict V := (list (Z * V)).

Definition dict_get {V} (d : PyDict V) (k : Z) : Res V :=
  match list_find (fun kv => kv.1 = k) d with
  | Some (_, (_, v)) => Ok v
  | None => Raise KeyError
  end.

Fixpoint dict_set {V} (d : PyDict V) (k : Z) (v : V) : PyDict V :=
  match d with
  | [] => [(k, v)]
  | (k', v') :: d' =>
      if bool_decide (k' = k) then (k, v) :: d' else (k', v') :: dict_set d' k v
  end.

Definition dict_has {V} (d : PyDict V) (k : Z) : bool :=
  bool_decide (k ∈ d.*1).

Definition dict_values {V} (d : PyDict V) : list V := d.*2.

(** [xs[i]] on a Python list, for [i >= 0]. *)
Definition list_item {A} (xs : list A) (i : nat) : Res A :=
  match xs !! i with
  | Some x => Ok x
  | None => Raise IndexError
  end.

(** All results of a list of lookups, or the first exception. *)
Fixpoint collect {A} (rs : list (Res A)) : Res (list A) :=
  match rs with
  | [] => Ok []
  | Ok a :: rs' =>
      match collect rs' with
      | Ok l => Ok (a :: l)
      | Raise e => Raise e
      end
  | Raise e :: _ => Raise e
  end.

(** The five population modes of one histogram range, in the order of
    [_modeKeys]. *)
Record Modes : Type := mkModes
  { totalValue : float; mean : float; variance : float;
    skew : float; kurtosis : float }.

Definition modes_row (m : Modes) : vec :=
  [totalValue m; mean m; variance m; skew m; kurtosis m].

Definition _modeKeys : list string :=
  ["totalValue"; "mean"; "variance"; "skew"; "kurtosis"]%string.
Definition _optKeys : list string :=
  ["scaling"; "background"; "gof"; "accepted"; "step"]%string.

(** The filled columns of an averaged histogram ([Obs], [cdfMean] and
    [cdfStd] are declared and never assigned). *)
Record AveragedHistogram : Type := mkAvgHist
  { xMean : vec; xWidth : vec; yMean : vec; yStd : vec }.

(** A table with [valMean] and [valStd], one entry per column key. *)
Record MeanStd : Type := mkMeanStd { valMean : vec; valStd : vec }.

Record AveragedI : Type := mkAvgI { modelIMean : vec; modelIStd : vec }.

(** A column reduction over the rows of a DataFrame with [ncols] columns. *)
Definition df_reduce (ncols : nat) (f : vec -> float) (rows : list vec) : vec :=
  (fun j => f (column rows j)) <$> seq 0 ncols.

(** What the aggregator gets from outside: [os.path.isfile]; the repetition
    numbers [getNRep] finds among the keys of the model group of a result
    file; and the histogrammer of one repetition (mcmodelhistogrammer.py is
    not among the sources).  [mh = McModelHistogrammer(model, histRanges)]
    may raise, which is [McModelHistogrammer_init]; when it returns,
    [McModelHistogrammer] gives what [mh._modes], [mh._histDict] and
    [mh._binEdges] hold for one range of the table: its modes, bin heights
    and bin edges.  [mh.store(filename, repetition)] may raise as well.
    Modelled from the spec: the stored ensemble and optimisation state are
    "snapshotted at the end, then treated as immutable", so what the store
    of the histogrammer adds to the file is nothing a later reload reads. *)
Class AnalysisExternals `{Externals} : Type :=
  { HistRange : Type;
    isfile : string -> bool;
    stored_repetitions : string -> list Z;
    McModelHistogrammer_init : McModel -> list (Z * HistRange) -> Res unit;
    McModelHistogrammer : McModel -> HistRange -> Modes * vec * vec;
    McModelHistogrammer_store :
      McModel -> list (Z * HistRange) -> string -> Z -> Res unit }.

Section McAnalysis.

Context `{AnalysisExternals}.

(** The attributes that [McAnalysis] only ever mutates in place: they are
    created once, in the class body, and shared by all its instances. *)
Record ClassAttrs : Type := mkClassAttrs
  { _concatI : PyDict vec;
    _concatModes : PyDict (PyDict Modes);
    _concatHistograms : PyDict (PyDict vec);
    _concatBinEdges : PyDict (PyDict vec);
    _averagedHistograms : PyDict AveragedHistogram }.

(** The attributes [__init__] and the methods rebind on the instance. *)
Record InstanceAttrs : Type := mkInstanceAttrs
  { _core : option McCore;
    _measData : option MeasData;
    _histRanges : list (Z * HistRange);
    _concatOpts : PyDict vec;
    _averagedModes : PyDict MeanStd;
    _averagedI : option AveragedI;
    _averagedOpts : option MeanStd;
    _repetitionList : list Z }.

(** The class, one instance of it, and the random generator of the process
    (which the analysis hands to the cores it builds and never advances). *)
Record McAnalysis : Type := mkAnalysis
  { cls : ClassAttrs; self_ : InstanceAttrs; process_rng : Rng }.

(** The class as the module defines it, before any instance exists. *)
Definition class_body : ClassAttrs := mkClassAttrs [] [] [] [] [].

Definition with_cls (f : ClassAttrs -> ClassAttrs) (a : McAnalysis) : McAnalysis :=
  mkAnalysis (f (cls a)) (self_ a) (process_rng a).
Definition with_self (f : InstanceAttrs -> InstanceAttrs) (a : McAnalysis) : McAnalysis :=
  mkAnalysis (cls a) (f (self_ a)) (process_rng a).

Definition set_concatI (v : PyDict vec) (c : ClassAttrs) : ClassAttrs :=
  mkClassAttrs v (_concatModes c) (_concatHistograms c) (_concatBinEdges c)
    (_averagedHistograms c).
Definition set_concatModes (v : PyDict (PyDict Modes)) (c : ClassAttrs) : ClassAttrs :=
  mkClassAttrs (_concatI c) v (_concatHistograms c) (_concatBinEdges c)
    (_averagedHistograms c).
Definition set_concatHistograms (v : PyDict (PyDict vec)) (c : ClassAttrs) : ClassAttrs :=
  mkClassAttrs (_concatI c) (_concatModes c) v (_concatBinEdges c)
    (_averagedHistograms c).
Definition set_concatBinEdges (v : PyDict (PyDict vec)) (c : ClassAttrs) : ClassAttrs :=
  mkClassAttrs (_concatI c) (_concatModes c) (_concatHistograms c) v
    (_averagedHistograms c).
Definition set_averagedHistograms (v : PyDict AveragedHistogram) (c : ClassAttrs) : ClassAttrs :=
  mkClassAttrs (_concatI c) (_concatModes c) (_concatHistograms c)
    (_concatBinEdges c) v.

Definition set_core (v : option McCore) (i : InstanceAttrs) : InstanceAttrs :=
  mkInstanceAttrs v (_measData i) (_histRanges i) (_concatOpts i)
    (_averagedModes i) (_averagedI i) (_averagedOpts i) (_repetitionList i).
Definition set_concatOpts (v : PyDict vec) (i : InstanceAttrs) : InstanceAttrs :=
  mkInstanceAttrs (_core i) (_measData i) (_histRanges i) v
    (_averagedModes i) (_averagedI i) (_averagedOpts i) (_repetitionList i).
Definition set_averagedModes (v : PyDict MeanStd) (i : InstanceAttrs) : InstanceAttrs :=
  mkInstanceAttrs (_core i) (_measData i) (_histRanges i) (_concatOpts i)
    v (_averagedI i) (_averagedOpts i) (_repetitionList i).
Definition set_averagedI (v : option AveragedI) (i : InstanceAttrs) : InstanceAttrs :=
  mkInstanceAttrs (_core i) (_measData i) (_histRanges i) (_concatOpts i)
    (_averagedModes i) v (_averagedOpts i) (_repetitionList i).
Definition set_averagedOpts (v : option MeanStd) (i : InstanceAttrs) : InstanceAttrs :=
  mkInstanceAttrs (_core i) (_measData i) (_histRanges i) (_concatOpts i)
    (_averagedModes i) (_averagedI i) v (_repetitionList i).
Definition set_repetitionList (v : list Z) (i : InstanceAttrs) : InstanceAttrs :=
  mkInstanceAttrs (_core i) (_measData i) (_histRanges i) (_concatOpts i)
    (_averagedModes i) (_averagedI i) (_averagedOpts i) v.

(** [getNRep]: starts from an empty list and appends what the file holds. *)
Definition getNRep (inputFile : string) : M McAnalysis unit :=
  modify (with_self (set_repetitionList [])) ;;
  modify (with_self (set_repetitionList (stored_repetitions inputFile))).

Definition ensureConcatEssentials (histIndex : Z) : M McAnalysis unit :=
  modify (with_cls (fun c =>
    if dict_has (_concatModes c) histIndex then c
    else set_concatModes (dict_set (_concatModes c) histIndex []) c)) ;;
  modify (with_cls (fun c =>
    if dict_has (_concatHistograms c) histIndex then c
    else set_concatHistograms (dict_set (_concatHistograms c) histIndex []) c)) ;;
  modify (with_cls (fun c =>
    if dict_has (_concatBinEdges c) histIndex then c
    else set_concatBinEdges (dict_set (_concatBinEdges c) histIndex []) c)).

(** [d[histIndex][repetition]] on a dictionary of dictionaries. *)
Definition dict_get2 {V} (d : PyDict (PyDict V)) (histIndex repetition : Z) : Res V :=
  match dict_get d histIndex with
  | Ok inner => dict_get inner repetition
  | Raise e => Raise e
  end.

(** [d[histIndex][repetition] = v] on a dictionary of dictionaries. *)
Definition dict_set2 {V} (d : PyDict (PyDict V)) (histIndex repetition : Z)
    (v : V) : Res (PyDict (PyDict V)) :=
  match dict_get d histIndex with
  | Ok inner => Ok (dict_set d histIndex (dict_set inner repetition v))
  | Raise e => Raise e
  end.

(** [histAndLoadReps]: for every repetition of the list the reload, the
    histogrammer, its store if [store] is set, and then the tables. *)
Definition histAndLoadReps (inputFile : string) (store : bool) : M McAnalysis unit :=
  a ← get;
  for_ (_repetitionList (self_ a)) (fun repetition =>
    a ← get;
    core ← lift (McCore_init (_measData (self_ a)) None None (process_rng a)
                   (Some inputFile) (Some repetition));
    modify (with_self (set_core (Some core))) ;;
    lift (McModelHistogrammer_init (_model core) (_histRanges (self_ a))) ;;
    (if store
     then lift (McModelHistogrammer_store (_model core) (_histRanges (self_ a))
                  inputFile repetition)
     else mret tt) ;;
    let o := _opt core in
    modify (with_self (fun i =>
      set_concatOpts
        (dict_set (_concatOpts i) repetition
           [scaling (x0 o); background (x0 o); gof o;
            float_of_int (accepted o); float_of_int (step o)]) i)) ;;
    modify (with_cls (fun c =>
      set_concatI
        (dict_set (_concatI c) repetition
           (vadd_s (vmul_s (modelI o) (scaling (x0 o))) (background (x0 o)))) c)) ;;
    for_ (_histRanges (self_ a)) (fun '(histIndex, histRange) =>
      ensureConcatEssentials histIndex ;;
      let '(modes, hist, edges) := McModelHistogrammer (_model core) histRange in
      a ← get;
      cm ← lift (dict_set2 (_concatModes (cls a)) histIndex repetition modes);
      modify (with_cls (set_concatModes cm)) ;;
      ch ← lift (dict_set2 (_concatHistograms (cls a)) histIndex repetition hist);
      modify (with_cls (set_concatHistograms ch)) ;;
      ce ← lift (dict_set2 (_concatBinEdges (cls a)) histIndex repetition edges);
      modify (with_cls (set_concatBinEdges ce)))).

(** [averageI]: every entry of [_concatI] goes into the average; pandas
    refuses the two scalars that numpy returns for an empty array. *)
Definition averageI : M McAnalysis unit :=
  a ← get;
  rows ← lift (array2d (dict_values (_concatI (cls a))));
  match rows with
  | [] => raise ValueError
  | _ =>
      modify (with_self (set_averagedI (Some
        (mkAvgI (reduce_axis0 Np.mean rows) (reduce_axis0 (std 0) rows)))))
  end.

Definition averageOpts : M McAnalysis unit :=
  modify (with_self (fun i =>
    let rows := dict_values (_concatOpts i) in
    set_averagedOpts (Some
      (mkMeanStd (df_reduce (length _optKeys) pd_mean rows)
                 (df_reduce (length _optKeys) (pd_std 1) rows))) i)).

Definition averageMode (histIndex : Z) : M McAnalysis MeanStd :=
  a ← get;
  df ← lift (dict_get (_concatModes (cls a)) histIndex);
  let rows := modes_row <$> dict_values df in
  mret (mkMeanStd (df_reduce (length _modeKeys) pd_mean rows)
                  (df_reduce (length _modeKeys) (pd_std 1) rows)).

(** [averageModes]: the local [dfs] becomes [_averagedModes] at the end. *)
Definition averageModes : M McAnalysis unit :=
  a ← get;
  dfs ← foldl (fun acc '(histIndex, _) =>
                 dfs ← acc; df ← averageMode histIndex;
                 mret (dict_set dfs histIndex df))
              (mret []) (_histRanges (self_ a));
  modify (with_self (set_averagedModes dfs)).

(** [averageHistogram]; the histograms are looked up repetition by
    repetition, so that without repetitions no table is read for them. *)
Definition averageHistogram (histIndex : Z) : M McAnalysis AveragedHistogram :=
  a ← get;
  let reps := _repetitionList (self_ a) in
  rows ← lift (collect (dict_get2 (_concatHistograms (cls a)) histIndex <$> reps));
  hists ← lift (array2d rows);
  let yMean := reduce_axis0 Np.mean hists in
  let yStd :=
    reduce_axis0 (std (if (1 <? length hists)%nat then 1 else 0)) hists in
  (if (1 <? length reps)%nat then
     edges ← lift (dict_get (_concatBinEdges (cls a)) histIndex);
     r0 ← lift (list_item reps 0);
     e0 ← lift (dict_get edges r0);
     r1 ← lift (list_item reps 1);
     e1 ← lift (dict_get edges r1);
     same ← lift (all_eq e0 e1);
     assert_ same ""
   else mret tt) ;;
  edges ← lift (dict_get (_concatBinEdges (cls a)) histIndex);
  r0 ← lift (list_item reps 0);
  binEdges ← lift (dict_get edges r0);
  let xWidth := diff binEdges in
  (if (length xWidth =? length yMean)%nat then mret tt else raise ValueError) ;;
  let xMean :=
    vadd (take (length binEdges - 1) binEdges)
      ((fun w => (0.5 * w)%float) <$> xWidth) in
  mret (mkAvgHist xMean xWidth yMean yStd).

Definition averageHistograms : M McAnalysis unit :=
  a ← get;
  for_ (_histRanges (self_ a)) (fun '(histIndex, _) =>
    h ← averageHistogram histIndex;
    modify (with_cls (fun c =>
      set_averagedHistograms (dict_set (_averagedHistograms c) histIndex h) c))).

(** [McAnalysis(inputFile, measData, histRanges, store)], run on a new
    instance; what it leaves in the class attributes stays there. *)
Definition McAnalysis_init (inputFile : string) (measData : option MeasData)
    (histRanges : option (list (Z * HistRange))) (store : bool) :
    M McAnalysis unit :=
  assert_ (isfile inputFile)
    "A valid McSAS3 project filename must be provided. " ;;
  assert_ (bool_decide (is_Some histRanges))
    "A pandas dataframe with histogram ranges must be provided" ;;
  assert_ (bool_decide (is_Some measData))
    "measurement data must be provided for analysis" ;;
  modify (with_self (fun i =>
    mkInstanceAttrs (_core i) measData (default [] histRanges) []
      (_averagedModes i) (_averagedI i) (_averagedOpts i) (_repetitionList i))) ;;
  getNRep inputFile ;;
  histAndLoadReps inputFile store ;;
  averageModes ;;
  averageHistograms ;;
  averageOpts ;;
  averageI.

(** A new instance: nothing is bound on it yet, and attribute lookups fall
    back on the class. *)
Definition new_instance (shared : ClassAttrs) (r : Rng) : McAnalysis :=
  mkAnalysis shared (mkInstanceAttrs None None [] [] [] None None []) r.

(** The scaled intensity of the spec, "scaled_I_r = scaling_r * modelI_r +
    background_r", for a reloaded repetition. *)
Definition scaledI (core : McCore) : vec :=
  vadd_s (vmul_s (modelI (_opt core)) (scaling (x0 (_opt core))))
    (background (x0 (_opt core))).

(** *** Closed forms used in the statements below *)

(** [hists] in [averageHistogram]: the histograms of the repetitions of the
    list, as one array. *)
Definition stacked_histograms (histIndex : Z) (a : McAnalysis) : Res (list vec) :=
  match collect (dict_get2 (_concatHistograms (cls a)) histIndex
                   <$> _repetitionList (self_ a)) with
  | Ok rows => array2d rows
  | Raise e => Raise e
  end.

(** The table [averageHistogram] makes of [hists] and of the bin edges it
    takes from the first repetition; pandas refuses columns of different
    lengths. *)
Definition averaged (hists : list vec) (binEdges : vec) : Res AveragedHistogram :=
  let yMean := reduce_axis0 Np.mean hists in
  let xWidth := diff binEdges in
  if (length xWidth =? length yMean)%nat then
    Ok (mkAvgHist
          (vadd (take (length binEdges - 1) binEdges)
             ((fun w => (0.5 * w)%float) <$> xWidth))
          xWidth yMean
          (reduce_axis0 (std (if (1 <? length hists)%nat then 1 else 0)) hists))
  else Raise ValueError.

(** The class with the bin edges of one repetition replaced:
    [_concatBinEdges[histIndex][repetition] = binEdges] on the table
    [edges] of the range. *)
Definition with_binEdges (histIndex repetition : Z) (edges : PyDict vec)
    (binEdges : vec) : McAnalysis -> McAnalysis :=
  with_cls (fun c =>
    set_concatBinEdges
      (dict_set (_concatBinEdges c) histIndex (dict_set edges repetition binEdges)) c).



(** What precedes the tables in one pass of [histAndLoadReps]: the reload,
    the histogrammer of the reloaded model, and its store if asked for. *)
Definition reload (a : McAnalysis) (inputFile : string) (repetition : Z) : Res McCore :=
  McCore_init (_measData (self_ a)) None None (process_rng a)
    (Some inputFile) (Some repetition).

Definition histogrammed (a : McAnalysis) (inputFile : string) (store : bool)
    (repetition : Z) : Res McCore :=
  match reload a inputFile repetition with
  | Raise e => Raise e
  | Ok core =>
      match McModelHistogrammer_init (_model core) (_histRanges (self_ a)) with
      | Raise e => Raise e
      | Ok _ =>
          if store then
            match McModelHistogrammer_store (_model core) (_histRanges (self_ a))
                    inputFile repetition with
            | Raise e => Raise e
            | Ok _ => Ok core
            end
          else Ok core
      end
  end.

(** *** The loops of [histAndLoadReps], pass by pass *)

(** The row of [_concatOpts] that a reloaded repetition contributes. *)
Definition opt_row (core : McCore) : vec :=
  [scaling (x0 (_opt core)); background (x0 (_opt core)); gof (_opt core);
   float_of_int (accepted (_opt core)); float_of_int (step (_opt core))].

(** One pass of the inner loop of [histAndLoadReps]: the results of the
    histogrammer for one range go into the three tables. *)
Definition range_pass (repetition : Z) (model : McModel) :
    Z * HistRange -> M McAnalysis unit :=
  fun '(histIndex, histRange) =>
    ensureConcatEssentials histIndex ;;
    let '(modes, hist, edges) := McModelHistogrammer model histRange in
    a ← get;
    cm ← lift (dict_set2 (_concatModes (cls a)) histIndex repetition modes);
    modify (with_cls (set_concatModes cm)) ;;
    ch ← lift (dict_set2 (_concatHistograms (cls a)) histIndex repetition hist);
    modify (with_cls (set_concatHistograms ch)) ;;
    ce ← lift (dict_set2 (_concatBinEdges (cls a)) histIndex repetition edges);
    modify (with_cls (set_concatBinEdges ce)).

(** One pass of its outer loop: one repetition is reloaded, histogrammed
    and tabulated. *)
Definition rep_pass (inputFile : string) (store : bool) (repetition : Z) :
    M McAnalysis unit :=
  a ← get;
  core ← lift (McCore_init (_measData (self_ a)) None None (process_rng a)
                 (Some inputFile) (Some repetition));
  modify (with_self (set_core (Some core))) ;;
  lift (McModelHistogrammer_init (_model core) (_histRanges (self_ a))) ;;
  (if store
   then lift (McModelHistogrammer_store (_model core) (_histRanges (self_ a))
                inputFile repetition)
   else mret tt) ;;
  let o := _opt core in
  modify (with_self (fun i =>
    set_concatOpts
      (dict_set (_concatOpts i) repetition
         [scaling (x0 o); background (x0 o); gof o;
          float_of_int (accepted o); float_of_int (step o)]) i)) ;;
  modify (with_cls (fun c =>
    set_concatI
      (dict_set (_concatI c) repetition
         (vadd_s (vmul_s (modelI o) (scaling (x0 o))) (background (x0 o)))) c)) ;;
  for_ (_histRanges (self_ a)) (range_pass repetition (_model core)).

(** A table after the write [d[histIndex][repetition] = v]: the entry is
    there, and every other entry reads as before. *)
Definition table_written {V} (d d' : PyDict (PyDict V)) (histIndex repetition : Z)
    (v : V) : Prop :=
  dict_get2 d' histIndex repetition = Ok v
  /\ forall h rep, (h, rep) <> (histIndex, repetition) ->
       dict_get2 d' h rep = dict_get2 d h rep.

(** A table after the writes [ws], all for one repetition, in their order. *)
Fixpoint table_writes {V} (repetition : Z) (ws : list (Z * V))
    (d d' : PyDict (PyDict V)) : Prop :=
  match ws with
  | [] => d' = d
  | (h, v) :: ws' =>
      exists d1, table_written d d1 h repetition v
                 /\ table_writes repetition ws' d1 d'
  end.

End McAnalysis.

End Analysis.

(** ** Python strings, as far as the repetition keys need them *)

Module PyStr.

(** [sub in s] *)
Fixpoint contains (sub s : string) : bool :=
  String.prefix sub s
  || match s with
     | EmptyString => false
     | String _ s' => contains sub s'
     end.

Definition in_chars (chars : string) (c : ascii) : bool :=
  existsb (Ascii.eqb c) (String.list_ascii_of_string chars).

(** Leading, then trailing characters that satisfy [p] are dropped. *)
Fixpoint lstrip_by (p : ascii -> bool) (s : string) : string :=
  match s with
  | EmptyString => EmptyString
  | String c s' => if p c then lstrip_by p s' else s
  end.

Fixpoint rstrip_by (p : ascii -> bool) (s : string) : string :=
  match s with
  | EmptyString => EmptyString
  | String c s' =>
      match rstrip_by p s' with
      | EmptyString => if p c then EmptyString else String c EmptyString
      | r => String c r
      end
  end.

(** [s.strip(chars)]: [chars] is a set of characters, not a prefix. *)
Definition strip (chars s : string) : string :=
  rstrip_by (in_chars chars) (lstrip_by (in_chars chars) s).

(** The ASCII characters [int] skips around a number. *)
Definition is_space (c : ascii) : bool :=
  let n := nat_of_ascii c in
  ((9 <=? n) && (n <=? 13) || (n =? 32))%nat.

Definition digit (c : ascii) : option Z :=
  let n := nat_of_ascii c in
  if ((48 <=? n) && (n <=? 57))%nat then Some (Z.of_nat (n - 48)) else None.

(** Decimal digits, with single underscores allowed between them. *)
Fixpoint int_digits (s : string) (acc : Z) (after_digit : bool) : option Z :=
  match s with
  | EmptyString => if after_digit then Some acc else None
  | String c s' =>
      match digit c with
      | Some d => int_digits s' (10 * acc + d) true
      | None =>
          if after_digit && Ascii.eqb c "_"%char then int_digits s' acc false else None
      end
  end.

(** [int(s)] on ASCII text, base 10: surrounding white space, an optional
    sign, digits; anything else is a [ValueError]. *)
Definition int (s : string) : Res Z :=
  let s := rstrip_by is_space (lstrip_by is_space s) in
  let '(negative, body) :=
    match s with
    | String c r =>
        if Ascii.eqb c "-"%char then (true, r)
        else if Ascii.eqb c "+"%char then (false, r) else (false, s)
    | EmptyString => (false, s)
    end in
  match int_digits body 0 false with
  | Some n => Ok (if negative then - n else n)
  | None => Raise ValueError
  end.

(** [str(n)] and ["{}".format(n)] for an integer. *)
Definition str (n : Z) : string := NilZero.string_of_int (Z.to_int n).

(** The characters [str] prints a number with. *)
Definition number_char (c : ascii) : bool := in_chars "0123456789-" c.

End PyStr.

(** ** The repetition keys of a result file *)

Module Repetitions.

Import PyStr.

(** The name under which [McCore.store] files repetition [n]:
    ["repetition{}".format(n)]. *)
Definition repetition_key (n : Z) : string := "repetition" +:+ str n.

(** One pass of the loop of [getNRep] over the keys of the model group;
    the state is [self._repetitionList]. *)
Definition key_pass (key : string) : M (list Z) unit :=
  if contains "repetition" key then
    n ← lift (int (strip "repetition" key));
    modify (fun l => l ++ [n])
  else mret tt.

(** [getNRep] on the keys it finds. *)
Definition read_repetitions (keys : list string) : M (list Z) unit :=
  modify (fun _ => []) ;;
  for_ keys key_pass.

(** A key of the group: one of a repetition, or some other name. *)
Definition group_key (item : string + Z) : string :=
  match item with
  | inl other => other
  | inr n => repetition_key n
  end.

Definition repetitions_among (items : list (string + Z)) : list Z :=
  omap (fun item => match item with inl _ => None | inr n => Some n end) items.

End Repetitions.

(** ** mcsas3_cli_runner.py: the command line *)

Module Cli.

Import Analysis.

(** [sys.platform] tests. *)
Definition isLinux (platform : string) : bool :=
  String.eqb platform "linux" || String.eqb platform "linux2".
Definition isMac (platform : string) : bool := String.eqb platform "darwin".
Definition isWindows (platform : string) : bool := String.eqb platform "win32".

(** [arg.startswith("-psn")] *)
Definition is_psn (arg : string) : bool := String.prefix "-psn" arg.

(** The loop that drops the process serial number macOS adds to the
    arguments: [for i in range(len(sys.argv)): if
    sys.argv[i].startswith("-psn"): del sys.argv[i]].  The range is fixed
    when the loop starts; the state is [sys.argv]. *)
Definition psn_pass (i : nat) : M (list string) unit :=
  argv ← get;
  arg ← lift (list_item argv i);
  if is_psn arg then modify (delete i) else mret tt.

Definition drop_psn : M (list string) unit :=
  argv ← get;
  for_ (seq 0 (length argv)) psn_pass.

(** What the main program does to [sys.argv] before it parses it. *)
Definition prepare_argv (platform : string) : M (list string) unit :=
  if isMac platform then drop_psn else mret tt.

End Cli.

(** ** A small concrete instance: externals, data and stored results *)

Module Fixture.

Import Np Core Analysis.

#[local] Open Scope float_scope.

Definition measData0 : MeasData := mkMeasData [1; 2] [3; 6] [1; 1].

Definition radius (p : Params) : float := default 1 (p !! "radius"%string).

(** A kernel with [Fsq / V_shell = radius * q]. *)
Definition kernel (Q : vec) (p : Params) : vec * float :=
  let r := radius p in
  let V := r + 1 in
  ((fun q => r * V * q) <$> Q, V).

Definition constant (m : vec) : bool :=
  match m with
  | [] => true
  | x :: rest => forallb (PrimFloat.eqb x) rest
  end.

(** A solver that keeps scaling 1 and background 0, returns the sum of the
    squared residuals, and fails on a constant model intensity (for which
    scaling and background cannot be told apart). *)
Definition solver (Iobs ISig m : vec) (guess : X0) : Res (X0 * float) :=
  if constant m then Raise IllConditioned
  else Ok (mkX0 1 0, sum (zip_with (fun i mk => (i - mk) * (i - mk)) Iobs m)).

(** The generator hands out prepared radii. *)
Definition draw (rs : list float) : Params * list float :=
  match rs with
  | r :: rs' => ({[ "radius"%string := r ]}, rs')
  | [] => ({[ "radius"%string := 1 ]}, [])
  end.

Definition close_enough (actual desired : float) (significant : Z) : bool :=
  abs (actual - desired) <=? abs desired * 0.0078125.

Definition two_spheres (r0 r1 : float) : McModel :=
  mkModel (<[0%Z := {[ "radius"%string := r0 ]}]>
             (<[1%Z := {[ "radius"%string := r1 ]}]> ∅))
    [] ∅ ∅ 2.

Definition one_sphere (r0 : float) : McModel :=
  mkModel (<[0%Z := {[ "radius"%string := r0 ]}]> ∅) [] ∅ ∅ 1.

Definition stored_opt (g : float) (rep : Z) : McOpt :=
  mkOpt [] (mkX0 1 0) g [] (mkX0 1 0) 0 100 10 100000 1000 1 rep.

(** Four result files: [run.h5] with repetitions 0, 1, 2; [single.h5]
    with repetition 7; [late.h5], of which only repetition 2 made it; and
    [drift.h5] whose stored goodness-of-fit is off. *)
Definition stored_model (file : string) (rep : Z) : McModel :=
  if String.eqb file "run.h5" then
    (if rep =? 0 then two_spheres 1 2
     else if rep =? 1 then two_spheres 2 1
     else two_spheres 1 4)%Z
  else if String.eqb file "single.h5" then two_spheres 1 3
  else if String.eqb file "late.h5" then two_spheres 2 4
  else two_spheres 1 2.

Definition stored_optimization (file : string) (rep : Z) : McOpt :=
  if String.eqb file "run.h5" then
    (if rep =? 2 then stored_opt 1.25 rep else stored_opt 11.25 rep)%Z
  else if String.eqb file "single.h5" then stored_opt 5 rep
  else if String.eqb file "late.h5" then stored_opt 0 rep
  else stored_opt 99 rep.

#[local] Instance externals : Externals :=
  {| Rng := list float;
     call_Fq := kernel;
     OSB_match := solver;
     generateRandomParameterSet := draw;
     approx_equal := close_enough;
     McModel_load := stored_model;
     McOpt_load := stored_optimization |}.

Definition fresh_opt : McOpt :=
  mkOpt [] (mkX0 1 0) 0 [] (mkX0 1 0) 0 0 0 100000 1000 1 0.

Definition radii (m : McModel) : vec :=
  (fun i => radius (default ∅ (parameterSet m !! i))) <$> seqZ 0 (nContrib m).

(** A histogrammer of the radii, weighted by volume, with two bins over
    the range [(rangeMin, rangeMax)].  Modelled from the spec: the bin edges
    "are deterministic functions of (rangeMin, rangeMax, nBins, binScale)",
    computed "from the range spec, never from data extrema". *)
Definition histogrammer (m : McModel) (range : float * float) :
    Modes * vec * vec :=
  let '(lo, hi) := range in
  let mid := (lo + hi) / 2 in
  let rv := zip (radii m) (volumes m) in
  let total := sum (volumes m) in
  let avg := sum ((fun p => p.1 * p.2) <$> rv) / total in
  (mkModes total avg 0 0 3,
   [sum ((fun p => if p.1 <=? mid then p.2 else 0) <$> rv);
    sum ((fun p => if p.1 <=? mid then 0 else p.2) <$> rv)],
   [lo; mid; hi]).

(** The histogrammer refuses a table with a range that is empty or upside
    down; its store fails on [late.h5], which cannot be written. *)
Definition histogrammer_init (m : McModel) (ranges : list (Z * (float * float))) :
    Res unit :=
  if forallb (fun hr => hr.2.1 <? hr.2.2) ranges then Ok tt else Raise ValueError.

Definition histogrammer_store (m : McModel) (ranges : list (Z * (float * float)))
    (file : string) (rep : Z) : Res unit :=
  if String.eqb file "late.h5" then Raise ValueError else Ok tt.

Definition result_files : list string :=
  ["run.h5"; "single.h5"; "late.h5"; "drift.h5"]%string.

#[local] Instance analysis_externals : AnalysisExternals :=
  {| HistRange := float * float;
     isfile := fun f => bool_decide (f ∈ result_files);
     stored_repetitions := fun f =>
       if String.eqb f "run.h5" then [0; 1; 2]%Z
       else if String.eqb f "single.h5" then [7]%Z
       else if String.eqb f "late.h5" then [2]%Z else [0]%Z;
     McModelHistogrammer_init := histogrammer_init;
     McModelHistogrammer := histogrammer;
     McModelHistogrammer_store := histogrammer_store |}.

(** A two-sphere core right after its constructor, with the draws [rs] to come. *)
Definition core2 (rs : list float) : Res McCore :=
  McCore_init (Some measData0) (Some (two_spheres 1 2)) (Some fresh_opt) rs None None.

Definition core1 (rs : list float) : Res McCore :=
  McCore_init (Some measData0) (Some (one_sphere 1)) (Some fresh_opt) rs None None.

(** The two-sphere core as its constructor leaves it, with the draws [rs]
    ahead, and the one-sphere core. *)
Definition start2 (rs : list float) : McCore :=
  mkCore measData0
    (mkModel (parameterSet (two_spheres 1 2)) [2; 3] ∅ ∅ 2)
    (mkOpt [1.5; 3] (mkX0 1 0) 11.25 [] (mkX0 1 0) 0 0 0 100000 1000 1 0)
    rs.

Definition start1 (rs : list float) : McCore :=
  mkCore measData0
    (mkModel (parameterSet (one_sphere 1)) [2] ∅ ∅ 1)
    (mkOpt [1; 2] (mkX0 1 0) 20 [] (mkX0 1 0) 0 0 0 100000 1000 1 0)
    rs.

(** The same run with a convergence criterion far above any fit. *)
Definition lenient_opt : McOpt :=
  mkOpt [] (mkX0 1 0) 0 [] (mkX0 1 0) 0 0 0 100000 1000 1e12 0.

Definition start_lenient (rs : list float) : McCore :=
  mkCore measData0
    (mkModel (parameterSet (two_spheres 1 2)) [2; 3] ∅ ∅ 2)
    (mkOpt [1.5; 3] (mkX0 1 0) 11.25 [] (mkX0 1 0) 0 0 0 100000 1000 1e12 0)
    rs.

(** Repetition 2 of [run.h5] as the file holds it. *)
Definition stored2 : McCore :=
  mkCore measData0 (stored_model "run.h5" 2) (stored_optimization "run.h5" 2)
    ([] : list float).

(** One histogram range with index 0, over [0, 4] or over [0, 8], and a
    table whose range is upside down. *)
Definition fixed_range : list (Z * (float * float)) := [(0%Z, (0, 4))].
Definition wide_range : list (Z * (float * float)) := [(0%Z, (0, 8))].
Definition bad_range : list (Z * (float * float)) := [(0%Z, (4, 0))].

(** Analyses in a new process: of [run.h5] and of [single.h5]; and the
    analyses of [single.h5] and of [late.h5], the latter over the wider
    range, each in the process that has analysed [run.h5] before. *)
Definition run_analysis : Res unit * McAnalysis :=
  McAnalysis_init "run.h5" (Some measData0) (Some fixed_range) false
    (new_instance class_body ([] : list float)).

Definition single_analysis : Res unit * McAnalysis :=
  McAnalysis_init "single.h5" (Some measData0) (Some fixed_range) false
    (new_instance class_body ([] : list float)).

Definition second_analysis : Res unit * McAnalysis :=
  McAnalysis_init "single.h5" (Some measData0) (Some fixed_range) false
    (new_instance (cls run_analysis.2) ([] : list float)).

Definition late_analysis : Res unit * McAnalysis :=
  McAnalysis_init "late.h5" (Some measData0) (Some wide_range) false
    (new_instance (cls run_analysis.2) ([] : list float)).

(** The instance of the analysis of [run.h5], in the process as the
    analysis of [late.h5] has left it: the class-level tables are shared. *)
Definition run_instance_later : McAnalysis :=
  mkAnalysis (cls late_analysis.2) (self_ run_analysis.2) ([] : list float).

(** A stand-in for numpy and h5py, and a file that holds one dataset. *)
#[local] Instance h5library : HDF.H5Library :=
  {| HDF.np_array := fun l => HDF.mkNdArray HDF.Float64 [length l] l;
     HDF.np_scalar := fun v => HDF.mkNdArray HDF.Float64 [] [v];
     HDF.can_cast := HDF.dtype_eqb;
     HDF.h5_assign := fun d v => Ok (HDF.mkNdArray (HDF.dtype d) (HDF.shape d) [v]) |}.

Definition one_dataset : HDF.FileSystem :=
  {[ "out.h5"%string :=
       HDF.Group {[ "entry1"%string :=
         HDF.Group {[ "gof"%string :=
           HDF.Dataset (HDF.mkNdArray HDF.Float64 [] [HDF.SFloat 1.25]) ]} ]} ]}.

(** A stand-in in which every file exists and holds no repetition. *)
Definition no_repetitions : AnalysisExternals :=
  {| HistRange := float * float;
     isfile := fun _ => true;
     stored_repetitions := fun _ => [];
     McModelHistogrammer_init := histogrammer_init;
     McModelHistogrammer := histogrammer;
     McModelHistogrammer_store := histogrammer_store |}.

(** The analysis of [run.h5] right after [getNRep]. *)
Definition run_listed : McAnalysis :=
  mkAnalysis class_body
    (mkInstanceAttrs None (Some measData0) fixed_range [] [] None None [0; 1; 2]%Z)
    ([] : list float).

(** A core without contributions. *)
Definition no_spheres (rs : list float) : McCore :=
  mkCore measData0 (mkModel (parameterSet (two_spheres 1 2)) [] ∅ ∅ 0)
    (mkOpt [0; 0] (mkX0 1 0) 45 [] (mkX0 1 0) 0 0 0 100000 1000 1 0)
    rs.

End Fixture.

(** * Properties *)

(** Unfolds the plumbing of the monad. *)
Ltac mrun :=
  unfold mbind, M_bind, mret, M_ret, bind, ret, raise, get, gets, modify,
    lift, assert_ in *; simpl in *.

(** A run is its result and its final state. *)
Lemma run_result {A S : Type} (p : Res A * S) (r : Res A) :
  p.1 = r -> p = (r, p.2).
Proof. destruct p as [r' s]. simpl. by intros ->. Qed.

(** ** Floating-point facts *)

Section Float_facts.

Import Np.

#[local] Open Scope float_scope.

Lemma finite_shape (x : float) :
  finite x = true ->
  (exists s, Prim2SF x = S754_zero s)
  \/ (exists s m e, Prim2SF x = S754_finite s m e /\ bounded prec emax m e = true).
Proof.
  unfold finite, PrimFloat.is_nan, PrimFloat.is_infinity.
  rewrite !FloatAxioms.eqb_spec, FloatAxioms.abs_spec.
  pose proof (Prim2SF_valid x) as Hv.
  destruct (Prim2SF x) as [s|s| |s m e]; simpl in *.
  - intros _. left. eauto.
  - rewrite andb_true_iff. intros [_ Hinf]. exfalso.
    replace (Prim2SF infinity) with (S754_infinity false) in Hinf by reflexivity.
    by destruct s.
  - discriminate.
  - intros _. right. eauto.
Qed.



Lemma div_eucl_exact (a b : Z) : (0 < b)%Z -> Z.div_eucl (a * b) b = (a, 0%Z).
Proof.
  intros Hb.
  pose proof (Z.div_mul a b ltac:(lia)) as Hq.
  pose proof (Z.mod_mul a b ltac:(lia)) as Hr.
  unfold Z.modulo, Z.div in *.
  destruct (Z.div_eucl (a * b) b) as [q r]. by subst.
Qed.

Lemma div_core_by_one (m : positive) (e : Z) :
  bounded prec emax m e = true ->
  exists k : Z,
    (k = 0 \/ (k = 1 /\ Z.pos (digits2_pos m) = 53 /\ -1074 < e))%Z
    /\ SFdiv_core_binary prec emax (Z.pos m) e 4503599627370496 (-52)
       = ((Z.pos m * 2 ^ k)%Z, (e - k)%Z, loc_Exact).
Proof.
  unfold bounded, canonical_mantissa, fexp, SpecFloat.emin.
  change prec with 53%Z. change emax with 1024%Z.
  rewrite andb_true_iff, Z.eqb_eq, Z.leb_le. intros [Hcan He].
  unfold SFdiv_core_binary, fexp, SpecFloat.emin.
  change (Zdigits2 4503599627370496) with 53%Z.
  change (Zdigits2 (Z.pos m)) with (Z.pos (digits2_pos m)).
  set (d := Z.pos (digits2_pos m)) in *.
  assert (0 < d)%Z by (unfold d; lia).
  cbv zeta.
  destruct (Z_lt_le_dec (-1074) e) as [Hnorm|Hsub].
  - exists 1%Z. split; [right; lia|].
    replace (Z.min (Z.max (d + e - (53 + -52) - 53) (3 - 1024 - 53)) (e - -52))
      with (e - 1)%Z by lia.
    replace (e - -52 - (e - 1))%Z with 53%Z by lia.
    rewrite Z.shiftl_mul_pow2 by lia.
    replace (Z.pos m * 2 ^ 53)%Z with (Z.pos m * 2 ^ 1 * 4503599627370496)%Z by lia.
    rewrite div_eucl_exact by lia. reflexivity.
  - exists 0%Z. split; [left; lia|].
    replace (Z.min (Z.max (d + e - (53 + -52) - 53) (3 - 1024 - 53)) (e - -52))
      with e by lia.
    replace (e - -52 - e)%Z with 52%Z by lia.
    rewrite Z.shiftl_mul_pow2 by lia.
    replace (Z.pos m * 2 ^ 52)%Z with (Z.pos m * 2 ^ 0 * 4503599627370496)%Z by lia.
    rewrite div_eucl_exact by lia. rewrite Z.sub_0_r. reflexivity.
Qed.


Lemma round_aux_exact (s : bool) (m : positive) (e k : Z) :
  bounded prec emax m e = true ->
  (k = 0 \/ (k = 1 /\ Z.pos (digits2_pos m) = 53 /\ -1074 < e))%Z ->
  binary_round_aux prec emax s (Z.pos m * 2 ^ k) (e - k) loc_Exact
  = S754_finite s m e.
Proof.
  unfold bounded, canonical_mantissa.
  rewrite andb_true_iff, Z.eqb_eq. intros [Hcan He] Hk.
  assert (Hshr : shr_fexp prec emax (Z.pos m) e loc_Exact
                 = ({| shr_m := Z.pos m; shr_r := false; shr_s := false |}, e)).
  { unfold shr_fexp. change (Zdigits2 (Z.pos m)) with (Z.pos (digits2_pos m)).
    rewrite Hcan, Z.sub_diag. reflexivity. }
  unfold binary_round_aux.
  destruct Hk as [->|(-> & Hd & Hnorm)].
  - rewrite Z.mul_1_r, Z.sub_0_r, Hshr. simpl. by rewrite Hshr, He.
  - replace (Z.pos m * 2 ^ 1)%Z with (Z.pos m~0) by lia.
    assert (Hshr1 : shr_fexp prec emax (Z.pos m~0) (e - 1) loc_Exact
                    = ({| shr_m := Z.pos m; shr_r := false; shr_s := false |}, e)).
    { unfold shr_fexp.
      change (Zdigits2 (Z.pos m~0)) with (Z.pos (Pos.succ (digits2_pos m))).
      rewrite Pos2Z.inj_succ, Hd.
      unfold fexp, SpecFloat.emin in *.
      change prec with 53%Z in *. change emax with 1024%Z in *.
      replace (Z.max (Z.succ 53 + (e - 1) - 53) (3 - 1024 - 53) - (e - 1))%Z
        with 1%Z by lia.
      simpl. f_equal. lia. }
    rewrite Hshr1. simpl. by rewrite Hshr, He.
Qed.

Lemma div_one (x : float) : finite x = true -> x / 1 = x.
Proof.
  intros Hf. apply Prim2SF_inj. rewrite FloatAxioms.div_spec.
  replace (Prim2SF 1) with (S754_finite false 4503599627370496 (-52)) by reflexivity.
  destruct (finite_shape x Hf) as [[s ->]|(s & m & e & -> & Hb)].
  - by destruct s.
  - unfold SF64div, SFdiv.
    destruct (div_core_by_one m e Hb) as (k & Hk & ->).
    rewrite xorb_false_r. by apply round_aux_exact.
Qed.


(** With [ddof = 1] whatever is left of a single value has no spread. *)
Lemma pd_std_single (x : float) : PrimFloat.is_nan (pd_std 1 [x]) = true.
Proof.
  unfold pd_std, dropna. rewrite filter_cons, filter_nil.
  destruct (decide (PrimFloat.is_nan x = false)); reflexivity.
Qed.

Lemma SFcompare_Lt_trans (x y z : spec_float) :
  SFcompare x y = Some Lt -> SFcompare y z = Some Lt -> SFcompare x z = Some Lt.
Proof.
  destruct x as [sx|sx| |sx mx ex], y as [sy|sy| |sy my ey],
           z as [sz|sz| |sz mz ez]; simpl;
    try discriminate; try done;
    try (destruct sx; try discriminate; try done);
    try (destruct sy; try discriminate; try done);
    try (destruct sz; try discriminate; try done).
  all: destruct (Z.compare_spec ex ey), (Z.compare_spec ey ez), (Z.compare_spec ex ez);
      subst; try discriminate; try done; try lia.
  all: repeat match goal with |- context [PosDef.Pos.compare_cont Eq ?a ?b] =>
         change (PosDef.Pos.compare_cont Eq a b) with (Pos.compare a b) end.
  all: try (destruct (Pos.compare_spec mx my), (Pos.compare_spec my mz), (Pos.compare_spec mx mz);
        subst; simpl; try discriminate; try done; try lia).
  all: try (intros _ H; exact H).
  all: try (intros H _; exact H).
Qed.

Lemma ltb_trans (x y z : float) :
  (x <? y) = true -> (y <? z) = true -> (x <? z) = true.
Proof.
  rewrite !FloatAxioms.ltb_spec. unfold SFltb.
  destruct (SFcompare (Prim2SF x) (Prim2SF y)) as [[]|] eqn:E1; try discriminate.
  destruct (SFcompare (Prim2SF y) (Prim2SF z)) as [[]|] eqn:E2; try discriminate.
  by rewrite (SFcompare_Lt_trans _ _ _ E1 E2).
Qed.

End Float_facts.

(** ** The HDF5 sink *)

Section HDF_facts.

Import HDF.

Context `{H5Library}.

Lemma lookup_path_in_empty_group (q : Path) (d : NdArray) :
  lookup_path q (Group ∅) ≠ Some (Dataset d).
Proof.
  destruct q as [|c q]; simpl; [discriminate|].
  rewrite lookup_empty. discriminate.
Qed.

Lemma lookup_path_below_empty_group (q : Path) (k : string) :
  lookup_path (q ++ [k]) (Group ∅) = None.
Proof. destruct q; simpl; by rewrite lookup_empty. Qed.

Lemma require_group_inv (p : Path) (n n' : Node) :
  require_group p n = Ok n' ->
  match p with
  | [] => n' = n /\ exists ms, n = Group ms
  | c :: p' =>
      exists ms child,
        n = Group ms
        /\ require_group p' (default (Group ∅) (ms !! c)) = Ok child
        /\ n' = Group (<[c := child]> ms)
  end.
Proof.
  destruct p as [|c p']; destruct n as [ms|d]; simpl; try discriminate.
  - intros [= <-]. eauto.
  - destruct (require_group p' _) as [child|e] eqn:E; [|discriminate].
    intros [= <-]. eauto.
Qed.

(** [require_group] neither creates, changes nor removes a dataset. *)
Lemma require_group_datasets (p : Path) :
  forall n n', require_group p n = Ok n' ->
  forall q d, lookup_path q n' = Some (Dataset d) <-> lookup_path q n = Some (Dataset d).
Proof.
  induction p as [|c p' IH]; intros n n' Hrg q d;
    apply require_group_inv in Hrg.
  - destruct Hrg as [-> _]. reflexivity.
  - destruct Hrg as (ms & child & -> & Hchild & ->).
    destruct q as [|c' q]; simpl; [split; discriminate|].
    destruct (decide (c = c')) as [<-|Hne].
    + rewrite lookup_insert_eq. rewrite (IH _ _ Hchild).
      destruct (ms !! c) as [x|]; simpl; [reflexivity|].
      split; [|discriminate]. intros Hd. by apply lookup_path_in_empty_group in Hd.
    + by rewrite lookup_insert_ne.
Qed.

(** After [require_group] there is a group at the path. *)
Lemma require_group_group (p : Path) :
  forall n n', require_group p n = Ok n' ->
  exists ms, lookup_path p n' = Some (Group ms).
Proof.
  induction p as [|c p' IH]; intros n n' Hrg; apply require_group_inv in Hrg.
  - destruct Hrg as [-> [ms ->]]. simpl. eauto.
  - destruct Hrg as (ms & child & -> & Hchild & ->). simpl.
    rewrite lookup_insert_eq. eauto.
Qed.

(** What is stored under a key of the group is what was there before. *)
Lemma require_group_key (p : Path) (k : string) :
  forall n n', require_group p n = Ok n' ->
  lookup_path (p ++ [k]) n' = lookup_path (p ++ [k]) n.
Proof.
  induction p as [|c p' IH]; intros n n' Hrg; apply require_group_inv in Hrg.
  - by destruct Hrg as [-> _].
  - destruct Hrg as (ms & child & -> & Hchild & ->). simpl.
    rewrite lookup_insert_eq, (IH _ _ Hchild).
    destruct (ms !! c); simpl; [reflexivity|].
    apply lookup_path_below_empty_group.
Qed.

Lemma h5_get_insert_ne (fs : FileSystem) (fn fn' : string) (root : Node) (q : Path) :
  fn ≠ fn' -> h5_get (<[fn := root]> fs) fn' q = h5_get fs fn' q.
Proof. intros Hne. unfold h5_get. by rewrite lookup_insert_ne. Qed.

Lemma h5_get_insert_eq (fs : FileSystem) (fn : string) (root : Node) (q : Path) :
  h5_get (<[fn := root]> fs) fn q = lookup_path q root.
Proof. unfold h5_get. by rewrite lookup_insert_eq. Qed.

(** The call with [value = None], written out. *)
Lemma HDFstoreKV_None_run (fs : FileSystem) (filename : string) (path : Path)
    (key : string) :
  _HDFstoreKV (Some filename) (Some path) (Some key) PyNone fs =
  let root := default (Group ∅) (fs !! filename) in
  match require_group path root with
  | Ok root' => (Ok tt, <[filename := root']> fs)
  | Raise e => (Raise e, <[filename := root]> fs)
  end.
Proof.
  unfold _HDFstoreKV, h5_open, h5_require_group. mrun.
  destruct (fs !! filename) as [root|] eqn:E; simpl.
  - rewrite E. simpl. destruct (require_group path root); [reflexivity|].
    by rewrite insert_id.
  - rewrite lookup_insert_eq. simpl.
    destruct (require_group path (Group ∅)); [|reflexivity].
    by rewrite insert_insert_eq.
Qed.

(** C10: [_HDFstoreKV] with [value = None] writes no dataset.  Whatever the
    file name, path and key: every dataset of every file is, after the call,
    exactly what it was before (none is created, overwritten or removed);
    in particular what is stored under the key at the path is unchanged;
    and when the call returns, the group at the path exists. *)
Theorem HDFstoreKV_None_writes_no_dataset (fs : FileSystem) (filename : string)
    (path : Path) (key : string) :
  let '(r, fs') := _HDFstoreKV (Some filename) (Some path) (Some key) PyNone fs in
  (forall fn q d,
      h5_get fs' fn q = Some (Dataset d) <-> h5_get fs fn q = Some (Dataset d))
  /\ h5_get fs' filename (path ++ [key]) = h5_get fs filename (path ++ [key])
  /\ (r = Ok tt -> exists ms, h5_get fs' filename path = Some (Group ms))
  /\ (r = Ok tt <-> is_Ok (require_group path (default (Group ∅) (fs !! filename))) = true).
Proof.
  rewrite HDFstoreKV_None_run. cbv zeta.
  set (root := default (Group ∅) (fs !! filename)).
  assert (Hroot : forall q d,
    lookup_path q root = Some (Dataset d) <-> h5_get fs filename q = Some (Dataset d)).
  { intros q d. unfold root, h5_get. destruct (fs !! filename); simpl; [reflexivity|].
    split; [|discriminate]. intros Hd. by apply lookup_path_in_empty_group in Hd. }
  assert (Hkey : lookup_path (path ++ [key]) root = h5_get fs filename (path ++ [key])).
  { unfold root, h5_get. destruct (fs !! filename); simpl; [reflexivity|].
    apply lookup_path_below_empty_group. }
  destruct (require_group path root) as [root'|e] eqn:Hrg; simpl.
  - repeat split; try done.
    + destruct (decide (filename = fn)) as [<-|Hne].
      * rewrite h5_get_insert_eq, (require_group_datasets _ _ _ Hrg). apply Hroot.
      * by rewrite h5_get_insert_ne.
    + destruct (decide (filename = fn)) as [<-|Hne].
      * rewrite h5_get_insert_eq, (require_group_datasets _ _ _ Hrg). apply Hroot.
      * by rewrite h5_get_insert_ne.
    + by rewrite h5_get_insert_eq, (require_group_key _ _ _ _ Hrg).
    + intros _. rewrite h5_get_insert_eq. by eapply require_group_group.
  - repeat split; try done.
    + destruct (decide (filename = fn)) as [<-|Hne].
      * rewrite h5_get_insert_eq. apply Hroot.
      * by rewrite h5_get_insert_ne.
    + destruct (decide (filename = fn)) as [<-|Hne].
      * rewrite h5_get_insert_eq. apply Hroot.
      * by rewrite h5_get_insert_ne.
    + by rewrite h5_get_insert_eq.
Qed.

(** Under a group, a key holds what the group's members hold. *)
Lemma lookup_path_snoc (p : Path) (k : string) :
  forall n ms, lookup_path p n = Some (Group ms) ->
  lookup_path (p ++ [k]) n = ms !! k.
Proof.
  induction p as [|c p IH]; intros n ms; simpl.
  - intros [= ->]. by destruct (ms !! k).
  - destruct n as [ms0|d]; [|discriminate].
    destruct (ms0 !! c) as [child|]; [|discriminate]. apply IH.
Qed.

Lemma lookup_path_alter_group (ms' : gmap string Node) (p : Path) :
  forall n ms, lookup_path p n = Some (Group ms) ->
  lookup_path p (alter_group (fun _ => ms') p n) = Some (Group ms').
Proof.
  induction p as [|c p IH]; intros n ms; simpl.
  - by intros [= ->].
  - destruct n as [ms0|d]; [|discriminate].
    destruct (ms0 !! c) as [child|] eqn:Ec; [|discriminate]. intros Hp. simpl.
    rewrite lookup_alter_eq, Ec. simpl. by eapply IH.
Qed.

(** Replacing the members of the group at [p] by members that differ at
    most in [k], where a dataset came or was replaced, changes no dataset
    elsewhere. *)
Lemma alter_group_frame (ms' : gmap string Node) (k : string) (p : Path) :
  forall n ms,
  lookup_path p n = Some (Group ms) ->
  (forall k', k' <> k -> ms' !! k' = ms !! k') ->
  (ms' !! k = ms !! k
   \/ (exists x, ms' !! k = Some (Dataset x))
      /\ (ms !! k = None \/ exists y, ms !! k = Some (Dataset y))) ->
  forall q d, q <> p ++ [k] ->
  lookup_path q (alter_group (fun _ => ms') p n) = Some (Dataset d)
  <-> lookup_path q n = Some (Dataset d).
Proof.
  induction p as [|c p IH]; intros n ms Hp Hother Hk q d Hq; simpl in *.
  - injection Hp as ->. destruct q as [|c' q]; simpl; [done|].
    destruct (decide (c' = k)) as [->|Hne]; [|by rewrite Hother].
    destruct Hk as [->|[[x ->] Hold]]; [done|].
    destruct q as [|c'' q]; [done|]. simpl.
    destruct Hold as [->|[y ->]]; done.
  - destruct n as [ms0|d0]; [|discriminate].
    destruct (ms0 !! c) as [child|] eqn:Ec; [|discriminate].
    destruct q as [|c' q]; simpl; [done|].
    destruct (decide (c' = c)) as [->|Hne].
    + rewrite lookup_alter_eq, Ec. simpl.
      eapply IH; try done. intros ->. done.
    + by rewrite lookup_alter_ne.
Qed.

Lemma lookup_path_default (fs : FileSystem) (fn : string) (q : Path) (d : NdArray) :
  lookup_path q (default (Group ∅) (fs !! fn)) = Some (Dataset d)
  <-> h5_get fs fn q = Some (Dataset d).
Proof.
  unfold h5_get. destruct (fs !! fn); simpl; [done|].
  split; [|done]. intros Hd. by apply lookup_path_in_empty_group in Hd.
Qed.

Lemma lookup_path_default_key (fs : FileSystem) (fn : string) (p : Path) (k : string) :
  lookup_path (p ++ [k]) (default (Group ∅) (fs !! fn)) = h5_get fs fn (p ++ [k]).
Proof.
  unfold h5_get. destruct (fs !! fn); simpl; [done|].
  apply lookup_path_below_empty_group.
Qed.

(** The call with a value that is written by [f] into the group. *)
Lemma HDFstoreKV_write_run (fs : FileSystem) (fn : string) (p : Path)
    (k : string) (value : PyValue) (f : gmap string Node -> Res (gmap string Node)) :
  (forall fs1,
     match value with
     | PyTuple l | PyList l => on_group fn p (store_array k (np_array l)) fs1
     | PyArray a => on_group fn p (store_array k a) fs1
     | PyScalar s => on_group fn p (store_scalar k s) fs1
     | PyNone => (Ok tt, fs1)
     end = on_group fn p f fs1) ->
  _HDFstoreKV (Some fn) (Some p) (Some k) value fs =
  let root := default (Group ∅) (fs !! fn) in
  match require_group p root with
  | Raise e => (Raise e, <[fn := root]> fs)
  | Ok root' =>
      match lookup_path p root' with
      | Some (Group ms) =>
          match f ms with
          | Ok ms' => (Ok tt, <[fn := alter_group (fun _ => ms') p root']> fs)
          | Raise e => (Raise e, <[fn := root']> fs)
          end
      | _ => (Raise KeyError, <[fn := root']> fs)
      end
  end.
Proof.
  intros Hf. unfold _HDFstoreKV, h5_open, h5_require_group. mrun.
  set (root := default (Group ∅) (fs !! fn)).
  assert (Hopen : forall fs0,
    fs0 = match fs !! fn with Some _ => fs | None => <[fn := Group ∅]> fs end ->
    default (Group ∅) (fs0 !! fn) = root /\ forall n, <[fn := n]> fs0 = <[fn := n]> fs).
  { intros fs0 ->. unfold root. destruct (fs !! fn) as [n0|] eqn:E; simpl.
    - by rewrite E.
    - rewrite lookup_insert_eq. split; [done|]. intros n. by rewrite insert_insert_eq. }
  destruct (Hopen _ eq_refl) as [Hroot Hins]. rewrite Hroot.
  destruct (require_group p root) as [root'|e] eqn:Hrg.
  2:{ f_equal. unfold root. destruct (fs !! fn) as [n0|] eqn:E; simpl; [|done].
      by rewrite insert_id. }
  rewrite Hins.
  assert (Hrun : forall (A : Res unit * FileSystem),
    A = on_group fn p f (<[fn := root']> fs) ->
    A = match lookup_path p root' with
        | Some (Group ms) =>
            match f ms with
            | Ok ms' => (Ok tt, <[fn := alter_group (fun _ => ms') p root']> fs)
            | Raise e => (Raise e, <[fn := root']> fs)
            end
        | _ => (Raise KeyError, <[fn := root']> fs)
        end).
  { intros A ->. unfold on_group. rewrite h5_get_insert_eq.
    destruct (lookup_path p root') as [[ms|d]|]; try done.
    destruct (f ms) as [ms'|e]; [|done].
    f_equal. rewrite alter_insert_eq. done. }
  apply Hrun. rewrite <- Hf. by destruct value.
Qed.

(** Both writers leave every other key of the group alone, and put a
    dataset only where there was none or another dataset. *)
Lemma store_scalar_key (k : string) (v : Scalar) (ms ms' : gmap string Node) :
  store_scalar k v ms = Ok ms' ->
  (forall k', k' <> k -> ms' !! k' = ms !! k')
  /\ (ms' !! k = ms !! k
      \/ (exists x, ms' !! k = Some (Dataset x))
         /\ (ms !! k = None \/ exists y, ms !! k = Some (Dataset y))).
Proof.
  unfold store_scalar. destruct (ms !! k) as [[g|d]|] eqn:Ek; [done| |].
  - destruct (h5_assign d v) as [d'|e]; [|done]. intros [= <-]. split.
    + intros k' Hne. by rewrite lookup_insert_ne.
    + right. rewrite lookup_insert_eq. eauto.
  - intros [= <-]. split.
    + intros k' Hne. by rewrite lookup_insert_ne.
    + right. rewrite lookup_insert_eq. eauto.
Qed.

Lemma store_array_key (k : string) (a : NdArray) (ms ms' : gmap string Node) :
  store_array k a ms = Ok ms' ->
  (forall k', k' <> k -> ms' !! k' = ms !! k')
  /\ (ms' !! k = ms !! k
      \/ (exists x, ms' !! k = Some (Dataset x))
         /\ (ms !! k = None \/ exists y, ms !! k = Some (Dataset y))).
Proof.
  unfold store_array, require_dataset. destruct (ms !! k) as [[g|d]|] eqn:Ek; [done| |].
  - destruct (_ && _); [|done]. intros [= <-]. split; [done|]. by left.
  - destruct (is_unicode _); [done|]. intros [= <-]. split.
    + intros k' Hne. by rewrite lookup_insert_ne.
    + right. rewrite lookup_insert_eq. eauto.
Qed.

Lemma require_group_default_datasets (fs : FileSystem) (fn : string) (p : Path)
    (root' : Node) :
  require_group p (default (Group ∅) (fs !! fn)) = Ok root' ->
  forall q d, lookup_path q root' = Some (Dataset d) <-> h5_get fs fn q = Some (Dataset d).
Proof.
  intros Hrg q d. rewrite (require_group_datasets _ _ _ Hrg).
  apply lookup_path_default.
Qed.

(** X8: whatever the value, [_HDFstoreKV] leaves every dataset other than
    the one under its key, in its group, in its file, exactly as it was: none
    is created, changed or removed, also when the call fails. *)
Theorem HDFstoreKV_writes_one_key (fs : FileSystem) (fn : string) (p : Path)
    (k : string) (value : PyValue) (fn' : string) (q : Path) (d : NdArray) :
  (fn', q) <> (fn, p ++ [k]) ->
  h5_get (_HDFstoreKV (Some fn) (Some p) (Some k) value fs).2 fn' q = Some (Dataset d)
  <-> h5_get fs fn' q = Some (Dataset d).
Proof.
  intros Hq.
  assert (Hwrite : forall f,
    (forall ms ms', f ms = Ok ms' ->
       (forall k', k' <> k -> ms' !! k' = ms !! k')
       /\ (ms' !! k = ms !! k
           \/ (exists x, ms' !! k = Some (Dataset x))
              /\ (ms !! k = None \/ exists y, ms !! k = Some (Dataset y)))) ->
    forall run,
    run = (let root := default (Group ∅) (fs !! fn) in
           match require_group p root with
           | Raise e => (Raise e, <[fn := root]> fs)
           | Ok root' =>
               match lookup_path p root' with
               | Some (Group ms) =>
                   match f ms with
                   | Ok ms' => (Ok tt, <[fn := alter_group (fun _ => ms') p root']> fs)
                   | Raise e => (Raise e, <[fn := root']> fs)
                   end
               | _ => (Raise KeyError, <[fn := root']> fs)
               end
           end) ->
    h5_get run.2 fn' q = Some (Dataset d) <-> h5_get fs fn' q = Some (Dataset d)).
  { intros f Hf run ->. cbv zeta.
    destruct (decide (fn = fn')) as [<-|Hne].
    2:{ destruct (require_group _ _) as [root'|e]; simpl;
          [|by rewrite h5_get_insert_ne].
        destruct (lookup_path p root') as [[ms|?]|]; simpl;
          try by rewrite h5_get_insert_ne.
        destruct (f ms); simpl; by rewrite h5_get_insert_ne. }
    destruct (require_group _ _) as [root'|e] eqn:Hrg; simpl.
    2:{ rewrite h5_get_insert_eq. apply lookup_path_default. }
    pose proof (require_group_default_datasets _ _ _ _ Hrg) as Hds.
    destruct (lookup_path p root') as [[ms|?]|] eqn:Hp; simpl;
      try (rewrite h5_get_insert_eq; apply Hds).
    destruct (f ms) as [ms'|e] eqn:Hfms; simpl;
      [|rewrite h5_get_insert_eq; apply Hds].
    rewrite h5_get_insert_eq, <- Hds.
    destruct (Hf _ _ Hfms) as [Hother Hk].
    eapply alter_group_frame; try done. intros ->. done. }
  destruct value as [|l|l|a|s].
  - rewrite HDFstoreKV_None_run. cbv zeta.
    destruct (decide (fn = fn')) as [<-|Hne].
    2:{ destruct (require_group _ _); simpl; by rewrite h5_get_insert_ne. }
    destruct (require_group _ _) as [root'|e] eqn:Hrg; simpl; rewrite h5_get_insert_eq.
    + apply (require_group_default_datasets _ _ _ _ Hrg).
    + apply lookup_path_default.
  - apply (Hwrite (store_array k (np_array l))); [apply store_array_key|].
    by apply HDFstoreKV_write_run.
  - apply (Hwrite (store_array k (np_array l))); [apply store_array_key|].
    by apply HDFstoreKV_write_run.
  - apply (Hwrite (store_array k a)); [apply store_array_key|].
    by apply HDFstoreKV_write_run.
  - apply (Hwrite (store_scalar k s)); [apply store_scalar_key|].
    by apply HDFstoreKV_write_run.
Qed.

(** What is under the key after a write by [f]. *)
Lemma HDFstoreKV_write_key (fs : FileSystem) (fn : string) (p : Path) (k : string)
    (f : gmap string Node -> Res (gmap string Node)) (run : Res unit * FileSystem)
    (root' : Node) :
  run = (let root := default (Group ∅) (fs !! fn) in
         match require_group p root with
         | Raise e => (Raise e, <[fn := root]> fs)
         | Ok root' =>
             match lookup_path p root' with
             | Some (Group ms) =>
                 match f ms with
                 | Ok ms' => (Ok tt, <[fn := alter_group (fun _ => ms') p root']> fs)
                 | Raise e => (Raise e, <[fn := root']> fs)
                 end
             | _ => (Raise KeyError, <[fn := root']> fs)
             end
         end) ->
  require_group p (default (Group ∅) (fs !! fn)) = Ok root' ->
  exists ms,
    ms !! k = h5_get fs fn (p ++ [k])
    /\ match f ms with
       | Ok ms' => run.1 = Ok tt /\ h5_get run.2 fn (p ++ [k]) = ms' !! k
       | Raise e => run.1 = Raise e
                    /\ h5_get run.2 fn (p ++ [k]) = h5_get fs fn (p ++ [k])
       end.
Proof.
  intros -> Hrg. cbv zeta. rewrite Hrg.
  destruct (require_group_group _ _ _ Hrg) as [ms Hp]. rewrite Hp.
  exists ms. split.
  - rewrite <- (lookup_path_snoc _ _ _ _ Hp), (require_group_key _ _ _ _ Hrg).
    apply lookup_path_default_key.
  - destruct (f ms) as [ms'|e]; simpl; (split; [done|]); rewrite h5_get_insert_eq.
    + apply lookup_path_snoc. by eapply lookup_path_alter_group.
    + rewrite (require_group_key _ _ _ _ Hrg). apply lookup_path_default_key.
Qed.

(** X9: [_HDFstoreKV] with a value that is not an array, when the group
    can be opened: under a key that holds nothing the value is stored as a
    new dataset; under a key that holds a dataset the value is assigned to
    it, and a failed assignment leaves it as it was; under a key that holds
    a group the call fails and changes nothing.  When the group cannot be
    opened the call fails with the exception of [require_group]. *)
Theorem HDFstoreKV_scalar_lookup (fs : FileSystem) (fn : string) (p : Path)
    (k : string) (s : Scalar) :
  let old := h5_get fs fn (p ++ [k]) in
  let run := _HDFstoreKV (Some fn) (Some p) (Some k) (PyScalar s) fs in
  match require_group p (default (Group ∅) (fs !! fn)) with
  | Raise e => run.1 = Raise e /\ h5_get run.2 fn (p ++ [k]) = old
  | Ok _ =>
      match old with
      | None =>
          run.1 = Ok tt
          /\ h5_get run.2 fn (p ++ [k]) = Some (Dataset (np_scalar s))
      | Some (Dataset d) =>
          match h5_assign d s with
          | Ok d' => run.1 = Ok tt /\ h5_get run.2 fn (p ++ [k]) = Some (Dataset d')
          | Raise e => run.1 = Raise e /\ h5_get run.2 fn (p ++ [k]) = old
          end
      | Some (Group g) =>
          is_Ok run.1 = false /\ h5_get run.2 fn (p ++ [k]) = old
      end
  end.
Proof.
  intros old run.
  pose proof (HDFstoreKV_write_run fs fn p k (PyScalar s) (store_scalar k s)
                ltac:(done)) as Hrun. fold run in Hrun.
  destruct (require_group p _) as [root'|e] eqn:Hrg.
  2:{ rewrite Hrun. cbv zeta. rewrite Hrg. simpl. rewrite h5_get_insert_eq.
      split; [done|]. apply lookup_path_default_key. }
  destruct (HDFstoreKV_write_key fs fn p k _ run root' Hrun Hrg) as (ms & Hms & Hres).
  fold old in Hms, Hres. unfold store_scalar in Hres. rewrite Hms in Hres.
  destruct old as [[g|d]|].
  - destruct Hres as [-> ->]. done.
  - destruct (h5_assign d s) as [d'|e]; [|done].
    destruct Hres as [-> ->]. by rewrite lookup_insert_eq.
  - destruct Hres as [-> ->]. by rewrite lookup_insert_eq.
Qed.

(** X10: [_HDFstoreKV] with an array never changes what its key holds
    already.  Under a key that holds nothing, an array of type ['<U6'] is
    stored as variable-length strings, an array of Unicode strings of any
    other width makes the call raise [TypeError] and nothing is stored, and
    an array of another type is stored as it is; over a dataset the call
    returns if shape and type fit and raises [TypeError] if not, and leaves
    the stored data alone in both cases.  A tuple or a list is treated as
    the array numpy makes of it. *)
Theorem HDFstoreKV_array_keeps_existing (fs : FileSystem) (fn : string) (p : Path)
    (k : string) (a : NdArray) :
  let a' :=
    if dtype_eqb (dtype a) (Unicode 6)
    then mkNdArray VlenStr (shape a) (data a) else a in
  let old := h5_get fs fn (p ++ [k]) in
  let run := _HDFstoreKV (Some fn) (Some p) (Some k) (PyArray a) fs in
  match require_group p (default (Group ∅) (fs !! fn)) with
  | Raise e => run.1 = Raise e /\ h5_get run.2 fn (p ++ [k]) = old
  | Ok _ =>
      match old with
      | None =>
          match dtype a with
          | Unicode 6 =>
              run.1 = Ok tt
              /\ h5_get run.2 fn (p ++ [k])
                 = Some (Dataset (mkNdArray VlenStr (shape a) (data a)))
          | Unicode _ =>
              run.1 = Raise TypeError /\ h5_get run.2 fn (p ++ [k]) = None
          | _ => run.1 = Ok tt /\ h5_get run.2 fn (p ++ [k]) = Some (Dataset a)
          end
      | Some (Dataset d) =>
          run.1 = (if bool_decide (shape a = shape d) && can_cast (dtype a') (dtype d)
                   then Ok tt else Raise TypeError)
          /\ h5_get run.2 fn (p ++ [k]) = old
      | Some (Group g) =>
          run.1 = Raise TypeError /\ h5_get run.2 fn (p ++ [k]) = old
      end
  end
  /\ forall l, a = np_array l ->
       _HDFstoreKV (Some fn) (Some p) (Some k) (PyTuple l) fs = run
       /\ _HDFstoreKV (Some fn) (Some p) (Some k) (PyList l) fs = run.
Proof.
  intros a' old run. split; [|by intros l ->].
  pose proof (HDFstoreKV_write_run fs fn p k (PyArray a) (store_array k a)
                ltac:(done)) as Hrun. fold run in Hrun.
  destruct (require_group p _) as [root'|e] eqn:Hrg.
  2:{ rewrite Hrun. cbv zeta. rewrite Hrg. simpl. rewrite h5_get_insert_eq.
      split; [done|]. apply lookup_path_default_key. }
  destruct (HDFstoreKV_write_key fs fn p k _ run root' Hrun Hrg) as (ms & Hms & Hres).
  fold old in Hms, Hres. unfold store_array, require_dataset in Hres. fold a' in Hres.
  rewrite Hms in Hres.
  assert (Hshape : shape a' = shape a) by (unfold a'; by destruct (dtype_eqb _ _)).
  rewrite Hshape in Hres.
  destruct old as [[g|d]|] eqn:Hold.
  - destruct Hres as [-> ->]. done.
  - destruct (_ && _); destruct Hres as [-> ->]; done.
  - unfold a' in Hres. destruct a as [t sh dat]. simpl in *.
    destruct t as [| |w|]; simpl in Hres;
      try (destruct Hres as [-> ->]; by rewrite lookup_insert_eq).
    destruct (Nat.eqb_spec w 6) as [->|Hw]; simpl in Hres.
    + destruct Hres as [-> ->]. by rewrite lookup_insert_eq.
    + destruct Hres as [-> ->].
      do 7 (destruct w as [|w]; [done|]). done.
Qed.

End HDF_facts.

(** ** The Monte Carlo core *)

Section Core_facts.

Import Np Core.

Context `{Externals}.

Lemma calcModelIV_run (parameters : Params) (self : McCore) :
  calcModelIV parameters self =
  (Ok (vdiv_s (call_Fq (Q (_measData self))
                 (parameters ∪ staticParameters (_model self))).1
              (call_Fq (Q (_measData self))
                 (parameters ∪ staticParameters (_model self))).2,
       (call_Fq (Q (_measData self))
          (parameters ∪ staticParameters (_model self))).2),
   self).
Proof. unfold calcModelIV. mrun. by destruct (call_Fq _ _). Qed.

Lemma evaluate_run (testData : option vec) (self : McCore) :
  evaluate testData self =
  match OSB_match (I (_measData self)) (ISigma (_measData self))
          (default (modelI (_opt self)) testData) (x0 (_opt self)) with
  | Ok (tx0, g) => (Ok g, with_opt (set_testX0 tx0) self)
  | Raise e => (Raise e, self)
  end.
Proof. unfold evaluate. mrun. by destruct (OSB_match _ _ _ _) as [[tx0 g]|e]. Qed.

Lemma contribIndex_run (self : McCore) :
  contribIndex self =
  if nContrib (_model self) =? 0 then (Raise ZeroDivisionError, self)
  else (Ok (step (_opt self) `mod` nContrib (_model self)), self).
Proof. unfold contribIndex. mrun. by destruct (_ =? _). Qed.

Lemma pick_run (self : McCore) :
  pick self =
  (Ok tt,
   with_rng (generateRandomParameterSet (rng self)).2
     (with_model (set_pickParameters (generateRandomParameterSet (rng self)).1) self)).
Proof. unfold pick. mrun. by destruct (generateRandomParameterSet _). Qed.

Lemma reEvaluate_run (self : McCore) :
  reEvaluate self =
  if nContrib (_model self) =? 0 then (Raise ZeroDivisionError, self)
  else
    match parameterSet (_model self) !! (step (_opt self) `mod` nContrib (_model self)) with
    | None => (Raise KeyError, self)
    | Some row =>
        let s1 := with_opt (set_testModelV (trialV self))
                    (with_opt (set_testModelI (trialI self row)) self) in
        match OSB_match (I (_measData self)) (ISigma (_measData self))
                (trialI self row) (x0 (_opt self)) with
        | Ok (tx0, g) => (Ok g, with_opt (set_testX0 tx0) s1)
        | Raise e => (Raise e, s1)
        end
    end.
Proof.
  unfold reEvaluate.
  unfold mbind at 1, M_bind at 1, bind at 1. rewrite contribIndex_run.
  destruct (nContrib (_model self) =? 0); [reflexivity|].
  unfold loc. mrun.
  destruct (parameterSet (_model self) !! _) as [row|]; [|reflexivity].
  rewrite !calcModelIV_run. simpl. rewrite evaluate_run. simpl.
  reflexivity.
Qed.


Lemma accept_run (self : McCore) :
  accept self =
  if nContrib (_model self) =? 0 then (Raise ZeroDivisionError, self)
  else
    let i := step (_opt self) `mod` nContrib (_model self) in
    match setitem (volumes (_model self)) i (testModelV (_opt self)) with
    | Ok vols => (Ok tt, accepted_core self vols)
    | Raise e =>
        (Raise e,
         with_opt (fun o => set_modelI (testModelI o) o)
           (with_model (fun m =>
              set_parameterSet (<[i := pickParameters m]> (parameterSet m)) m) self))
    end.
Proof.
  unfold accept.
  unfold mbind at 1, M_bind at 1, bind at 1. rewrite contribIndex_run.
  destruct (nContrib (_model self) =? 0) eqn:E; [reflexivity|].
  mrun. rewrite contribIndex_run. simpl. rewrite E.
  destruct (setitem _ _ _); reflexivity.
Qed.

Lemma iterate_run (self : McCore) :
  iterate self =
  match reEvaluate (pick self).2 with
  | (Raise e, s2) => (Raise e, s2)
  | (Ok newGof, s2) =>
      if (newGof <? gof (_opt s2))%float then
        match accept s2 with
        | (Ok _, s3) =>
            (Ok tt, with_opt (fun o => set_step (step o + 1) o)
                      (with_opt (set_gof newGof) s3))
        | (Raise e, s3) => (Raise e, s3)
        end
      else (Ok tt, with_opt (fun o => set_step (step o + 1) o) s2)
  end.
Proof.
  unfold iterate. mrun.
  destruct (reEvaluate _) as [[newGof|e] s2]; [|reflexivity].
  destruct (newGof <? gof (_opt s2))%float; [|reflexivity].
  by destruct (accept s2) as [[[]|e] s3].
Qed.

(** [reEvaluate] writes the three scratch fields of [_opt] and nothing else. *)
Lemma reEvaluate_frame (self s' : McCore) (r : Res float) :
  reEvaluate self = (r, s') ->
  _measData s' = _measData self /\ _model s' = _model self /\ rng s' = rng self
  /\ modelI (_opt s') = modelI (_opt self) /\ x0 (_opt s') = x0 (_opt self)
  /\ gof (_opt s') = gof (_opt self) /\ step (_opt s') = step (_opt self)
  /\ accepted (_opt s') = accepted (_opt self)
  /\ maxIter (_opt s') = maxIter (_opt self)
  /\ maxAccept (_opt s') = maxAccept (_opt self)
  /\ convCrit (_opt s') = convCrit (_opt self)
  /\ repetition (_opt s') = repetition (_opt self).
Proof.
  rewrite reEvaluate_run.
  destruct (nContrib (_model self) =? 0); [by intros [= <- <-]|].
  destruct (parameterSet (_model self) !! _) as [row|]; [|by intros [= <- <-]].
  cbv zeta. destruct (OSB_match _ _ _ _) as [[tx0 g]|e]; by intros [= <- <-].
Qed.

(** [pick] writes [pickParameters] and advances the generator. *)
Lemma pick_frame (self : McCore) :
  _measData (pick self).2 = _measData self /\ _opt (pick self).2 = _opt self
  /\ parameterSet (_model (pick self).2) = parameterSet (_model self)
  /\ volumes (_model (pick self).2) = volumes (_model self)
  /\ staticParameters (_model (pick self).2) = staticParameters (_model self)
  /\ nContrib (_model (pick self).2) = nContrib (_model self).
Proof. rewrite pick_run. by simpl. Qed.


Lemma ltb_of_eqb (x y : float) : (x =? y)%float = true -> (x <? y)%float = false.
Proof.
  rewrite FloatAxioms.eqb_spec, FloatAxioms.ltb_spec. unfold SFeqb, SFltb.
  by destruct (SFcompare _ _) as [[]|].
Qed.

(** C2: in the re-evaluation of iteration step [s] the row considered is
    the one labelled [s mod nContrib]; its intensity comes from a kernel
    call on that row (the result is the same whatever [volumes] holds), and
    the trial intensity is, point by point, the current [modelI] plus
    [(Fsq_pick/V_pick - Fsq_old/V_old) / nContrib]. *)
Theorem reEvaluate_round_robin_trial (self s2 : McCore) (newGof : float) :
  reEvaluate (pick self).2 = (Ok newGof, s2) ->
  let picked := (pick self).2 in
  let N := nContrib (_model self) in
  let i := step (_opt self) `mod` N in
  exists row,
    parameterSet (_model self) !! i = Some row
    /\ testModelI (_opt s2) = trialI picked row
    /\ testModelV (_opt s2) = trialV picked
    /\ (forall (k : nat) (a fo fp : float),
          let old := call_Fq (Q (_measData self))
                       (row ∪ staticParameters (_model self)) in
          let new := call_Fq (Q (_measData self))
                       (pickParameters (_model picked) ∪ staticParameters (_model self)) in
          modelI (_opt self) !! k = Some a -> old.1 !! k = Some fo ->
          new.1 !! k = Some fp ->
          testModelI (_opt s2) !! k
          = Some (a + (fp / new.2 - fo / old.2) / float_of_int N)%float)
    /\ (forall vols : vec,
          reEvaluate (with_model (set_volumes vols) picked)
          = (Ok newGof, with_model (set_volumes vols) s2)).
Proof.
  intros Hre picked N i.
  destruct (pick_frame self) as (Hmd & Hopt & Hps & Hvol & Hst & HN).
  fold picked in Hre, Hmd, Hopt, Hps, Hvol, Hst, HN.
  pose proof Hre as Hre'. rewrite reEvaluate_run in Hre'.
  rewrite HN, Hopt, Hps in Hre'. fold N i in Hre'.
  destruct (N =? 0) eqn:EN; [discriminate|].
  destruct (parameterSet (_model self) !! i) as [row|] eqn:Erow; [|discriminate].
  cbv zeta in Hre'.
  destruct (OSB_match _ _ _ _) as [[tx0 g]|e] eqn:Eosb; [|discriminate].
  injection Hre' as <- <-.
  exists row. repeat split.
  - intros k a fo fp old new Ha Hfo Hfp. simpl.
    unfold trialI. rewrite Hmd, Hst, Hopt, HN. fold old new N.
    unfold vadd, vsub, vdiv_s.
    rewrite lookup_zip_with, Ha. simpl.
    rewrite list_lookup_fmap, lookup_zip_with, !list_lookup_fmap, Hfp, Hfo.
    reflexivity.
  - intros vols. rewrite reEvaluate_run. simpl.
    rewrite HN, Hopt, Hps. fold N i. rewrite EN, Erow. cbv zeta.
    change (trialI (with_model (set_volumes vols) picked) row) with (trialI picked row).
    rewrite Eosb. reflexivity.
Qed.

Lemma accept_frame (self s' : McCore) :
  accept self = (Ok tt, s') ->
  exists vols,
    setitem (volumes (_model self))
      (step (_opt self) `mod` nContrib (_model self)) (testModelV (_opt self)) = Ok vols
    /\ s' = accepted_core self vols.
Proof.
  rewrite accept_run. destruct (_ =? 0); [discriminate|]. cbv zeta.
  destruct (setitem _ _ _) as [vols|e]; [|discriminate].
  intros [= <-]. eauto.
Qed.

(** The state in which an iteration that returns leaves the core. *)
Lemma iterate_inv (self s2 s' : McCore) (newGof : float) :
  reEvaluate (pick self).2 = (Ok newGof, s2) ->
  iterate self = (Ok tt, s') ->
  if (newGof <? gof (_opt self))%float then
    exists vols,
      setitem (volumes (_model s2))
        (step (_opt s2) `mod` nContrib (_model s2)) (testModelV (_opt s2)) = Ok vols
      /\ s' = with_opt (fun o => set_step (step o + 1) o)
                (with_opt (set_gof newGof) (accepted_core s2 vols))
  else s' = with_opt (fun o => set_step (step o + 1) o) s2.
Proof.
  intros Hre Hit. rewrite iterate_run, Hre in Hit.
  destruct (reEvaluate_frame _ _ _ Hre) as (_ & _ & _ & _ & _ & Hgof & _).
  destruct (pick_frame self) as (_ & Hopt & _).
  rewrite Hgof, Hopt in Hit.
  destruct (newGof <? gof (_opt self))%float.
  - destruct (accept s2) as [[[]|e] s3] eqn:Eacc; [|discriminate].
    apply accept_frame in Eacc as (vols & Hset & ->).
    injection Hit as <-. eauto.
  - by injection Hit as <-.
Qed.

(** C1: a step is accepted exactly when the new goodness-of-fit is strictly
    below the current one; a tie is rejected and leaves the stored value
    alone; and an accepted step stores a strictly smaller value. *)
Theorem iterate_strict_descent (self s2 s' : McCore) (newGof : float) :
  reEvaluate (pick self).2 = (Ok newGof, s2) ->
  iterate self = (Ok tt, s') ->
  (accepted (_opt s') = accepted (_opt self) + 1
     <-> (newGof <? gof (_opt self))%float = true)
  /\ (accepted (_opt s') = accepted (_opt self)
     <-> (newGof <? gof (_opt self))%float = false)
  /\ ((newGof =? gof (_opt self))%float = true ->
      accepted (_opt s') = accepted (_opt self)
      /\ gof (_opt s') = gof (_opt self))
  /\ (accepted (_opt s') = accepted (_opt self) + 1 ->
      gof (_opt s') = newGof
      /\ (gof (_opt s') <? gof (_opt self))%float = true).
Proof.
  intros Hre Hit. pose proof (iterate_inv _ _ _ _ Hre Hit) as Hinv.
  destruct (reEvaluate_frame _ _ _ Hre) as (_ & _ & _ & _ & _ & Hgof & _ & Hacc & _).
  destruct (pick_frame self) as (_ & Hopt & _). rewrite Hopt in Hgof, Hacc.
  destruct (newGof <? gof (_opt self))%float eqn:Elt.
  - destruct Hinv as (vols & _ & ->). simpl. rewrite Hacc.
    repeat split; try done; try lia;
      match goal with Heq : (_ =? _)%float = true |- _ =>
        apply ltb_of_eqb in Heq; congruence end.
  - subst s'. simpl. rewrite Hacc, Hgof.
    repeat split; try done; try lia.
Qed.

(** C4: a rejected step leaves [parameterSet], [volumes], [modelI], [x0]
    and [gof] (and [accepted]) as they were; an accepted step installs the
    trial intensity, the trial scaling and background, the pick and its
    volume at row [i = step mod nContrib], counts the acceptance and stores
    the new goodness-of-fit; either way [step] grows by exactly one. *)
Theorem iterate_frame (self s2 s' : McCore) (newGof : float) :
  reEvaluate (pick self).2 = (Ok newGof, s2) ->
  iterate self = (Ok tt, s') ->
  let i := step (_opt self) `mod` nContrib (_model self) in
  step (_opt s') = step (_opt self) + 1
  /\ ((newGof <? gof (_opt self))%float = false ->
      parameterSet (_model s') = parameterSet (_model self)
      /\ volumes (_model s') = volumes (_model self)
      /\ modelI (_opt s') = modelI (_opt self)
      /\ x0 (_opt s') = x0 (_opt self)
      /\ gof (_opt s') = gof (_opt self)
      /\ accepted (_opt s') = accepted (_opt self))
  /\ ((newGof <? gof (_opt self))%float = true ->
      modelI (_opt s') = testModelI (_opt s2)
      /\ x0 (_opt s') = testX0 (_opt s2)
      /\ setitem (volumes (_model self)) i (testModelV (_opt s2))
         = Ok (volumes (_model s'))
      /\ parameterSet (_model s')
         = <[i := pickParameters (_model (pick self).2)]> (parameterSet (_model self))
      /\ accepted (_opt s') = accepted (_opt self) + 1
      /\ gof (_opt s') = newGof).
Proof.
  intros Hre Hit i. pose proof (iterate_inv _ _ _ _ Hre Hit) as Hinv.
  destruct (reEvaluate_frame _ _ _ Hre)
    as (_ & Hm & _ & HmI & Hx0 & Hgof & Hstep & Hacc & _).
  destruct (pick_frame self) as (_ & Hopt & Hps & Hvol & _ & HN).
  rewrite Hopt in HmI, Hx0, Hgof, Hstep, Hacc.
  destruct (newGof <? gof (_opt self))%float eqn:Elt.
  - destruct Hinv as (vols & Hset & ->). simpl.
    rewrite Hm, Hstep, Hacc, Hps, HN. rewrite Hm, Hstep, Hvol, HN in Hset.
    repeat split; try done.
  - subst s'. simpl. rewrite Hm, Hstep, HmI, Hx0, Hgof, Hacc, Hps, Hvol.
    repeat split; try done.
Qed.


(** An iteration that returns has added one to [step] and has left the
    three targets alone. *)
Lemma iterate_step (self s' : McCore) :
  iterate self = (Ok tt, s') ->
  step (_opt s') = step (_opt self) + 1
  /\ maxIter (_opt s') = maxIter (_opt self)
  /\ maxAccept (_opt s') = maxAccept (_opt self)
  /\ convCrit (_opt s') = convCrit (_opt self).
Proof.
  intros Hit. pose proof Hit as Hit'. rewrite iterate_run in Hit'.
  destruct (reEvaluate (pick self).2) as [[newGof|e] s2] eqn:Hre; [|discriminate].
  clear Hit'. pose proof (iterate_inv _ _ _ _ Hre Hit) as Hinv.
  destruct (reEvaluate_frame _ _ _ Hre)
    as (_ & _ & _ & _ & _ & _ & Hstep & _ & HmaxI & HmaxA & Hconv & _).
  destruct (pick_frame self) as (_ & Hopt & _).
  rewrite Hopt in Hstep, HmaxI, HmaxA, Hconv.
  destruct (newGof <? gof (_opt self))%float.
  - destruct Hinv as (vols & _ & ->). simpl. by rewrite Hstep, HmaxI, HmaxA, Hconv.
  - subst s'. simpl. by rewrite Hstep, HmaxI, HmaxA, Hconv.
Qed.

Lemma optimize_loop_unfold (fuel : nat) (self : McCore) :
  optimize_loop fuel self =
  if keepGoing (_opt self) then
    match fuel with
    | O => (Ok tt, self)
    | S fuel' =>
        match iterate self with
        | (Ok _, s1) => optimize_loop fuel' s1
        | (Raise e, s1) => (Raise e, s1)
        end
    end
  else (Ok tt, self).
Proof.
  destruct fuel; simpl; mrun.
  - by destruct (keepGoing _).
  - destruct (keepGoing _); [|reflexivity].
    by destruct (iterate self) as [[[]|e] s1].
Qed.

Lemma keepGoing_step (o : McOpt) : keepGoing o = true -> step o < maxIter o.
Proof.
  unfold keepGoing. rewrite !andb_true_iff, !Z.ltb_lt. tauto.
Qed.

(** Fuel beyond [maxIter - step] is never used. *)
Lemma optimize_loop_fuel (fuel : nat) :
  forall self : McCore,
  maxIter (_opt self) - step (_opt self) <= Z.of_nat fuel ->
  optimize_loop fuel self
  = optimize_loop (Z.to_nat (maxIter (_opt self) - step (_opt self))) self.
Proof.
  induction fuel as [|fuel IH]; intros self Hfuel.
  - rewrite !optimize_loop_unfold.
    destruct (keepGoing (_opt self)) eqn:Ek; [|reflexivity].
    apply keepGoing_step in Ek. lia.
  - rewrite (optimize_loop_unfold (S fuel)), (optimize_loop_unfold (Z.to_nat _)).
    destruct (keepGoing (_opt self)) eqn:Ek; [|reflexivity].
    apply keepGoing_step in Ek.
    destruct (Z.to_nat _) as [|fuel0] eqn:Ef; [lia|].
    destruct (iterate self) as [[[]|e] s1] eqn:Hit; [|reflexivity].
    apply iterate_step in Hit as (Hstep & HmaxI & _).
    rewrite IH by lia.
    f_equal. lia.
Qed.

Lemma optimize_unfold (self : McCore) :
  optimize self =
  if keepGoing (_opt self) then (iterate ;; optimize) self else (Ok tt, self).
Proof.
  unfold optimize at 1. mrun. rewrite optimize_loop_unfold.
  destruct (keepGoing (_opt self)) eqn:Ek; [|reflexivity].
  apply keepGoing_step in Ek.
  destruct (Z.to_nat _) as [|fuel0] eqn:Ef; [lia|].
  destruct (iterate self) as [[[]|e] s1] eqn:Hit; [|reflexivity].
  unfold optimize. mrun.
  apply iterate_step in Hit as (Hstep & HmaxI & _).
  rewrite (optimize_loop_fuel fuel0) by lia. reflexivity.
Qed.

Lemma optimize_loop_exit (fuel : nat) :
  forall (self s' : McCore),
  maxIter (_opt self) - step (_opt self) <= Z.of_nat fuel ->
  optimize_loop fuel self = (Ok tt, s') -> keepGoing (_opt s') = false.
Proof.
  induction fuel as [|fuel IH]; intros self s' Hfuel; rewrite optimize_loop_unfold.
  - destruct (keepGoing (_opt self)) eqn:Ek.
    + apply keepGoing_step in Ek. lia.
    + by intros [= <-].
  - destruct (keepGoing (_opt self)) eqn:Ek; [|by intros [= <-]].
    destruct (iterate self) as [[[]|e] s1] eqn:Hit; [|discriminate].
    apply iterate_step in Hit as (Hstep & HmaxI & _).
    apply IH. lia.
Qed.

(** With enough passes allowed, the loop cannot end on an exception-free
    path while its test still holds, and it always ends: [optimize] is a
    total function of the state. *)
Lemma optimize_exit (self s' : McCore) :
  optimize self = (Ok tt, s') -> keepGoing (_opt s') = false.
Proof.
  unfold optimize. mrun. apply optimize_loop_exit. lia.
Qed.


(** A property of the state that every pass of a [for] loop keeps is kept
    by the loop, however it ends. *)
Lemma for_invariant {S A : Type} (P : S -> Prop) (body : A -> M S unit) (xs : list A) :
  (forall x s r s', P s -> body x s = (r, s') -> P s') ->
  forall s r s', P s -> for_ xs body s = (r, s') -> P s'.
Proof.
  intros Hbody. induction xs as [|x xs IH]; intros s r s' HP; simpl.
  - by intros [= <- <-].
  - unfold bind. destruct (body x s) as [[[]|e] s1] eqn:Hb.
    + apply IH. by eapply Hbody.
    + intros [= <- <-]. by eapply Hbody.
Qed.

(** [initModelI] rebuilds [modelI] and [volumes] and touches nothing else. *)
Lemma initModelI_frame (self s' : McCore) (r : Res unit) :
  initModelI self = (r, s') ->
  exists mI vols, s' = with_opt (set_modelI mI) (with_model (set_volumes vols) self).
Proof.
  pose (P := fun s : McCore =>
    exists mI vols, s = with_opt (set_modelI mI) (with_model (set_volumes vols) self)).
  assert (P self) as HP0.
  { exists (modelI (_opt self)), (volumes (_model self)).
    by destruct self as [md [] [] rg]. }
  unfold initModelI. mrun. unfold loc.
  destruct (parameterSet (_model self) !! 0) as [row0|]; [|by intros [= <- <-]].
  rewrite calcModelIV_run. simpl.
  destruct (zeros (nContrib (_model self))) as [vols0|e]; simpl.
  2:{ intros [= <- <-]. eexists _, (volumes (_model self)).
      by destruct self as [md [] [] rg]. }
  apply (for_invariant P).
  - intros contribi s r0 s0 (mI & vols & ->). mrun. unfold loc.
    destruct (parameterSet (_model self) !! contribi) as [row|];
      [|intros [= <- <-]; by eexists _, _].
    simpl. rewrite calcModelIV_run. simpl.
    destruct (setitem vols contribi _) as [vols'|e]; simpl;
      intros [= <- <-]; by eexists _, _.
  - by eexists _, _.
Qed.

Lemma init_body_run (loaded : option (float * X0)) (self : McCore) :
  init_body loaded self =
  match initModelI self with
  | (Raise e, s1) => (Raise e, s1)
  | (Ok _, s1) =>
      match OSB_match (I (_measData s1)) (ISigma (_measData s1))
              (modelI (_opt s1)) (x0 (_opt s1)) with
      | Raise e => (Raise e, s1)
      | Ok (tx0, g) =>
          let s2 := with_opt (set_x0 tx0)
                      (with_opt (set_gof g) (with_opt (set_testX0 tx0) s1)) in
          match loaded with
          | None => (Ok tt, s2)
          | Some (testGof, testX0) => (init_asserts testGof testX0 (_opt s2), s2)
          end
      end
  end.
Proof.
  unfold init_body. mrun.
  destruct (initModelI self) as [[[]|e] s1]; [|reflexivity].
  rewrite evaluate_run. simpl.
  destruct (OSB_match _ _ _ _) as [[tx0 g]|e]; [|reflexivity]. simpl.
  destruct loaded as [[testGof testX0]|]; [|reflexivity].
  unfold init_asserts, assert_approx_equal. mrun.
  destruct (approx_equal testGof g 3); simpl; [|reflexivity].
  destruct (approx_equal (scaling testX0) (scaling tx0) 3); simpl; [|reflexivity].
  destruct (approx_equal (background testX0) (background tx0) 3); reflexivity.
Qed.

(** The constructor does not touch the counters. *)
Lemma init_body_counters (loaded : option (float * X0)) (self s' : McCore) (r : Res unit) :
  init_body loaded self = (r, s') ->
  step (_opt s') = step (_opt self) /\ accepted (_opt s') = accepted (_opt self).
Proof.
  rewrite init_body_run.
  destruct (initModelI self) as [[[]|e] s1] eqn:Hinit;
    apply initModelI_frame in Hinit as (mI & vols & ->); simpl.
  2:{ by intros [= <- <-]. }
  destruct (OSB_match _ _ _ _) as [[tx0 g]|e]; [|by intros [= <- <-]].
  destruct loaded as [[testGof testX0]|]; by intros [= <- <-].
Qed.

(** C3: [optimize] is the loop "while accepted < maxAccept and step <
    maxIter and gof > convCrit: iterate()": it runs one pass and starts over
    exactly when the test holds, returns at once when it does not, and when
    it returns the test is false.  In particular, when [gof] does not
    exceed [convCrit] no pass is run and the state is returned as it is, so
    that a core fresh from its constructor keeps [step = accepted = 0]. *)
Theorem optimize_runs_while_keepGoing (self : McCore) :
  optimize self
  = (if keepGoing (_opt self) then (iterate ;; optimize) self else (Ok tt, self))
  /\ keepGoing (_opt self)
     = ((accepted (_opt self) <? maxAccept (_opt self))
        && (step (_opt self) <? maxIter (_opt self))
        && (convCrit (_opt self) <? gof (_opt self))%float)
  /\ (forall s', optimize self = (Ok tt, s') -> keepGoing (_opt s') = false)
  /\ ((convCrit (_opt self) <? gof (_opt self))%float = false ->
      optimize self = (Ok tt, self))
  /\ (forall md model opt r,
        McCore_init (Some md) (Some model) (Some opt) r None None = Ok self ->
        (convCrit (_opt self) <? gof (_opt self))%float = false ->
        optimize self = (Ok tt, self)
        /\ step (_opt self) = 0 /\ accepted (_opt self) = 0).
Proof.
  assert (Hstop : (convCrit (_opt self) <? gof (_opt self))%float = false ->
                  optimize self = (Ok tt, self)).
  { intros Hconv. rewrite optimize_unfold. unfold keepGoing.
    by rewrite Hconv, andb_false_r. }
  split; [apply optimize_unfold|]. split; [reflexivity|].
  split; [apply optimize_exit|]. split; [exact Hstop|].
  - intros md model opt r Hnew Hconv. split; [by apply Hstop|].
    unfold McCore_init in Hnew.
    destruct (init_body None _) as [[[]|e] s0] eqn:Hinit; [|discriminate].
    injection Hnew as ->. by apply init_body_counters in Hinit as [-> ->].
Qed.

(** C8, as the code has it: nothing in [iterate] or [optimize] catches an
    exception of the solver.  When the solver raises on the trial intensity
    the exception leaves [iterate], and [optimize] with it; [step] is not
    incremented, and the fit, the counters and the ensemble are as before
    the step (only the pick and the trial scratch fields were written). *)
Theorem iterate_propagates_solver_failure (self s2 : McCore) (e : Exn) :
  reEvaluate (pick self).2 = (Raise e, s2) ->
  iterate self = (Raise e, s2)
  /\ (keepGoing (_opt self) = true -> optimize self = (Raise e, s2))
  /\ step (_opt s2) = step (_opt self)
  /\ accepted (_opt s2) = accepted (_opt self)
  /\ gof (_opt s2) = gof (_opt self)
  /\ modelI (_opt s2) = modelI (_opt self)
  /\ x0 (_opt s2) = x0 (_opt self)
  /\ parameterSet (_model s2) = parameterSet (_model self)
  /\ volumes (_model s2) = volumes (_model self).
Proof.
  intros Hre.
  assert (Hit : iterate self = (Raise e, s2)) by (by rewrite iterate_run, Hre).
  destruct (reEvaluate_frame _ _ _ Hre)
    as (_ & Hm & _ & HmI & Hx0 & Hgof & Hstep & Hacc & _).
  destruct (pick_frame self) as (_ & Hopt & Hps & Hvol & _).
  rewrite Hopt in HmI, Hx0, Hgof, Hstep, Hacc. rewrite Hm.
  repeat split; try done.
  intros Hk. rewrite optimize_unfold, Hk. mrun. by rewrite Hit.
Qed.


Lemma setitem_in_range (a : vec) (i : nat) (v : float) :
  (i < length a)%nat -> setitem a (Z.of_nat i) v = Ok (<[i := v]> a).
Proof.
  intros Hi. unfold setitem.
  destruct (Z.leb_spec 0 (Z.of_nat i)); [|lia].
  destruct (Z.ltb_spec (Z.of_nat i) (Z.of_nat (length a))); [|lia].
  simpl. by rewrite Nat2Z.id.
Qed.

Lemma initModelI_loop (self : McCore) (n : nat) :
  forall (a : nat) (mI vols : vec) (s' : McCore),
  (a + n <= length vols)%nat ->
  for_ (seqZ (Z.of_nat a) (Z.of_nat n)) (fun contribi =>
    self ← get;
    row ← lift (loc (parameterSet (_model self)) contribi);
    '(Ic, Vc) ← calcModelIV row;
    modify (with_opt (fun o =>
      set_modelI
        (vadd (modelI o) (vdiv_s Ic (float_of_int (nContrib (_model self))))) o)) ;;
    vols' ← lift (setitem (volumes (_model self)) contribi Vc);
    modify (with_model (set_volumes vols'))) (init_state self mI vols)
  = (Ok tt, s') ->
  exists rows,
    length rows = n
    /\ (forall (j : nat) row, rows !! j = Some row ->
          parameterSet (_model self) !! Z.of_nat (a + j) = Some row)
    /\ s' = init_state self
              (foldl (fun acc row =>
                        vadd acc (vdiv_s (contribution self row).1
                                    (float_of_int (nContrib (_model self))))) mI rows)
              (take a vols ++ ((fun row => (contribution self row).2) <$> rows)
                 ++ drop (a + n) vols).
Proof.
  induction n as [|n IH]; intros a mI vols s' Hlen.
  - simpl. mrun. intros [= <-]. exists []. repeat split; [done|].
    simpl. by rewrite Nat.add_0_r, take_drop.
  - rewrite seqZ_cons by lia. simpl. mrun. unfold loc.
    destruct (parameterSet (_model self) !! Z.of_nat a) as [row|] eqn:Erow;
      [|discriminate].
    simpl. rewrite calcModelIV_run. simpl.
    rewrite setitem_in_range by lia. simpl.
    replace (Z.succ (Z.of_nat a)) with (Z.of_nat (S a)) by lia.
    replace (Z.pred (Z.of_nat (S n))) with (Z.of_nat n) by lia.
    intros Hloop.
    destruct (IH (S a)
                (vadd mI (vdiv_s (contribution self row).1
                            (float_of_int (nContrib (_model self)))))
                (<[a := (contribution self row).2]> vols) s')
      as (rows & Hrows & Hps & ->).
    { rewrite length_insert. lia. }
    { exact Hloop. }
    exists (row :: rows). split; [simpl; by rewrite Hrows|]. split.
    + intros [|j] row'; simpl.
      * intros [= <-]. by rewrite Nat.add_0_r.
      * intros Hj. replace (a + S j)%nat with (S a + j)%nat by lia. by apply Hps.
    + simpl. f_equal.
      rewrite (take_S_r _ _ (contribution self row).2)
        by (apply list_lookup_insert_eq; lia).
      rewrite take_insert_ge by lia.
      rewrite drop_insert_lt by lia.
      rewrite <- app_assoc. simpl.
      by replace (a + S n)%nat with (S (a + n)) by lia.
Qed.

(** [initModelI] computes the model intensity from the rows alone. *)
Lemma initModelI_from_scratch (self s' : McCore) :
  initModelI self = (Ok tt, s') ->
  exists row0 rows,
    parameterSet (_model self) !! 0 = Some row0
    /\ Z.of_nat (length rows) = nContrib (_model self)
    /\ (forall (j : nat) row, rows !! j = Some row ->
          parameterSet (_model self) !! Z.of_nat j = Some row)
    /\ s' = init_state self
              (summed_intensity self (length (contribution self row0).1) rows)
              ((fun row => (contribution self row).2) <$> rows).
Proof.
  unfold initModelI. mrun. unfold loc.
  destruct (parameterSet (_model self) !! 0) as [row0|] eqn:E0; [|discriminate].
  rewrite calcModelIV_run. simpl. unfold zeros.
  destruct (Z.ltb_spec (nContrib (_model self)) 0) as [|HN]; [discriminate|]. simpl.
  intros Hloop.
  destruct (initModelI_loop self (Z.to_nat (nContrib (_model self))) 0
              (replicate (length (contribution self row0).1) 0%float)
              (replicate (Z.to_nat (nContrib (_model self))) 0%float) s')
    as (rows & Hrows & Hps & ->).
  { rewrite length_replicate. lia. }
  { rewrite Z2Nat.id by lia. exact Hloop. }
  exists row0, rows. split; [done|]. split; [lia|]. split; [exact Hps|].
  unfold summed_intensity. f_equal. simpl.
  rewrite drop_ge by (rewrite length_replicate; lia).
  by rewrite app_nil_r.
Qed.


Lemma init_asserts_ok (stored core : McCore) :
  init_asserts (gof (_opt stored)) (x0 (_opt stored)) (_opt core) = Ok tt
  <-> reload_agrees stored core = true.
Proof.
  unfold init_asserts, reload_agrees.
  destruct (approx_equal (gof _) _ 3); simpl; [|split; discriminate].
  destruct (approx_equal (scaling _) _ 3); simpl; [|split; discriminate].
  destruct (approx_equal (background _) _ 3); simpl; split; done.
Qed.

Lemma init_asserts_raise (stored core : McCore) :
  reload_agrees stored core = false ->
  exists msg,
    init_asserts (gof (_opt stored)) (x0 (_opt stored)) (_opt core)
    = Raise (AssertionError msg)
    /\ msg ∈ reload_messages.
Proof.
  unfold init_asserts, reload_agrees, reload_messages.
  destruct (approx_equal (gof _) _ 3); simpl;
    [|intros _; eexists; split; [reflexivity|set_solver]].
  destruct (approx_equal (scaling _) _ 3); simpl;
    [|intros _; eexists; split; [reflexivity|set_solver]].
  destruct (approx_equal (background _) _ 3); simpl; [discriminate|].
  intros _; eexists; split; [reflexivity|set_solver].
Qed.

(** With and without the stored values to compare with, the constructor
    computes the same state. *)
Lemma init_body_loaded (testGof : float) (testX0 : X0) (self : McCore) :
  init_body (Some (testGof, testX0)) self =
  match init_body None self with
  | (Ok _, s2) => (init_asserts testGof testX0 (_opt s2), s2)
  | (Raise e, s1) => (Raise e, s1)
  end.
Proof.
  rewrite !init_body_run.
  destruct (initModelI self) as [[[]|e] s1]; [|reflexivity].
  by destruct (OSB_match _ _ _ _) as [[tx0 g]|e].
Qed.

(** C5: loading a stored repetition recomputes [modelI] (from the stored
    rows and the kernel alone), and [x0] and [gof] (by the solver on that
    intensity); it succeeds exactly when that computation succeeds and the
    recomputed [gof], scaling and background each agree with the stored
    value to 3 significant digits; any disagreement raises the assertion
    error of the mismatch. *)
Theorem load_recomputes_and_checks (md : MeasData) (r : Rng) (file : string)
    (rep : Z) (model : option McModel) (opt : option McOpt) :
  let stored := mkCore md (McModel_load file rep) (McOpt_load file rep) r in
  (forall core,
      McCore_init (Some md) model opt r (Some file) (Some rep) = Ok core
      <-> init_body None stored = (Ok tt, core) /\ reload_agrees stored core = true)
  /\ (forall core,
        init_body None stored = (Ok tt, core) ->
        reload_agrees stored core = false ->
        exists msg,
          McCore_init (Some md) model opt r (Some file) (Some rep)
          = Raise (AssertionError msg)
          /\ msg ∈ reload_messages)
  /\ (forall core,
        init_body None stored = (Ok tt, core) ->
        (exists row0 rows,
            parameterSet (_model stored) !! 0 = Some row0
            /\ Z.of_nat (length rows) = nContrib (_model stored)
            /\ (forall (j : nat) row, rows !! j = Some row ->
                  parameterSet (_model stored) !! Z.of_nat j = Some row)
            /\ modelI (_opt core)
               = summed_intensity stored (length (contribution stored row0).1) rows)
        /\ OSB_match (I md) (ISigma md) (modelI (_opt core)) (x0 (_opt stored))
           = Ok (x0 (_opt core), gof (_opt core))).
Proof.
  intros stored.
  assert (Hinit : McCore_init (Some md) model opt r (Some file) (Some rep) =
                  match init_body None stored with
                  | (Ok _, s2) =>
                      match init_asserts (gof (_opt stored)) (x0 (_opt stored)) (_opt s2) with
                      | Ok _ => Ok s2
                      | Raise e => Raise e
                      end
                  | (Raise e, _) => Raise e
                  end).
  { unfold McCore_init, load. fold stored. rewrite init_body_loaded.
    by destruct (init_body None stored) as [[[]|e] s2]. }
  split; [|split].
  - intros core. rewrite Hinit.
    destruct (init_body None stored) as [[[]|e] s2].
    + rewrite <- init_asserts_ok.
      destruct (init_asserts _ _ (_opt s2)) as [[]|e] eqn:Ea.
      * split; [intros [= <-]; by rewrite Ea|by intros [[= <-] _]].
      * split; [discriminate|]. intros [[= <-] Hok]. congruence.
    + split; [discriminate|]. by intros [? _].
  - intros core Hbody Hdis. rewrite Hinit, Hbody.
    destruct (init_asserts_raise stored core Hdis) as (msg & -> & Hmsg). eauto.
  - intros core Hbody. rewrite init_body_run in Hbody.
    destruct (initModelI stored) as [[[]|e] s1] eqn:Hmodel; [|discriminate].
    apply initModelI_from_scratch in Hmodel as (row0 & rows & H0 & Hlen & Hrows & ->).
    simpl in Hbody.
    destruct (OSB_match _ _ _ _) as [[tx0 g]|e] eqn:Hosb; [|discriminate].
    injection Hbody as <-. simpl. split; [|exact Hosb].
    exists row0, rows. repeat split; try done.
Qed.

Lemma setitem_length (a a' : vec) (i : Z) (v : float) :
  setitem a i v = Ok a' -> length a' = length a.
Proof.
  unfold setitem. repeat case_match; try discriminate;
    intros [= <-]; apply length_insert.
Qed.

(** The constructor leaves one volume per contribution. *)
Lemma initModelI_volumes (self s' : McCore) :
  initModelI self = (Ok tt, s') ->
  nContrib (_model s') = nContrib (_model self)
  /\ Z.of_nat (length (volumes (_model s'))) = nContrib (_model s').
Proof.
  intros Hinit. apply initModelI_from_scratch in Hinit
    as (row0 & rows & _ & Hlen & _ & ->).
  simpl. by rewrite length_fmap.
Qed.

(** With one volume per contribution, a step whose re-evaluation returns
    returns, and keeps one volume per contribution. *)
Lemma iterate_returns (self s2 : McCore) (newGof : float) :
  reEvaluate (pick self).2 = (Ok newGof, s2) ->
  0 < nContrib (_model self) ->
  Z.of_nat (length (volumes (_model self))) = nContrib (_model self) ->
  exists s',
    iterate self = (Ok tt, s')
    /\ nContrib (_model s') = nContrib (_model self)
    /\ Z.of_nat (length (volumes (_model s'))) = nContrib (_model s').
Proof.
  intros Hre HN Hlen.
  destruct (reEvaluate_frame _ _ _ Hre) as (_ & Hm & _).
  destruct (pick_frame self) as (_ & _ & _ & Hvol & _ & HNp).
  pose proof (Z.mod_pos_bound (step (_opt s2)) (nContrib (_model self)) HN) as Hi.
  assert (Hset : setitem (volumes (_model s2))
                   (step (_opt s2) `mod` nContrib (_model s2)) (testModelV (_opt s2))
                 = Ok (<[Z.to_nat (step (_opt s2) `mod` nContrib (_model self))
                         := testModelV (_opt s2)]> (volumes (_model self)))).
  { rewrite Hm, HNp, Hvol.
    rewrite <- (Z2Nat.id (step (_opt s2) `mod` nContrib (_model self))) at 1 by lia.
    apply setitem_in_range. lia. }
  assert (Hacc : accept s2 = (Ok tt, accepted_core s2
                   (<[Z.to_nat (step (_opt s2) `mod` nContrib (_model self))
                      := testModelV (_opt s2)]> (volumes (_model self))))).
  { rewrite accept_run. cbv zeta. rewrite Hset.
    destruct (Z.eqb_spec (nContrib (_model s2)) 0) as [Hz|_]; [|reflexivity].
    rewrite Hm, HNp in Hz. lia. }
  rewrite iterate_run, Hre.
  destruct (newGof <? gof (_opt s2))%float.
  - rewrite Hacc. eexists. split; [reflexivity|]. simpl.
    rewrite Hm, HNp, length_insert. done.
  - eexists. split; [reflexivity|]. simpl. by rewrite Hm, HNp, Hvol.
Qed.

(** What one call of [iterate] does, however it ends. *)
Lemma iterate_effect (self s' : McCore) (r : Res unit) :
  iterate self = (r, s') ->
  _measData s' = _measData self
  /\ staticParameters (_model s') = staticParameters (_model self)
  /\ nContrib (_model s') = nContrib (_model self)
  /\ maxIter (_opt s') = maxIter (_opt self)
  /\ maxAccept (_opt s') = maxAccept (_opt self)
  /\ convCrit (_opt s') = convCrit (_opt self)
  /\ ((r = Ok tt /\ step (_opt s') = step (_opt self) + 1
       /\ ((accepted (_opt s') = accepted (_opt self)
            /\ gof (_opt s') = gof (_opt self)
            /\ parameterSet (_model s') = parameterSet (_model self)
            /\ volumes (_model s') = volumes (_model self)
            /\ modelI (_opt s') = modelI (_opt self)
            /\ x0 (_opt s') = x0 (_opt self))
           \/ (accepted (_opt s') = accepted (_opt self) + 1
               /\ (gof (_opt s') <? gof (_opt self))%float = true)))
      \/ (exists e, r = Raise e /\ step (_opt s') = step (_opt self)
            /\ accepted (_opt s') = accepted (_opt self)
            /\ gof (_opt s') = gof (_opt self))).
Proof.
  rewrite iterate_run.
  destruct (reEvaluate (pick self).2) as [[newGof|e] s2] eqn:Hre;
    destruct (reEvaluate_frame _ _ _ Hre)
      as (Hmd & Hm & _ & HmI & Hx0 & Hgof & Hstep & Hacc & HmaxI & HmaxA & Hconv & _);
    destruct (pick_frame self) as (Hmd' & Hopt & Hps & Hvol & Hst & HN);
    rewrite Hopt in HmI, Hx0, Hgof, Hstep, Hacc, HmaxI, HmaxA, Hconv;
    rewrite Hmd' in Hmd.
  2:{ intros [= <- <-]. rewrite Hm. repeat split; try done. right. eauto. }
  destruct (newGof <? gof (_opt s2))%float eqn:Elt.
  - rewrite accept_run. destruct (nContrib (_model s2) =? 0).
    { intros [= <- <-]. rewrite Hm. repeat split; try done. right. eauto. }
    cbv zeta. destruct (setitem _ _ _) as [vols|e].
    + intros [= <- <-]. simpl. rewrite Hm, Hstep, Hacc.
      repeat split; try done. left. repeat split; try done.
      right. split; [done|]. by rewrite <- Hgof.
    + intros [= <- <-]. simpl. rewrite Hm.
      repeat split; try done. right. eauto.
  - intros [= <- <-]. simpl. rewrite Hm, Hstep, Hacc, Hgof, HmI, Hx0.
    repeat split; try done. left. repeat split; try done. left. done.
Qed.

(** A relation between states that holds across every pass holds across
    the loop. *)
Lemma optimize_loop_rel (R : McCore -> McCore -> Prop) :
  (forall s, R s s) ->
  (forall s1 s2 s3, R s1 s2 -> R s2 s3 -> R s1 s3) ->
  (forall s r s', keepGoing (_opt s) = true -> iterate s = (r, s') -> R s s') ->
  forall fuel s r s', optimize_loop fuel s = (r, s') -> R s s'.
Proof.
  intros Hrefl Htrans Hpass. induction fuel as [|fuel IH]; intros s r s';
    rewrite optimize_loop_unfold.
  - destruct (keepGoing (_opt s)); intros [= <- <-]; apply Hrefl.
  - destruct (keepGoing (_opt s)) eqn:Ek; [|intros [= <- <-]; apply Hrefl].
    destruct (iterate s) as [[[]|e] s1] eqn:Hit.
    + intros Hloop. eapply Htrans; [by eapply Hpass|by eapply IH].
    + intros [= <- <-]. by eapply Hpass.
Qed.

Lemma optimize_rel (R : McCore -> McCore -> Prop) :
  (forall s, R s s) ->
  (forall s1 s2 s3, R s1 s2 -> R s2 s3 -> R s1 s3) ->
  (forall s r s', keepGoing (_opt s) = true -> iterate s = (r, s') -> R s s') ->
  forall s, R s (optimize s).2.
Proof.
  intros Hrefl Htrans Hpass s. unfold optimize. mrun.
  destruct (optimize_loop _ s) as [r s'] eqn:Hloop. simpl.
  by eapply optimize_loop_rel.
Qed.

(** X1: across [optimize], however it ends, [step] and [accepted] never
    decrease, [accepted] grows by at most what [step] grows by, [step] does
    not pass [maxIter] and [accepted] does not pass [maxAccept] (unless they
    were beyond before), and the three targets are not written. *)
Theorem optimize_counters (self : McCore) :
  step (_opt self) <= step (_opt (optimize self).2)
  /\ accepted (_opt self) <= accepted (_opt (optimize self).2)
  /\ accepted (_opt (optimize self).2) - accepted (_opt self)
     <= step (_opt (optimize self).2) - step (_opt self)
  /\ step (_opt (optimize self).2) <= Z.max (step (_opt self)) (maxIter (_opt self))
  /\ accepted (_opt (optimize self).2)
     <= Z.max (accepted (_opt self)) (maxAccept (_opt self))
  /\ maxIter (_opt (optimize self).2) = maxIter (_opt self)
  /\ maxAccept (_opt (optimize self).2) = maxAccept (_opt self)
  /\ convCrit (_opt (optimize self).2) = convCrit (_opt self).
Proof.
  apply (optimize_rel (fun s s' =>
    step (_opt s) <= step (_opt s')
    /\ accepted (_opt s) <= accepted (_opt s')
    /\ accepted (_opt s') - accepted (_opt s) <= step (_opt s') - step (_opt s)
    /\ step (_opt s') <= Z.max (step (_opt s)) (maxIter (_opt s))
    /\ accepted (_opt s') <= Z.max (accepted (_opt s)) (maxAccept (_opt s))
    /\ maxIter (_opt s') = maxIter (_opt s)
    /\ maxAccept (_opt s') = maxAccept (_opt s)
    /\ convCrit (_opt s') = convCrit (_opt s))).
  - intros s. repeat split; lia.
  - intros s1 s2 s3 (? & ? & ? & ? & ? & HI & HA & HC) (? & ? & ? & ? & ? & HI' & HA' & HC').
    rewrite HI', HA', HC', HI, HA, HC. rewrite HI, HA in *. repeat split; lia.
  - intros s r s' Hk Hit.
    apply iterate_effect in Hit as (_ & _ & _ & -> & -> & -> & Hcases).
    unfold keepGoing in Hk. rewrite !andb_true_iff, !Z.ltb_lt in Hk.
    destruct Hk as [[Ha Hs] _].
    destruct Hcases as [(_ & -> & [(-> & _)|(-> & _)])|(e & _ & -> & -> & _)];
      repeat split; lia.
Qed.

(** X2: across [optimize], however it ends, the stored goodness-of-fit is
    what it was if no step was accepted, and strictly smaller if one was. *)
Theorem optimize_gof_descends (self : McCore) :
  (accepted (_opt (optimize self).2) = accepted (_opt self) ->
   gof (_opt (optimize self).2) = gof (_opt self))
  /\ (accepted (_opt (optimize self).2) <> accepted (_opt self) ->
      (gof (_opt (optimize self).2) <? gof (_opt self))%float = true).
Proof.
  enough (Hrel : accepted (_opt self) <= accepted (_opt (optimize self).2)
    /\ (accepted (_opt (optimize self).2) = accepted (_opt self) ->
        gof (_opt (optimize self).2) = gof (_opt self))
    /\ (accepted (_opt self) < accepted (_opt (optimize self).2) ->
        (gof (_opt (optimize self).2) <? gof (_opt self))%float = true)).
  { destruct Hrel as (Hle & Heq & Hlt). split; [done|]. intros Hne. apply Hlt. lia. }
  apply (optimize_rel (fun s s' =>
    accepted (_opt s) <= accepted (_opt s')
    /\ (accepted (_opt s') = accepted (_opt s) -> gof (_opt s') = gof (_opt s))
    /\ (accepted (_opt s) < accepted (_opt s') ->
        (gof (_opt s') <? gof (_opt s))%float = true))).
  - intros s. repeat split; try done; lia.
  - intros s1 s2 s3 (Hle & Heq & Hlt) (Hle' & Heq' & Hlt').
    split; [lia|]. split.
    + intros E. rewrite Heq' by lia. apply Heq. lia.
    + intros L.
      destruct (Z.eq_dec (accepted (_opt s2)) (accepted (_opt s1))) as [E1|N1].
      * rewrite <- (Heq E1). apply Hlt'. lia.
      * destruct (Z.eq_dec (accepted (_opt s3)) (accepted (_opt s2))) as [E2|N2].
        -- rewrite (Heq' E2). apply Hlt. lia.
        -- eapply ltb_trans; [apply Hlt'|apply Hlt]; lia.
  - intros s r s' _ Hit.
    apply iterate_effect in Hit as (_ & _ & _ & _ & _ & _ & Hcases).
    destruct Hcases as [(_ & _ & [(-> & -> & _)|(-> & Hlt)])|(e & _ & _ & -> & ->)];
      repeat split; try done; try lia.
Qed.

(** [initModelI]: the result of the loop over the rows [a .. a+n-1]. *)
Lemma initModelI_loop_outcome (self : McCore) (n : nat) :
  forall (a : nat) (mI vols : vec),
  (a + n <= length vols)%nat ->
  (for_ (seqZ (Z.of_nat a) (Z.of_nat n)) (fun contribi =>
    self ← get;
    row ← lift (loc (parameterSet (_model self)) contribi);
    '(Ic, Vc) ← calcModelIV row;
    modify (with_opt (fun o =>
      set_modelI
        (vadd (modelI o) (vdiv_s Ic (float_of_int (nContrib (_model self))))) o)) ;;
    vols' ← lift (setitem (volumes (_model self)) contribi Vc);
    modify (with_model (set_volumes vols'))) (init_state self mI vols)).1
  = if forallb (fun i => bool_decide (is_Some (parameterSet (_model self) !! i)))
         (seqZ (Z.of_nat a) (Z.of_nat n))
    then Ok tt else Raise KeyError.
Proof.
  induction n as [|n IH]; intros a mI vols Hlen.
  - reflexivity.
  - rewrite seqZ_cons by lia. simpl. mrun. unfold loc.
    destruct (parameterSet (_model self) !! Z.of_nat a) as [row|] eqn:Erow.
    2:{ rewrite bool_decide_eq_false_2 by (by intros [? ?]). reflexivity. }
    rewrite bool_decide_eq_true_2 by eauto.
    simpl. rewrite calcModelIV_run. simpl.
    rewrite setitem_in_range by lia. simpl.
    replace (Z.succ (Z.of_nat a)) with (Z.of_nat (S a)) by lia.
    replace (Z.pred (Z.of_nat (S n))) with (Z.of_nat n) by lia.
    apply (IH (S a)
             (vadd mI (vdiv_s (contribution self row).1
                         (float_of_int (nContrib (_model self)))))
             (<[a := (contribution self row).2]> vols)).
    rewrite length_insert. lia.
Qed.

(** X5: [initModelI] needs the row labelled 0 whatever [nContrib] is (a
    [KeyError] without it), then a [nContrib] that is not negative (a
    [ValueError] otherwise), then the rows labelled [0 .. nContrib - 1] (a
    [KeyError] if one is missing); with all of these it returns. *)
Theorem initModelI_outcome (self : McCore) :
  (initModelI self).1
  = if bool_decide (is_Some (parameterSet (_model self) !! 0)) then
      if nContrib (_model self) <? 0 then Raise ValueError
      else if rows_present (parameterSet (_model self)) (nContrib (_model self))
           then Ok tt else Raise KeyError
    else Raise KeyError.
Proof.
  unfold initModelI. mrun. unfold loc.
  destruct (parameterSet (_model self) !! 0) as [row0|] eqn:E0.
  2:{ rewrite bool_decide_eq_false_2 by (by intros [? ?]). reflexivity. }
  rewrite bool_decide_eq_true_2 by eauto.
  rewrite calcModelIV_run. simpl. unfold zeros.
  destruct (Z.ltb_spec (nContrib (_model self)) 0) as [|HN]; [reflexivity|]. simpl.
  pose proof (initModelI_loop_outcome self (Z.to_nat (nContrib (_model self))) 0
                (replicate (length (contribution self row0).1) 0%float)
                (replicate (Z.to_nat (nContrib (_model self))) 0%float)) as Hloop.
  rewrite Z2Nat.id in Hloop by lia. unfold rows_present.
  apply Hloop. rewrite length_replicate. lia.
Qed.

(** [ensemble_consistent] looks at the measurement data and the model only. *)
Lemma ensemble_consistent_ext (s s' : McCore) :
  _measData s' = _measData s ->
  parameterSet (_model s') = parameterSet (_model s) ->
  volumes (_model s') = volumes (_model s) ->
  staticParameters (_model s') = staticParameters (_model s) ->
  nContrib (_model s') = nContrib (_model s) ->
  ensemble_consistent s -> ensemble_consistent s'.
Proof.
  unfold ensemble_consistent, contribution.
  intros -> -> -> -> ->. done.
Qed.

Lemma initModelI_consistent (self s' : McCore) :
  initModelI self = (Ok tt, s') -> ensemble_consistent s'.
Proof.
  intros Hinit. apply initModelI_from_scratch in Hinit
    as (row0 & rows & _ & Hlen & Hrows & ->).
  split; simpl.
  - by rewrite length_fmap.
  - intros i Hi.
    destruct (rows !! i) as [row|] eqn:Erow.
    2:{ apply lookup_ge_None in Erow. lia. }
    exists row. split; [by apply Hrows|].
    by rewrite list_lookup_fmap, Erow.
Qed.

(** What the constructor returns went through [initModelI]. *)
Lemma McCore_init_inv (md : option MeasData) (model : option McModel)
    (opt : option McOpt) (r : Rng) (file : option string) (rep : option Z)
    (self : McCore) :
  McCore_init md model opt r file rep = Ok self ->
  exists loaded s0 s1 tx0 g,
    init_body loaded s0 = (Ok tt, self)
    /\ initModelI s0 = (Ok tt, s1)
    /\ OSB_match (I (_measData s1)) (ISigma (_measData s1)) (modelI (_opt s1))
         (x0 (_opt s1)) = Ok (tx0, g)
    /\ self = with_opt (set_x0 tx0) (with_opt (set_gof g) (with_opt (set_testX0 tx0) s1))
    /\ md = Some (_measData s0)
    /\ rng s0 = r
    /\ match file with
       | Some f => exists n, rep = Some n /\ _model s0 = McModel_load f n
                             /\ _opt s0 = McOpt_load f n
       | None => exists o, opt = Some o /\ model = Some (_model s0)
                           /\ _opt s0 = set_accepted 0 (set_step 0 o)
       end.
Proof.
  unfold McCore_init, load.
  destruct md as [md|]; [|discriminate].
  assert (Hbody : forall loaded s0,
    init_body loaded s0 = (Ok tt, self) ->
    exists s1 tx0 g,
      initModelI s0 = (Ok tt, s1)
      /\ OSB_match (I (_measData s1)) (ISigma (_measData s1)) (modelI (_opt s1))
           (x0 (_opt s1)) = Ok (tx0, g)
      /\ self = with_opt (set_x0 tx0) (with_opt (set_gof g) (with_opt (set_testX0 tx0) s1))).
  { intros loaded s0. rewrite init_body_run.
    destruct (initModelI s0) as [[[]|e] s1]; [|discriminate].
    destruct (OSB_match _ _ _ _) as [[tx0 g]|e] eqn:Hosb; [|discriminate].
    destruct loaded as [[tg tx]|]; [intros [= _ <-]|intros [= <-]];
      by exists s1, tx0, g. }
  destruct file as [f|].
  - destruct rep as [n|]; [|discriminate].
    destruct (init_body _ _) as [[[]|e] s'] eqn:Hb; [|discriminate].
    intros [= ->]. destruct (Hbody _ _ Hb) as (s1 & tx0 & g & ? & ? & ?).
    eexists _, _, s1, tx0, g. repeat split; try done. eauto.
  - destruct model as [m|]; [|discriminate]. destruct opt as [o|]; [|discriminate].
    destruct (init_body _ _) as [[[]|e] s'] eqn:Hb; [|discriminate].
    intros [= ->]. destruct (Hbody _ _ Hb) as (s1 & tx0 & g & ? & ? & ?).
    eexists _, _, s1, tx0, g. repeat split; try done. eauto.
Qed.

Lemma McCore_init_consistent (md : option MeasData) (model : option McModel)
    (opt : option McOpt) (r : Rng) (file : option string) (rep : option Z)
    (self : McCore) :
  McCore_init md model opt r file rep = Ok self -> ensemble_consistent self.
Proof.
  intros Hinit.
  apply McCore_init_inv in Hinit as (loaded & s0 & s1 & tx0 & g & _ & Hmodel & _ & -> & _).
  apply initModelI_consistent in Hmodel.
  by apply (ensemble_consistent_ext s1).
Qed.

(** With a consistent ensemble of at least one contribution, the row a
    step looks at exists and its volume can be stored. *)
Lemma consistent_index (self : McCore) (st : Z) :
  ensemble_consistent self -> nContrib (_model self) <> 0 ->
  0 < nContrib (_model self)
  /\ 0 <= st `mod` nContrib (_model self) < nContrib (_model self)
  /\ is_Some (parameterSet (_model self) !! (st `mod` nContrib (_model self))).
Proof.
  intros [Hlen Hrows] HN.
  assert (0 < nContrib (_model self)) as Hpos by lia.
  pose proof (Z.mod_pos_bound st _ Hpos) as Hi.
  split; [done|]. split; [done|].
  destruct (Hrows (Z.to_nat (st `mod` nContrib (_model self)))) as (row & Hrow & _);
    [lia|].
  rewrite Z2Nat.id in Hrow by lia. eauto.
Qed.

(** One pass keeps the ensemble consistent, and can only fail in the solver. *)
Lemma iterate_consistent (self s' : McCore) (r : Res unit) :
  ensemble_consistent self ->
  iterate self = (r, s') ->
  ensemble_consistent s'
  /\ forall e, r = Raise e ->
       nContrib (_model self) = 0 /\ e = ZeroDivisionError
       \/ exists data guess,
            OSB_match (I (_measData self)) (ISigma (_measData self)) data guess
            = Raise e.
Proof.
  intros Hcons. rewrite iterate_run.
  destruct (pick_frame self) as (Hmd' & Hopt & Hps & Hvol & Hst & HN).
  assert (Hcp : ensemble_consistent (pick self).2)
    by (by apply (ensemble_consistent_ext self)).
  set (picked := (pick self).2) in *. clearbody picked.
  pose proof (reEvaluate_run picked) as Hrun.
  destruct (reEvaluate picked) as [[newGof|e] s2] eqn:Hre;
    destruct (reEvaluate_frame _ _ _ Hre)
      as (Hmd & Hm & _ & _ & _ & _ & Hstep & _).
  2:{ intros [= <- <-]. split.
      - apply (ensemble_consistent_ext picked); by rewrite ?Hm.
      - intros e' [= <-]. rewrite HN in Hrun.
        destruct (Z.eqb_spec (nContrib (_model self)) 0) as [Hz|Hnz].
        + left. split; [done|]. by injection Hrun.
        + destruct (consistent_index picked (step (_opt picked)) Hcp)
            as (_ & _ & [row Hrow]); [by rewrite HN|].
          rewrite HN in Hrow. rewrite Hrow in Hrun. cbv zeta in Hrun.
          destruct (OSB_match _ _ _ _) as [[tx0 g]|e'] eqn:Hosb; [discriminate|].
          injection Hrun as -> _. right. rewrite Hmd' in Hosb. eauto. }
  rewrite HN in Hrun.
  destruct (Z.eqb_spec (nContrib (_model self)) 0) as [Hz|Hnz]; [discriminate|].
  destruct (consistent_index picked (step (_opt picked)) Hcp)
    as (Hpos & Hi & [row Hrow]); [by rewrite HN|].
  rewrite HN in Hrow, Hi, Hpos. rewrite Hrow in Hrun. cbv zeta in Hrun.
  destruct (OSB_match _ _ _ _) as [[tx0 g]|e'] eqn:Hosb; [|discriminate].
  injection Hrun as -> Hs2.
  destruct (g <? gof (_opt s2))%float.
  2:{ intros [= <- <-]. split; [|discriminate].
      apply (ensemble_consistent_ext picked); simpl; by rewrite ?Hm. }
  rewrite accept_run. rewrite Hm, HN, Hstep.
  destruct (Z.eqb_spec (nContrib (_model self)) 0) as [Hz|_]; [done|].
  cbv zeta. destruct Hcp as [Hlen Hrows]. rewrite HN in Hlen, Hrows.
  set (i := step (_opt picked) `mod` nContrib (_model self)) in *.
  rewrite <- (Z2Nat.id i) at 1 by lia.
  rewrite setitem_in_range by lia.
  intros [= <- <-]. split; [|discriminate].
  unfold accepted_core. rewrite Hm, HN, Hstep. fold i.
  split; simpl.
  - rewrite length_insert. done.
  - intros j Hj. destruct (decide (j = Z.to_nat i)) as [->|Hne].
    + rewrite Z2Nat.id by lia. rewrite lookup_insert_eq.
      eexists. split; [reflexivity|].
      rewrite list_lookup_insert_eq by lia. f_equal.
      rewrite Hs2. reflexivity.
    + rewrite lookup_insert_ne by lia.
      rewrite list_lookup_insert_ne by done.
      destruct (Hrows j Hj) as (row' & Hrow' & Hv). exists row'. split; [done|].
      rewrite Hv. unfold contribution. simpl. by rewrite Hmd.
Qed.

(** X3: the core that the constructor returns, fresh or reloaded, holds one
    volume per contribution, and the volume at position [i] is the kernel
    volume of the row labelled [i]; a step and a whole [optimize] leave it
    so, however they end. *)
Theorem constructed_ensemble_stays_consistent (md : option MeasData)
    (model : option McModel) (opt : option McOpt) (r : Rng)
    (file : option string) (rep : option Z) (self : McCore) :
  McCore_init md model opt r file rep = Ok self ->
  ensemble_consistent self
  /\ ensemble_consistent (iterate self).2
  /\ ensemble_consistent (optimize self).2.
Proof.
  intros Hinit. apply McCore_init_consistent in Hinit.
  split; [done|]. split.
  - destruct (iterate self) as [r' s'] eqn:Hit.
    by apply (iterate_consistent _ _ _ Hinit) in Hit as [? _].
  - unfold optimize. mrun.
    generalize (Z.to_nat (maxIter (_opt self) - step (_opt self))) as fuel.
    intros fuel. revert self Hinit.
    induction fuel as [|fuel IH]; intros self Hcons; rewrite optimize_loop_unfold.
    + by destruct (keepGoing _).
    + destruct (keepGoing _); [|done].
      destruct (iterate self) as [[[]|e] s1] eqn:Hit;
        apply (iterate_consistent _ _ _ Hcons) in Hit as [Hc1 _]; [|done].
      by apply IH.
Qed.

(** X6: with [nContrib = 0] a step raises [ZeroDivisionError] (from
    [step % nContrib]) right after the pick, and so does [optimize] whenever
    its loop test holds. *)
Theorem no_contribution_no_step (self : McCore) :
  nContrib (_model self) = 0 ->
  iterate self = (Raise ZeroDivisionError, (pick self).2)
  /\ optimize self
     = if keepGoing (_opt self) then (Raise ZeroDivisionError, (pick self).2)
       else (Ok tt, self).
Proof.
  intros HN.
  assert (Hit : iterate self = (Raise ZeroDivisionError, (pick self).2)).
  { rewrite iterate_run, reEvaluate_run.
    destruct (pick_frame self) as (_ & _ & _ & _ & _ & ->). by rewrite HN. }
  split; [done|]. rewrite optimize_unfold.
  destruct (keepGoing _); [|done]. mrun. by rewrite Hit.
Qed.

(** X7: the constructor, given a model and an optimisation state, resets
    both counters, keeps the targets, the rows and the parameters of the
    model, and stores as [x0] and [gof] what the solver returns for the
    initial intensity, with the caller's [x0] as its first guess. *)
Theorem McCore_init_fresh (md : MeasData) (model : McModel) (opt : McOpt)
    (r : Rng) (rep : option Z) (self : McCore) :
  McCore_init (Some md) (Some model) (Some opt) r None rep = Ok self ->
  _measData self = md /\ rng self = r
  /\ step (_opt self) = 0 /\ accepted (_opt self) = 0
  /\ maxIter (_opt self) = maxIter opt /\ maxAccept (_opt self) = maxAccept opt
  /\ convCrit (_opt self) = convCrit opt /\ repetition (_opt self) = repetition opt
  /\ parameterSet (_model self) = parameterSet model
  /\ staticParameters (_model self) = staticParameters model
  /\ pickParameters (_model self) = pickParameters model
  /\ nContrib (_model self) = nContrib model
  /\ testX0 (_opt self) = x0 (_opt self)
  /\ OSB_match (I md) (ISigma md) (modelI (_opt self)) (x0 opt)
     = Ok (x0 (_opt self), gof (_opt self)).
Proof.
  intros Hinit.
  apply McCore_init_inv in Hinit
    as (loaded & s0 & s1 & tx0 & g & _ & Hmodel & Hosb & -> & [= ->] & <-
        & o & [= <-] & [= ->] & Hopt).
  apply initModelI_frame in Hmodel as (mI & vols & ->). simpl in *.
  rewrite Hopt in *. simpl in *. repeat split; done.
Qed.

End Core_facts.

(** ** The aggregator *)

Section Analysis_facts.

Import Np Core Analysis.

Context `{AnalysisExternals}.

Lemma collect_length {A} (rs : list (Res A)) (l : list A) :
  collect rs = Ok l -> length l = length rs.
Proof.
  revert l. induction rs as [|[a|e] rs IH]; intros l; simpl.
  - by intros [= <-].
  - destruct (collect rs) as [l'|e]; [|discriminate].
    intros [= <-]. simpl. by rewrite (IH l').
  - discriminate.
Qed.

Lemma array2d_ok (rows hists : list vec) : array2d rows = Ok hists -> hists = rows.
Proof.
  unfold array2d. destruct rows as [|r0 rows]; [by intros [= <-]|].
  destruct (forallb _ _); [by intros [= <-]|discriminate].
Qed.

(** [averageHistogram], written out: the histograms are stacked first; the
    bin edges of the first two repetitions are compared if there are two;
    the table is made with the bin edges of the first. *)
Lemma averageHistogram_run (h : Z) (a : McAnalysis) :
  averageHistogram h a
  = (match stacked_histograms h a with
     | Raise e => Raise e
     | Ok hists =>
         match _repetitionList (self_ a) with
         | r0 :: r1 :: _ =>
             match dict_get (_concatBinEdges (cls a)) h with
             | Raise e => Raise e
             | Ok edges =>
                 match dict_get edges r0 with
                 | Raise e => Raise e
                 | Ok e0 =>
                     match dict_get edges r1 with
                     | Raise e => Raise e
                     | Ok e1 =>
                         match all_eq e0 e1 with
                         | Raise e => Raise e
                         | Ok false => Raise (AssertionError "")
                         | Ok true => averaged hists e0
                         end
                     end
                 end
             end
         | [r0] =>
             match dict_get2 (_concatBinEdges (cls a)) h r0 with
             | Raise e => Raise e
             | Ok e0 => averaged hists e0
             end
         | [] =>
             match dict_get (_concatBinEdges (cls a)) h with
             | Raise e => Raise e
             | Ok _ => Raise IndexError
             end
         end
     end, a).
Proof.
  unfold averageHistogram, stacked_histograms, averaged, dict_get2. mrun.
  destruct (collect _) as [rows|e]; simpl; [|done].
  destruct (array2d rows) as [hists|e]; simpl; [|done].
  destruct (_repetitionList (self_ a)) as [|r0 [|r1 rest]]; simpl.
  - by destruct (dict_get (_concatBinEdges (cls a)) h).
  - destruct (dict_get (_concatBinEdges (cls a)) h) as [edges|e]; simpl; [|done].
    destruct (dict_get edges r0) as [e0|e]; simpl; [|done].
    by destruct (_ =? _)%nat.
  - destruct (dict_get (_concatBinEdges (cls a)) h) as [edges|e]; simpl; [|done].
    destruct (dict_get edges r0) as [e0|e]; simpl; [|done].
    destruct (dict_get edges r1) as [e1|e]; simpl; [|done].
    destruct (all_eq e0 e1) as [[]|e]; simpl; [|done..].
    by destruct (_ =? _)%nat.
Qed.




Lemma df_reduce_single (n : nat) (f : vec -> float) (row : vec) (j : nat) (v : float) :
  df_reduce n f [row] !! j = Some v -> v = f [default nan (row !! j)].
Proof.
  unfold df_reduce, column. rewrite list_lookup_fmap.
  destruct (seq 0 n !! j) as [i|] eqn:Hi; [|discriminate].
  apply lookup_seq in Hi as [-> _]. simpl. by intros [= <-].
Qed.

Lemma dict_get_set_ne {V} (d : PyDict V) (k k' : Z) (v : V) :
  k' ≠ k -> dict_get (dict_set d k' v) k = dict_get d k.
Proof.
  intros Hne. unfold dict_get. induction d as [|[k0 v0] d IH]; simpl.
  - by rewrite decide_False.
  - destruct (decide (k0 = k')) as [->|Hk0].
    + rewrite bool_decide_eq_true_2 by done. simpl.
      by rewrite !decide_False.
    + rewrite bool_decide_eq_false_2 by done. simpl.
      destruct (decide (k0 = k)); [done|].
      destruct (list_find _ (dict_set d k' v)) as [[i [k1 v1]]|],
               (list_find _ d) as [[i' [k2 v2]]|]; simpl in *; congruence.
Qed.

Lemma dict_get_set_eq {V} (d : PyDict V) (k : Z) (v : V) :
  dict_get (dict_set d k v) k = Ok v.
Proof.
  unfold dict_get. induction d as [|[k0 v0] d IH]; simpl.
  - by rewrite decide_True.
  - destruct (decide (k0 = k)) as [->|Hk0].
    + rewrite bool_decide_eq_true_2 by done. simpl. by rewrite decide_True.
    + rewrite bool_decide_eq_false_2 by done. simpl. rewrite decide_False by done.
      by destruct (list_find _ (dict_set d k v)) as [[i [k1 v1]]|];
        simpl in *; try discriminate; injection IH as ->.
Qed.

(** A [for] loop keeps what each of its passes keeps. *)
Lemma for_invariant_in {S A : Type} (P : S -> Prop) (body : A -> M S unit) (xs : list A) :
  (forall x s r s', x ∈ xs -> P s -> body x s = (r, s') -> P s') ->
  forall s r s', P s -> for_ xs body s = (r, s') -> P s'.
Proof.
  induction xs as [|x xs IH]; intros Hbody s r s' HP; simpl.
  - by intros [= <- <-].
  - unfold bind. destruct (body x s) as [[[]|e] s1] eqn:Hb.
    + apply IH; [|by eapply Hbody; [left|..]].
      intros x' ? ? ? Hin. apply Hbody. by right.
    + intros [= <- <-]. eapply Hbody; [left|..]; done.
Qed.

(** [ensureConcatEssentials] and the per-range bookkeeping leave [_concatI]
    and the instance alone. *)
Lemma ensureConcatEssentials_frame (histIndex : Z) (a : McAnalysis) :
  exists a', ensureConcatEssentials histIndex a = (Ok tt, a')
    /\ _concatI (cls a') = _concatI (cls a) /\ self_ a' = self_ a.
Proof.
  unfold ensureConcatEssentials. mrun. eexists. split; [reflexivity|].
  unfold with_cls. simpl. split; [|done].
  repeat (match goal with
          | |- context [dict_has ?d ?k] => destruct (dict_has d k)
          end; simpl); done.
Qed.

Lemma dict_has_get {V} (d : PyDict V) (k : Z) :
  dict_has d k = true -> exists v, dict_get d k = Ok v.
Proof.
  unfold dict_has, dict_get. rewrite bool_decide_eq_true.
  induction d as [|[k0 v0] d IH]; simpl.
  - by intros ?%elem_of_nil.
  - destruct (decide (k0 = k)) as [->|Hne]; [eauto|].
    rewrite elem_of_cons. intros [->|Hin]; [done|].
    destruct (IH Hin) as [v Hv].
    destruct (list_find _ d) as [[i [k1 v1]]|]; simpl in *; [|done]. eauto.
Qed.

Lemma dict_get_has {V} (d : PyDict V) (k : Z) :
  dict_has d k = false -> dict_get d k = Raise KeyError.
Proof.
  unfold dict_has, dict_get. rewrite bool_decide_eq_false.
  induction d as [|[k0 v0] d IH]; simpl; [done|].
  rewrite not_elem_of_cons. intros [Hne Hin].
  rewrite decide_False by done.
  specialize (IH Hin).
  by destruct (list_find _ d) as [[i [k1 v1]]|].
Qed.

Lemma dict_set2_ok {V} (d : PyDict (PyDict V)) (h rep : Z) (v : V) :
  dict_has d h = true -> exists d', dict_set2 d h rep v = Ok d'.
Proof.
  intros Hhas. destruct (dict_has_get _ _ Hhas) as [t Ht].
  unfold dict_set2. rewrite Ht. eauto.
Qed.

Lemma dict_has_set {V} (d : PyDict V) (k : Z) (v : V) :
  dict_has (dict_set d k v) k = true.
Proof.
  unfold dict_has. rewrite bool_decide_eq_true.
  induction d as [|[k0 v0] d IH]; simpl; [by apply list_elem_of_singleton|].
  destruct (decide (k0 = k)) as [->|Hne].
  - rewrite bool_decide_eq_true_2 by done. simpl. by left.
  - rewrite bool_decide_eq_false_2 by done. simpl. by right.
Qed.

(** What [ensureConcatEssentials] returns. *)
Lemma ensureConcatEssentials_run (h : Z) (a : McAnalysis) :
  exists a', ensureConcatEssentials h a = (Ok tt, a')
    /\ self_ a' = self_ a /\ process_rng a' = process_rng a
    /\ _concatI (cls a') = _concatI (cls a)
    /\ _averagedHistograms (cls a') = _averagedHistograms (cls a)
    /\ _concatModes (cls a')
       = (if dict_has (_concatModes (cls a)) h then _concatModes (cls a)
          else dict_set (_concatModes (cls a)) h [])
    /\ _concatHistograms (cls a')
       = (if dict_has (_concatHistograms (cls a)) h then _concatHistograms (cls a)
          else dict_set (_concatHistograms (cls a)) h [])
    /\ _concatBinEdges (cls a')
       = (if dict_has (_concatBinEdges (cls a)) h then _concatBinEdges (cls a)
          else dict_set (_concatBinEdges (cls a)) h []).
Proof.
  unfold ensureConcatEssentials. mrun. eexists. split; [reflexivity|].
  unfold with_cls. simpl.
  destruct (dict_has (_concatModes (cls a)) h); simpl;
    destruct (dict_has (_concatHistograms (cls a)) h); simpl;
    destruct (dict_has (_concatBinEdges (cls a)) h); simpl; done.
Qed.

Lemma ensure_has {V} (d : PyDict (PyDict V)) (h : Z) :
  dict_has (if dict_has d h then d else dict_set d h []) h = true.
Proof. destruct (dict_has d h) eqn:E; [done|apply dict_has_set]. Qed.

(** The bookkeeping for one histogram range never fails, and writes the
    three class-level tables only. *)
Lemma range_pass_run (rep h : Z) (range : HistRange) (model : McModel)
    (a : McAnalysis) :
  let body : M McAnalysis unit :=
    ensureConcatEssentials h ;;
    let '(modes, hist, edges) := McModelHistogrammer model range in
    a ← get;
    cm ← lift (dict_set2 (_concatModes (cls a)) h rep modes);
    modify (with_cls (set_concatModes cm)) ;;
    ch ← lift (dict_set2 (_concatHistograms (cls a)) h rep hist);
    modify (with_cls (set_concatHistograms ch)) ;;
    ce ← lift (dict_set2 (_concatBinEdges (cls a)) h rep edges);
    modify (with_cls (set_concatBinEdges ce)) in
  exists a' cm ch ce,
    body a = (Ok tt, a')
    /\ self_ a' = self_ a /\ process_rng a' = process_rng a
    /\ _concatI (cls a') = _concatI (cls a)
    /\ _averagedHistograms (cls a') = _averagedHistograms (cls a)
    /\ dict_set2 (if dict_has (_concatModes (cls a)) h then _concatModes (cls a)
                  else dict_set (_concatModes (cls a)) h [])
         h rep (McModelHistogrammer model range).1.1 = Ok cm
    /\ dict_set2 (if dict_has (_concatHistograms (cls a)) h then _concatHistograms (cls a)
                  else dict_set (_concatHistograms (cls a)) h [])
         h rep (McModelHistogrammer model range).1.2 = Ok ch
    /\ dict_set2 (if dict_has (_concatBinEdges (cls a)) h then _concatBinEdges (cls a)
                  else dict_set (_concatBinEdges (cls a)) h [])
         h rep (McModelHistogrammer model range).2 = Ok ce
    /\ _concatModes (cls a') = cm
    /\ _concatHistograms (cls a') = ch
    /\ _concatBinEdges (cls a') = ce.
Proof.
  intros body. unfold body.
  destruct (ensureConcatEssentials_run h a)
    as (a1 & Hrun & Hself & Hrng & HI & HA & HM & HH & HE).
  unfold mbind at 1, M_bind at 1, bind at 1. rewrite Hrun.
  destruct (McModelHistogrammer model range) as [[modes hist] edges]. simpl.
  destruct (dict_set2_ok (_concatModes (cls a1)) h rep modes) as [cm Hcm];
    [rewrite HM; apply ensure_has|].
  destruct (dict_set2_ok (_concatHistograms (cls a1)) h rep hist) as [ch Hch];
    [rewrite HH; apply ensure_has|].
  destruct (dict_set2_ok (_concatBinEdges (cls a1)) h rep edges) as [ce Hce];
    [rewrite HE; apply ensure_has|].
  mrun. rewrite Hcm. simpl. rewrite Hch. simpl. rewrite Hce. simpl.
  eexists _, cm, ch, ce. split; [reflexivity|]. simpl.
  rewrite <- HM, <- HH, <- HE. repeat split; done.
Qed.

Lemma histAndLoadReps_passes (inputFile : string) (store : bool) (a : McAnalysis) :
  histAndLoadReps inputFile store a
  = for_ (_repetitionList (self_ a)) (rep_pass inputFile store) a.
Proof. reflexivity. Qed.

Lemma dict_set2_ensure {V} (d d' : PyDict (PyDict V)) (h rep : Z) (v : V) :
  dict_set2 (if dict_has d h then d else dict_set d h []) h rep v = Ok d' ->
  table_written d d' h rep v.
Proof.
  unfold dict_set2, table_written, dict_get2.
  destruct (dict_has d h) eqn:Ehas.
  - destruct (dict_has_get _ _ Ehas) as [t Ht]. rewrite Ht. intros [= <-].
    rewrite dict_get_set_eq. split; [apply dict_get_set_eq|].
    intros h0 rep0 Hne. destruct (decide (h0 = h)) as [->|Hh].
    + rewrite dict_get_set_eq, Ht. apply dict_get_set_ne. congruence.
    + by rewrite dict_get_set_ne.
  - rewrite dict_get_set_eq. intros [= <-].
    rewrite dict_get_set_eq. split; [apply (dict_get_set_eq [])|].
    intros h0 rep0 Hne. destruct (decide (h0 = h)) as [->|Hh].
    + rewrite dict_get_set_eq, (dict_get_has _ _ Ehas).
      change [(rep, v)] with (dict_set [] rep v).
      rewrite dict_get_set_ne by congruence. done.
    + by rewrite !dict_get_set_ne.
Qed.

Lemma table_writes_other {V} (rep : Z) (ws : list (Z * V)) :
  forall d d', table_writes rep ws d d' ->
  forall h0 rep0, rep0 <> rep \/ h0 ∉ ws.*1 ->
  dict_get2 d' h0 rep0 = dict_get2 d h0 rep0.
Proof.
  induction ws as [|[h v] ws IH]; intros d d'; simpl.
  - by intros ->.
  - intros (d1 & [_ Hother] & Hrest) h0 rep0 Hne.
    rewrite (IH _ _ Hrest).
    + apply Hother. intros [= -> ->]. destruct Hne as [?|Hnin]; [done|].
      apply Hnin. by left.
    + destruct Hne as [?|Hnin]; [by left|]. right.
      intros Hin. apply Hnin. by right.
Qed.

Lemma table_writes_written {V} (rep : Z) (ws : list (Z * V)) :
  forall d d', table_writes rep ws d d' ->
  NoDup ws.*1 ->
  forall h v, (h, v) ∈ ws -> dict_get2 d' h rep = Ok v.
Proof.
  induction ws as [|[h1 v1] ws IH]; intros d d'; simpl.
  - intros _ _ h v Hin. by apply elem_of_nil in Hin.
  - intros (d1 & [Hw _] & Hrest) [Hnin Hnodup]%NoDup_cons h v.
    rewrite elem_of_cons. intros [[= -> ->]|Hin].
    + rewrite (table_writes_other _ _ _ _ Hrest); [done|]. by right.
    + by eapply IH.
Qed.

(** The inner loop never fails; it writes the three tables, and each by
    one write per range. *)
Lemma range_loop_run (rep : Z) (model : McModel) (ranges : list (Z * HistRange)) :
  forall a, exists a',
    for_ ranges (range_pass rep model) a = (Ok tt, a')
    /\ self_ a' = self_ a /\ process_rng a' = process_rng a
    /\ _concatI (cls a') = _concatI (cls a)
    /\ _averagedHistograms (cls a') = _averagedHistograms (cls a)
    /\ table_writes rep
         ((fun hr => (hr.1, (McModelHistogrammer model hr.2).1.1)) <$> ranges)
         (_concatModes (cls a)) (_concatModes (cls a'))
    /\ table_writes rep
         ((fun hr => (hr.1, (McModelHistogrammer model hr.2).1.2)) <$> ranges)
         (_concatHistograms (cls a)) (_concatHistograms (cls a'))
    /\ table_writes rep
         ((fun hr => (hr.1, (McModelHistogrammer model hr.2).2)) <$> ranges)
         (_concatBinEdges (cls a)) (_concatBinEdges (cls a')).
Proof.
  induction ranges as [|[h range] ranges IH]; intros a.
  - exists a. simpl. repeat split; done.
  - destruct (range_pass_run rep h range model a)
      as (a1 & cm & ch & ce & Hrun & Hself & Hrng & HI & HA & Hcm & Hch & Hce
          & HM & HH & HE).
    destruct (IH a1) as (a' & Hloop & Hself' & Hrng' & HI' & HA' & HM' & HH' & HE').
    exists a'. simpl. unfold bind.
    change (range_pass rep model (h, range) a) with
      ((ensureConcatEssentials h ;;
        let '(modes, hist, edges) := McModelHistogrammer model range in
        a ← get;
        cm ← lift (dict_set2 (_concatModes (cls a)) h rep modes);
        modify (with_cls (set_concatModes cm)) ;;
        ch ← lift (dict_set2 (_concatHistograms (cls a)) h rep hist);
        modify (with_cls (set_concatHistograms ch)) ;;
        ce ← lift (dict_set2 (_concatBinEdges (cls a)) h rep edges);
        modify (with_cls (set_concatBinEdges ce))) a).
    rewrite Hrun, Hloop. split; [done|].
    rewrite Hself', Hrng', HI', HA'. repeat split; try done.
    + exists (_concatModes (cls a1)). split; [|done].
      apply dict_set2_ensure. by rewrite HM.
    + exists (_concatHistograms (cls a1)). split; [|done].
      apply dict_set2_ensure. by rewrite HH.
    + exists (_concatBinEdges (cls a1)). split; [|done].
      apply dict_set2_ensure. by rewrite HE.
Qed.

Lemma histogrammed_reload (a : McAnalysis) (inputFile : string) (store : bool)
    (rep : Z) (core : McCore) :
  histogrammed a inputFile store rep = Ok core -> reload a inputFile rep = Ok core.
Proof.
  unfold histogrammed. destruct (reload a inputFile rep) as [c|e]; [|done].
  destruct (McModelHistogrammer_init _ _) as [[]|e]; [|done].
  destruct store; [|done].
  by destruct (McModelHistogrammer_store _ _ _ _) as [[]|e].
Qed.

Lemma histogrammed_ext (a s : McAnalysis) (inputFile : string) (store : bool) (rep : Z) :
  _measData (self_ s) = _measData (self_ a) ->
  _histRanges (self_ s) = _histRanges (self_ a) ->
  process_rng s = process_rng a ->
  histogrammed s inputFile store rep = histogrammed a inputFile store rep.
Proof. unfold histogrammed, reload. by intros -> -> ->. Qed.

(** One pass of the outer loop fails exactly when the reload, the
    histogrammer or its store does, and then no table has been written. *)
Lemma rep_pass_run (inputFile : string) (store : bool) (rep : Z) (a : McAnalysis) :
  match histogrammed a inputFile store rep with
  | Raise e =>
      exists a',
        rep_pass inputFile store rep a = (Raise e, a')
        /\ cls a' = cls a /\ process_rng a' = process_rng a
        /\ (a' = a \/ exists core, a' = with_self (set_core (Some core)) a)
  | Ok core =>
      exists a',
        rep_pass inputFile store rep a = (Ok tt, a')
        /\ self_ a'
           = set_concatOpts (dict_set (_concatOpts (self_ a)) rep (opt_row core))
               (set_core (Some core) (self_ a))
        /\ process_rng a' = process_rng a
        /\ _concatI (cls a') = dict_set (_concatI (cls a)) rep (scaledI core)
        /\ _averagedHistograms (cls a') = _averagedHistograms (cls a)
        /\ table_writes rep
             ((fun hr => (hr.1, (McModelHistogrammer (_model core) hr.2).1.1))
                <$> _histRanges (self_ a))
             (_concatModes (cls a)) (_concatModes (cls a'))
        /\ table_writes rep
             ((fun hr => (hr.1, (McModelHistogrammer (_model core) hr.2).1.2))
                <$> _histRanges (self_ a))
             (_concatHistograms (cls a)) (_concatHistograms (cls a'))
        /\ table_writes rep
             ((fun hr => (hr.1, (McModelHistogrammer (_model core) hr.2).2))
                <$> _histRanges (self_ a))
             (_concatBinEdges (cls a)) (_concatBinEdges (cls a'))
  end.
Proof.
  unfold histogrammed, reload, rep_pass. mrun.
  destruct (McCore_init _ _ _ _ _ _) as [core|e]; [|by exists a; auto]. simpl.
  destruct (McModelHistogrammer_init _ _) as [[]|e]; simpl;
    [|by eexists; split; [reflexivity|]; eauto].
  assert (Htables : forall s : McAnalysis,
    s = with_self (set_core (Some core)) a ->
    exists a',
      for_ (_histRanges (self_ a)) (range_pass rep (_model core))
        (with_cls (fun c =>
           set_concatI (dict_set (_concatI c) rep
             (vadd_s (vmul_s (modelI (_opt core)) (scaling (x0 (_opt core))))
                (background (x0 (_opt core))))) c)
           (with_self (fun i =>
              set_concatOpts (dict_set (_concatOpts i) rep
                [scaling (x0 (_opt core)); background (x0 (_opt core)); gof (_opt core);
                 float_of_int (accepted (_opt core)); float_of_int (step (_opt core))]) i)
              s))
      = (Ok tt, a')
      /\ self_ a'
         = set_concatOpts (dict_set (_concatOpts (self_ a)) rep (opt_row core))
             (set_core (Some core) (self_ a))
      /\ process_rng a' = process_rng a
      /\ _concatI (cls a') = dict_set (_concatI (cls a)) rep (scaledI core)
      /\ _averagedHistograms (cls a') = _averagedHistograms (cls a)
      /\ table_writes rep
           ((fun hr => (hr.1, (McModelHistogrammer (_model core) hr.2).1.1))
              <$> _histRanges (self_ a))
           (_concatModes (cls a)) (_concatModes (cls a'))
      /\ table_writes rep
           ((fun hr => (hr.1, (McModelHistogrammer (_model core) hr.2).1.2))
              <$> _histRanges (self_ a))
           (_concatHistograms (cls a)) (_concatHistograms (cls a'))
      /\ table_writes rep
           ((fun hr => (hr.1, (McModelHistogrammer (_model core) hr.2).2))
              <$> _histRanges (self_ a))
           (_concatBinEdges (cls a)) (_concatBinEdges (cls a'))).
  { intros s ->.
    match goal with |- context [for_ _ _ ?s] =>
      destruct (range_loop_run rep (_model core) (_histRanges (self_ a)) s)
        as (a' & Hloop & Hself & Hrng & HI & HA & HM & HH & HE)
    end.
    exists a'. rewrite Hloop. split; [done|].
    rewrite Hself, Hrng, HI, HA. repeat split; done. }
  destruct store; simpl.
  - destruct (McModelHistogrammer_store _ _ _ _) as [[]|e]; simpl;
      [|by eexists; split; [reflexivity|]; eauto].
    by apply Htables.
  - by apply Htables.
Qed.

(** An entry of the class-level [_concatI] under a key that is not among
    the repetitions found survives [histAndLoadReps]. *)
Lemma histAndLoadReps_keeps_other_entries (inputFile : string) (store : bool)
    (a a' : McAnalysis) (r : Res unit) (k : Z) (v : vec) :
  k ∉ _repetitionList (self_ a) ->
  dict_get (_concatI (cls a)) k = Ok v ->
  histAndLoadReps inputFile store a = (r, a') ->
  dict_get (_concatI (cls a')) k = Ok v.
Proof.
  intros Hk Hv. rewrite histAndLoadReps_passes.
  apply (for_invariant_in (fun s => dict_get (_concatI (cls s)) k = Ok v)); [|done].
  intros rep s r0 s0 Hrep HP Hpass.
  pose proof (rep_pass_run inputFile store rep s) as Hrun.
  destruct (histogrammed s inputFile store rep) as [core|e].
  - destruct Hrun as (s1 & Hs1 & _ & _ & HI & _).
    rewrite Hs1 in Hpass. injection Hpass as _ <-.
    rewrite HI, dict_get_set_ne; [done|]. by intros ->.
  - destruct Hrun as (s1 & Hs1 & Hcls & _).
    rewrite Hs1 in Hpass. injection Hpass as _ <-. by rewrite Hcls.
Qed.

(** [averageI] averages every entry of the class-level [_concatI]. *)
Lemma averageI_inv (a a' : McAnalysis) :
  averageI a = (Ok tt, a') ->
  _averagedI (self_ a')
  = Some (mkAvgI (reduce_axis0 Np.mean (dict_values (_concatI (cls a))))
                 (reduce_axis0 (std 0) (dict_values (_concatI (cls a))))).
Proof.
  unfold averageI. mrun.
  destruct (array2d _) as [rows|e] eqn:Harr; [|discriminate]. simpl.
  apply array2d_ok in Harr as ->.
  destruct (dict_values _); [discriminate|]. by intros [= <-].
Qed.

(** C6, as the code has it.  [averageHistogram] stacks and averages the
    histograms of the repetitions of the list first.  Then, with two or more
    repetitions, it compares the bin edges of the first with those of the
    second, elementwise, and raises an [AssertionError] without message if
    they are not all equal; with one repetition it compares nothing.  The
    table it returns has the bin edges of the first repetition.  The bin
    edges of a repetition that is not among the first two of the list are
    never read: whatever they are, the outcome is the same. *)
Theorem averageHistogram_compares_first_two_edges (h : Z) (a : McAnalysis) :
  let reps := _repetitionList (self_ a) in
  let edges_of := dict_get2 (_concatBinEdges (cls a)) h in
  (forall e, stacked_histograms h a = Raise e ->
     averageHistogram h a = (Raise e, a))
  /\ (forall hists, stacked_histograms h a = Ok hists ->
        match reps with
        | r0 :: r1 :: _ =>
            forall e0 e1, edges_of r0 = Ok e0 -> edges_of r1 = Ok e1 ->
              averageHistogram h a
              = (match all_eq e0 e1 with
                 | Ok true => averaged hists e0
                 | Ok false => Raise (AssertionError "")
                 | Raise e => Raise e
                 end, a)
        | [r0] =>
            forall e0, edges_of r0 = Ok e0 ->
              averageHistogram h a = (averaged hists e0, a)
        | [] => is_Ok (averageHistogram h a).1 = false
        end)
  /\ (forall rep edges other,
        rep ∉ take 2 reps ->
        dict_get (_concatBinEdges (cls a)) h = Ok edges ->
        (averageHistogram h (with_binEdges h rep edges other a)).1
        = (averageHistogram h a).1).
Proof.
  intros reps edges_of. subst reps edges_of. split; [|split].
  - intros e He. by rewrite averageHistogram_run, He.
  - intros hists Hh. rewrite averageHistogram_run, Hh. unfold dict_get2.
    destruct (_repetitionList (self_ a)) as [|r0 [|r1 rest]].
    + simpl. by destruct (dict_get (_concatBinEdges (cls a)) h).
    + intros e0 He0. by rewrite He0.
    + intros e0 e1.
      destruct (dict_get (_concatBinEdges (cls a)) h) as [edges|e]; [|done].
      intros -> ->. by destruct (all_eq e0 e1) as [[]|e].
  - intros rep edges other Hrep Hedges.
    rewrite !averageHistogram_run.
    change (stacked_histograms h (with_binEdges h rep edges other a))
      with (stacked_histograms h a).
    destruct (stacked_histograms h a) as [hists|e]; [|done].
    unfold with_binEdges, with_cls, dict_get2. simpl.
    rewrite dict_get_set_eq, Hedges.
    destruct (_repetitionList (self_ a)) as [|r0 [|r1 rest]]; simpl in *.
    + done.
    + apply not_elem_of_cons in Hrep as [Hr0 _].
      by rewrite dict_get_set_ne.
    + apply not_elem_of_cons in Hrep as [Hr0 Hrep].
      apply not_elem_of_cons in Hrep as [Hr1 _].
      by rewrite !dict_get_set_ne.
Qed.


Lemma dict_set_fresh {V} (d : PyDict V) (k : Z) (v : V) :
  k ∉ d.*1 -> dict_set d k v = d ++ [(k, v)].
Proof.
  induction d as [|[k0 v0] d IH]; simpl; [done|].
  rewrite not_elem_of_cons. intros [Hne Hd].
  rewrite bool_decide_eq_false_2 by done. by rewrite IH.
Qed.

(** X11: [histAndLoadReps] returns exactly when, for every repetition of
    the list in turn, the reload, the histogrammer of the reloaded model
    and, if [store] is set, its store return; otherwise it raises what the
    first of these calls to fail raises.  The bookkeeping in the tables
    itself never fails. *)
Theorem histAndLoadReps_outcome (inputFile : string) (store : bool)
    (a : McAnalysis) :
  (histAndLoadReps inputFile store a).1
  = res_map (fun _ => tt)
      (collect (histogrammed a inputFile store <$> _repetitionList (self_ a))).
Proof.
  rewrite histAndLoadReps_passes.
  assert (Hgen : forall reps s,
    _measData (self_ s) = _measData (self_ a) ->
    _histRanges (self_ s) = _histRanges (self_ a) ->
    process_rng s = process_rng a ->
    (for_ reps (rep_pass inputFile store) s).1
    = res_map (fun _ => tt) (collect (histogrammed a inputFile store <$> reps))).
  { induction reps as [|rep reps IH]; intros s Hmd Hhr Hrng; [done|].
    simpl. unfold bind.
    pose proof (rep_pass_run inputFile store rep s) as Hpass.
    rewrite (histogrammed_ext a s) in Hpass by done.
    destruct (histogrammed a inputFile store rep) as [core|e].
    - destruct Hpass as (s' & -> & Hself & Hrng' & _).
      rewrite IH; [|by rewrite Hself..|congruence].
      by destruct (collect _).
    - by destruct Hpass as (s' & -> & _). }
  by apply Hgen.
Qed.

Lemma collect_fmap_ok {A B} (g : A -> Res B) (xs : list A) (ys : list B) :
  Forall2 (fun x y => g x = Ok y) xs ys -> collect (g <$> xs) = Ok ys.
Proof.
  induction 1 as [|x y xs ys Hxy _ IH]; [done|].
  rewrite fmap_cons. cbn [collect]. by rewrite Hxy, IH.
Qed.

(** What the loop over the repetitions has done when it returns. *)
Lemma rep_loop_inv (inputFile : string) (store : bool) (reps : list Z) :
  forall s s',
  for_ reps (rep_pass inputFile store) s = (Ok tt, s') ->
  NoDup reps ->
  exists cores,
    Forall2 (fun rep core => histogrammed s inputFile store rep = Ok core) reps cores
    /\ _measData (self_ s') = _measData (self_ s)
    /\ _histRanges (self_ s') = _histRanges (self_ s)
    /\ _repetitionList (self_ s') = _repetitionList (self_ s)
    /\ process_rng s' = process_rng s
    /\ ((forall rep, rep ∈ reps -> rep ∉ (_concatOpts (self_ s)).*1) ->
        _concatOpts (self_ s')
        = _concatOpts (self_ s) ++ zip reps (opt_row <$> cores))
    /\ ((forall rep, rep ∈ reps -> rep ∉ (_concatI (cls s)).*1) ->
        _concatI (cls s')
        = _concatI (cls s) ++ zip reps (scaledI <$> cores))
    /\ (forall rep0 h, rep0 ∉ reps ->
          dict_get2 (_concatModes (cls s')) h rep0
          = dict_get2 (_concatModes (cls s)) h rep0
          /\ dict_get2 (_concatHistograms (cls s')) h rep0
             = dict_get2 (_concatHistograms (cls s)) h rep0
          /\ dict_get2 (_concatBinEdges (cls s')) h rep0
             = dict_get2 (_concatBinEdges (cls s)) h rep0)
    /\ (NoDup (_histRanges (self_ s)).*1 ->
        Forall2 (fun rep core =>
          forall h range, (h, range) ∈ _histRanges (self_ s) ->
            dict_get2 (_concatModes (cls s')) h rep
            = Ok (McModelHistogrammer (_model core) range).1.1
            /\ dict_get2 (_concatHistograms (cls s')) h rep
               = Ok (McModelHistogrammer (_model core) range).1.2
            /\ dict_get2 (_concatBinEdges (cls s')) h rep
               = Ok (McModelHistogrammer (_model core) range).2) reps cores).
Proof.
  induction reps as [|rep reps IH]; intros s s' Hloop Hnodup.
  - injection Hloop as <-. exists []. split; [constructor|].
    do 4 (split; [done|]).
    split; [intros _; simpl; by rewrite app_nil_r|].
    split; [intros _; simpl; by rewrite app_nil_r|].
    split; [done|]. intros _. constructor.
  - simpl in Hloop. unfold bind in Hloop.
    pose proof (rep_pass_run inputFile store rep s) as Hpass.
    destruct (histogrammed s inputFile store rep) as [core|e] eqn:Hcore.
    2:{ destruct Hpass as (s1 & Hs1 & _). by rewrite Hs1 in Hloop. }
    destruct Hpass as (s1 & Hrun & Hself & Hrng & HI & _ & HM & HH & HE).
    rewrite Hrun in Hloop.
    apply NoDup_cons in Hnodup as [Hrep Hnodup].
    destruct (IH s1 s' Hloop Hnodup)
      as (cores & Hcores & Hmd & Hhr & Hrl & Hrng' & Hopts & HcI & Hkeep & Htab).
    rewrite Hself in Hmd, Hhr, Hrl, Hopts, Htab. simpl in Hmd, Hhr, Hrl, Hopts, Htab.
    exists (core :: cores). split.
    { constructor; [done|].
      eapply Forall2_impl; [exact Hcores|]. intros r c <-.
      symmetry. apply histogrammed_ext; [by rewrite Hself..|done]. }
    split; [done|]. split; [done|]. split; [done|]. split; [congruence|].
    split; [|split; [|split]].
    + intros Hfresh.
      rewrite Hopts.
      * rewrite dict_set_fresh by (apply Hfresh; left). by rewrite <- app_assoc.
      * intros rep' Hrep'.
        rewrite dict_set_fresh by (apply Hfresh; left).
        rewrite fmap_app, elem_of_app. simpl.
        intros [Hin|Hin%list_elem_of_singleton].
        -- revert Hin. apply Hfresh. by right.
        -- by subst.
    + intros Hfresh.
      rewrite HcI.
      * rewrite HI, dict_set_fresh by (apply Hfresh; left). by rewrite <- app_assoc.
      * intros rep' Hrep'.
        rewrite HI, dict_set_fresh by (apply Hfresh; left).
        rewrite fmap_app, elem_of_app. simpl.
        intros [Hin|Hin%list_elem_of_singleton].
        -- revert Hin. apply Hfresh. by right.
        -- by subst.
    + intros rep0 h Hnin. apply not_elem_of_cons in Hnin as [Hne Hnin].
      destruct (Hkeep rep0 h Hnin) as (-> & -> & ->).
      rewrite (table_writes_other _ _ _ _ HM), (table_writes_other _ _ _ _ HH),
        (table_writes_other _ _ _ _ HE); try by left. done.
    + intros Hnd. constructor; [|by apply Htab].
      intros h range Hin.
      destruct (Hkeep rep h Hrep) as (-> & -> & ->).
      assert (Hkeys : forall {V} (g : HistRange -> V),
        ((fun hr : Z * HistRange => (hr.1, g hr.2)) <$> _histRanges (self_ s)).*1
        = (_histRanges (self_ s)).*1).
      { intros V g. rewrite <- list_fmap_compose. by apply list_fmap_ext. }
      repeat split.
      * eapply (table_writes_written _ _ _ _ HM); [by rewrite (Hkeys _ (fun r => (McModelHistogrammer (_model core) r).1.1))|].
        apply (list_elem_of_fmap_2
                 (fun hr => (hr.1, (McModelHistogrammer (_model core) hr.2).1.1)) _ _ Hin).
      * eapply (table_writes_written _ _ _ _ HH); [by rewrite (Hkeys _ (fun r => (McModelHistogrammer (_model core) r).1.2))|].
        apply (list_elem_of_fmap_2
                 (fun hr => (hr.1, (McModelHistogrammer (_model core) hr.2).1.2)) _ _ Hin).
      * eapply (table_writes_written _ _ _ _ HE); [by rewrite (Hkeys _ (fun r => (McModelHistogrammer (_model core) r).2))|].
        apply (list_elem_of_fmap_2
                 (fun hr => (hr.1, (McModelHistogrammer (_model core) hr.2).2)) _ _ Hin).
Qed.

(** In [histAndLoadReps], with repetition numbers that are distinct and new
    to [_concatI], every repetition is reloaded and its scaled intensity
    [scaling * modelI + background] is appended to [_concatI], in order. *)
Lemma histAndLoadReps_concatI (inputFile : string) (store : bool)
    (a a' : McAnalysis) :
  histAndLoadReps inputFile store a = (Ok tt, a') ->
  NoDup (_repetitionList (self_ a)) ->
  (forall rep, rep ∈ _repetitionList (self_ a) -> rep ∉ (_concatI (cls a)).*1) ->
  exists cores,
    Forall2 (fun rep core =>
               McCore_init (_measData (self_ a)) None None (process_rng a)
                 (Some inputFile) (Some rep) = Ok core)
            (_repetitionList (self_ a)) cores
    /\ _concatI (cls a')
       = _concatI (cls a) ++ zip (_repetitionList (self_ a)) (scaledI <$> cores).
Proof.
  rewrite histAndLoadReps_passes. intros Hloop Hnodup Hfresh.
  apply rep_loop_inv in Hloop
    as (cores & Hcores & _ & _ & _ & _ & _ & HI & _); [|done].
  exists cores. split; [|by apply HI].
  eapply Forall2_impl; [exact Hcores|]. intros rep core.
  apply histogrammed_reload.
Qed.

(** So in a process whose [_concatI] is still empty, the averaged intensity
    is the mean and the standard deviation, per Q point, of the scaled
    intensities of the repetitions found. *)
Lemma first_analysis_averageI (inputFile : string) (store : bool)
    (a a1 a2 : McAnalysis) :
  _concatI (cls a) = [] ->
  NoDup (_repetitionList (self_ a)) ->
  histAndLoadReps inputFile store a = (Ok tt, a1) ->
  _concatI (cls a2) = _concatI (cls a1) ->
  forall a3, averageI a2 = (Ok tt, a3) ->
  exists cores,
    Forall2 (fun rep core =>
               McCore_init (_measData (self_ a)) None None (process_rng a)
                 (Some inputFile) (Some rep) = Ok core)
            (_repetitionList (self_ a)) cores
    /\ _averagedI (self_ a3)
       = Some (mkAvgI (reduce_axis0 Np.mean (scaledI <$> cores))
                      (reduce_axis0 (std 0) (scaledI <$> cores))).
Proof.
  intros Hempty Hnodup Hload Hsame a3 Havg.
  destruct (histAndLoadReps_concatI _ _ _ _ Hload Hnodup) as (cores & Hcores & HI).
  { intros rep _. rewrite Hempty. apply not_elem_of_nil. }
  exists cores. split; [done|].
  apply averageI_inv in Havg. rewrite Havg, Hsame, HI, Hempty. simpl.
  unfold dict_values. rewrite snd_zip; [done|].
  apply Forall2_length in Hcores. rewrite length_fmap. lia.
Qed.

(** [averageHistogram] only reads. *)
Lemma averageHistogram_state (h : Z) (a : McAnalysis) :
  (averageHistogram h a).2 = a.
Proof. by rewrite averageHistogram_run. Qed.

Lemma averaged_inv (hists : list vec) (binEdges : vec) (avg : AveragedHistogram) :
  averaged hists binEdges = Ok avg ->
  length (diff binEdges) = length (reduce_axis0 Np.mean hists)
  /\ avg = mkAvgHist
             (vadd (take (length binEdges - 1) binEdges)
                ((fun w => (0.5 * w)%float) <$> diff binEdges))
             (diff binEdges)
             (reduce_axis0 Np.mean hists)
             (reduce_axis0 (std (if (1 <? length hists)%nat then 1 else 0)) hists).
Proof.
  unfold averaged. destruct (_ =? _)%nat eqn:Hn; [|done].
  apply Nat.eqb_eq in Hn. by intros [= <-].
Qed.

(** All of what [averageHistogram] returns, when it returns. *)
Lemma averageHistogram_inv_full (h : Z) (a a' : McAnalysis) (avg : AveragedHistogram) :
  averageHistogram h a = (Ok avg, a') ->
  exists hists edges r0 binEdges,
    collect (dict_get2 (_concatHistograms (cls a)) h <$> _repetitionList (self_ a))
    = Ok hists
    /\ dict_get (_concatBinEdges (cls a)) h = Ok edges
    /\ _repetitionList (self_ a) !! 0%nat = Some r0
    /\ dict_get edges r0 = Ok binEdges
    /\ length (diff binEdges) = length (reduce_axis0 Np.mean hists)
    /\ avg = mkAvgHist
               (vadd (take (length binEdges - 1) binEdges)
                  ((fun w => (0.5 * w)%float) <$> diff binEdges))
               (diff binEdges)
               (reduce_axis0 Np.mean hists)
               (reduce_axis0
                  (std (if (1 <? length (_repetitionList (self_ a)))%nat then 1 else 0))
                  hists).
Proof.
  rewrite averageHistogram_run. unfold stacked_histograms, dict_get2.
  destruct (collect _) as [rows|e] eqn:Hrows; [|discriminate].
  destruct (array2d rows) as [hists|e] eqn:Harr; [|discriminate].
  apply array2d_ok in Harr as ->.
  pose proof (collect_length _ _ Hrows) as Hlen. rewrite length_fmap in Hlen.
  rewrite <- Hlen.
  destruct (_repetitionList (self_ a)) as [|r0 [|r1 rest]].
  - by destruct (dict_get (_concatBinEdges (cls a)) h).
  - destruct (dict_get (_concatBinEdges (cls a)) h) as [edges|e]; [|discriminate].
    destruct (dict_get edges r0) as [e0|e] eqn:He0; [|discriminate].
    intros [= Havg _]. apply averaged_inv in Havg as [Hn ->].
    by exists rows, edges, r0, e0.
  - destruct (dict_get (_concatBinEdges (cls a)) h) as [edges|e]; [|discriminate].
    destruct (dict_get edges r0) as [e0|e] eqn:He0; [|discriminate].
    destruct (dict_get edges r1) as [e1|e]; [|discriminate].
    destruct (all_eq e0 e1) as [[]|e]; [|discriminate..].
    intros [= Havg _]. apply averaged_inv in Havg as [Hn ->].
    by exists rows, edges, r0, e0.
Qed.

Lemma diff_length (xs : vec) : length (diff xs) = (length xs - 1)%nat.
Proof.
  induction xs as [|x [|y xs] IH]; simpl in *; try done.
  rewrite IH. lia.
Qed.

Lemma diff_lookup (xs : vec) :
  forall (j : nat) (e0 e1 : float),
  xs !! j = Some e0 -> xs !! S j = Some e1 -> diff xs !! j = Some (e1 - e0)%float.
Proof.
  induction xs as [|x [|y xs] IH]; intros j e0 e1; try done.
  destruct j as [|j].
  - simpl. by intros [= ->] [= ->].
  - intros Hj0 Hj1. change (diff (x :: y :: xs)) with ((y - x)%float :: diff (y :: xs)).
    simpl. by apply IH.
Qed.

(** X13: when [averageHistogram] returns, its four columns have one entry
    per bin; the widths are the differences of the bin edges of the first
    repetition of the list, and the bin centres are the left edges plus half
    the widths. *)
Theorem averageHistogram_columns (h : Z) (a : McAnalysis) (avg : AveragedHistogram) :
  (averageHistogram h a).1 = Ok avg ->
  exists edges r0 binEdges,
    dict_get (_concatBinEdges (cls a)) h = Ok edges
    /\ _repetitionList (self_ a) !! 0%nat = Some r0
    /\ dict_get edges r0 = Ok binEdges
    /\ xWidth avg = diff binEdges
    /\ length (xWidth avg) = (length binEdges - 1)%nat
    /\ length (xMean avg) = length (xWidth avg)
    /\ length (yMean avg) = length (xWidth avg)
    /\ length (yStd avg) = length (xWidth avg)
    /\ forall (j : nat) (e0 e1 : float),
         binEdges !! j = Some e0 -> binEdges !! S j = Some e1 ->
         xWidth avg !! j = Some (e1 - e0)%float
         /\ xMean avg !! j = Some (e0 + 0.5 * (e1 - e0))%float.
Proof.
  intros Hrun. destruct (averageHistogram h a) as [r a'] eqn:Havg.
  simpl in Hrun. subst r.
  apply averageHistogram_inv_full in Havg
    as (hists & edges & r0 & binEdges & Hhists & Hedges & Hr0 & Hbe & Hlen & ->).
  exists edges, r0, binEdges. simpl.
  split; [done|]. split; [done|]. split; [done|]. split; [done|].
  split; [apply diff_length|].
  split.
  { unfold vadd. rewrite length_zip_with, length_take, length_fmap, diff_length. lia. }
  split; [done|].
  split.
  { rewrite Hlen. unfold reduce_axis0. destruct hists; [done|].
    by rewrite !length_fmap. }
  intros j e0 e1 Hj0 Hj1.
  pose proof (diff_lookup _ _ _ _ Hj0 Hj1) as Hd. split; [done|].
  unfold vadd. rewrite lookup_zip_with, lookup_take_lt.
  - rewrite Hj0. simpl. by rewrite list_lookup_fmap, Hd.
  - apply lookup_lt_Some in Hj1. lia.
Qed.

(** X12: after [histAndLoadReps], for repetition numbers and range indices
    without repeats, the averaged histogram of a range is the mean and the
    standard deviation, per bin, of the histograms that the histogrammer
    gives for the reloaded models of the repetitions of the list, whatever
    the class-level tables held before; its widths come from the bin edges
    of the first repetition. *)
Theorem averageHistogram_of_reloads (inputFile : string) (store : bool)
    (a a1 : McAnalysis) (h : Z) (range : HistRange) (avg : AveragedHistogram) :
  histAndLoadReps inputFile store a = (Ok tt, a1) ->
  NoDup (_repetitionList (self_ a)) ->
  NoDup (_histRanges (self_ a)).*1 ->
  (h, range) ∈ _histRanges (self_ a) ->
  (averageHistogram h a1).1 = Ok avg ->
  exists cores,
    Forall2 (fun rep core => reload a inputFile rep = Ok core)
      (_repetitionList (self_ a)) cores
    /\ yMean avg
       = reduce_axis0 Np.mean
           ((fun core => (McModelHistogrammer (_model core) range).1.2) <$> cores)
    /\ yStd avg
       = reduce_axis0 (std (if (1 <? length cores)%nat then 1 else 0))
           ((fun core => (McModelHistogrammer (_model core) range).1.2) <$> cores)
    /\ forall core0, cores !! 0%nat = Some core0 ->
         xWidth avg = diff (McModelHistogrammer (_model core0) range).2.
Proof.
  intros Hload Hnd Hndr Hin Hrun.
  rewrite histAndLoadReps_passes in Hload.
  apply rep_loop_inv in Hload
    as (cores & Hcores & _ & _ & Hrl & _ & _ & _ & _ & Htab); [|done].
  specialize (Htab Hndr).
  destruct (averageHistogram h a1) as [r a2] eqn:Havg. simpl in Hrun. subst r.
  apply averageHistogram_inv_full in Havg
    as (hists & edges & r0 & binEdges & Hhists & Hedges & Hr0 & Hbe & _ & ->).
  rewrite Hrl in Hhists, Hr0.
  assert (Hh : hists
               = (fun core => (McModelHistogrammer (_model core) range).1.2) <$> cores).
  { assert (Hc : collect (dict_get2 (_concatHistograms (cls a1)) h
                            <$> _repetitionList (self_ a))
                 = Ok ((fun core => (McModelHistogrammer (_model core) range).1.2)
                         <$> cores)).
    { apply collect_fmap_ok. apply Forall2_fmap_r.
      eapply Forall2_impl; [exact Htab|]. intros rep core Hrc.
      by destruct (Hrc h range Hin) as (_ & Hhist & _). }
    congruence. }
  exists cores. simpl. rewrite Hrl, (Forall2_length _ _ _ Hcores), Hh.
  split.
  { eapply Forall2_impl; [exact Hcores|]. intros rep core.
    apply histogrammed_reload. }
  split; [done|]. split; [done|].
  intros core0 Hc0.
  destruct (Forall2_lookup_r _ _ _ _ _ Htab Hc0) as (r0' & Hr0' & Hrc).
  rewrite Hr0 in Hr0'. injection Hr0' as <-.
  destruct (Hrc h range Hin) as (_ & _ & Hedge).
  unfold dict_get2 in Hedge. rewrite Hedges in Hedge. congruence.
Qed.

(** [averageMode] only reads. *)
Lemma averageMode_state (h : Z) (a : McAnalysis) : (averageMode h a).2 = a.
Proof.
  unfold averageMode. mrun.
  by destruct (dict_get (_concatModes (cls a)) h).
Qed.

Lemma averageModes_fold_state (ranges : list (Z * HistRange)) :
  forall (acc : M McAnalysis (PyDict MeanStd)) (a : McAnalysis),
  (acc a).2 = a ->
  (foldl (fun acc '(histIndex, _) =>
            dfs ← acc; df ← averageMode histIndex;
            mret (dict_set dfs histIndex df)) acc ranges a).2 = a.
Proof.
  induction ranges as [|[h range] ranges IH]; intros acc a Hacc; [done|].
  simpl. apply IH. mrun.
  destruct (acc a) as [[dfs|e] a1]; simpl in Hacc; subst a1; [|done].
  pose proof (averageMode_state h a) as Hm.
  destruct (averageMode h a) as [[df|e] a1]; simpl in Hm; subst a1; done.
Qed.

Lemma averageModes_fold_raise (ranges : list (Z * HistRange)) (e : Exn) :
  forall (acc : M McAnalysis (PyDict MeanStd)) (a : McAnalysis),
  acc a = (Raise e, a) ->
  foldl (fun acc '(histIndex, _) =>
           dfs ← acc; df ← averageMode histIndex;
           mret (dict_set dfs histIndex df)) acc ranges a = (Raise e, a).
Proof.
  induction ranges as [|[h range] ranges IH]; intros acc a Hacc; [done|].
  simpl. apply IH. mrun. by rewrite Hacc.
Qed.

(** [averageModes] binds [_averagedModes] and nothing else. *)
Lemma averageModes_frame (a a' : McAnalysis) :
  averageModes a = (Ok tt, a') ->
  exists dfs, a' = with_self (set_averagedModes dfs) a.
Proof.
  unfold averageModes.
  unfold mbind at 1, M_bind at 1, bind at 1, get at 1.
  unfold mbind at 1, M_bind at 1, bind at 1.
  match goal with |- context [foldl ?f ?acc ?l a] =>
    pose proof (averageModes_fold_state l acc a eq_refl) as Hst;
    destruct (foldl f acc l a) as [[dfs|e] a1]
  end; simpl in Hst; subst a1; [|done].
  unfold modify. intros [= <-]. eauto.
Qed.

(** [averageHistograms] writes the class-level [_averagedHistograms] only. *)
Lemma averageHistograms_frame (a a' : McAnalysis) (r : Res unit) :
  averageHistograms a = (r, a') ->
  self_ a' = self_ a /\ process_rng a' = process_rng a
  /\ _concatI (cls a') = _concatI (cls a).
Proof.
  unfold averageHistograms.
  unfold mbind at 1, M_bind at 1, bind at 1, get at 1.
  apply (for_invariant (fun s =>
    self_ s = self_ a /\ process_rng s = process_rng a
    /\ _concatI (cls s) = _concatI (cls a))); [|done].
  intros [h range] s r0 s0 (Hs & Hr & HI). mrun.
  pose proof (averageHistogram_state h s) as Hst.
  destruct (averageHistogram h s) as [[avg|e] s1]; simpl in Hst; subst s1;
    intros [= <- <-]; done.
Qed.

(** The stages of the constructor, when it returns. *)
Lemma McAnalysis_init_inv (inputFile : string) (measData : option MeasData)
    (histRanges : option (list (Z * HistRange))) (store : bool) (a a' : McAnalysis) :
  McAnalysis_init inputFile measData histRanges store a = (Ok tt, a') ->
  exists md ranges a1 a2 a3,
    measData = Some md /\ histRanges = Some ranges /\ isfile inputFile = true
    /\ histAndLoadReps inputFile store
         (mkAnalysis (cls a)
            (mkInstanceAttrs (_core (self_ a)) (Some md) ranges []
               (_averagedModes (self_ a)) (_averagedI (self_ a))
               (_averagedOpts (self_ a)) (stored_repetitions inputFile))
            (process_rng a))
       = (Ok tt, a1)
    /\ averageModes a1 = (Ok tt, a2)
    /\ averageHistograms a2 = (Ok tt, a3)
    /\ averageI (averageOpts a3).2 = (Ok tt, a').
Proof.
  unfold McAnalysis_init, getNRep. mrun.
  destruct (isfile inputFile); [|done].
  destruct histRanges as [ranges|]; [|done].
  destruct measData as [md|]; [|done]. simpl.
  unfold with_self. simpl.
  destruct (histAndLoadReps _ _ _) as [[[]|e] a1] eqn:H1; [|done].
  destruct (averageModes a1) as [[[]|e] a2] eqn:H2; [|done].
  destruct (averageHistograms a2) as [[[]|e] a3] eqn:H3; [|done].
  intros H4. exists md, ranges, a1, a2, a3. repeat split; try done.
Qed.

(** X14: when the analysis returns, [_concatOpts] has one row per
    repetition found in the file, in their order, with the scaling, the
    background, the fit and the two counters of the reloaded core, and
    [_averagedOpts] is the mean and the standard deviation of these rows,
    column by column, whatever an earlier analysis left in the class. *)
Theorem analysis_averages_found_repetitions (inputFile : string)
    (measData : option MeasData) (histRanges : option (list (Z * HistRange)))
    (store : bool) (a a' : McAnalysis) :
  McAnalysis_init inputFile measData histRanges store a = (Ok tt, a') ->
  NoDup (stored_repetitions inputFile) ->
  exists cores,
    Forall2 (fun rep core =>
               McCore_init measData None None (process_rng a)
                 (Some inputFile) (Some rep) = Ok core)
      (stored_repetitions inputFile) cores
    /\ _repetitionList (self_ a') = stored_repetitions inputFile
    /\ _concatOpts (self_ a') = zip (stored_repetitions inputFile) (opt_row <$> cores)
    /\ _averagedOpts (self_ a')
       = Some (mkMeanStd (df_reduce (length _optKeys) pd_mean (opt_row <$> cores))
                 (df_reduce (length _optKeys) (pd_std 1) (opt_row <$> cores))).
Proof.
  intros Hinit Hnd.
  apply McAnalysis_init_inv in Hinit
    as (md & ranges & a1 & a2 & a3 & -> & -> & _ & H1 & H2 & H3 & H4).
  rewrite histAndLoadReps_passes in H1. simpl in H1.
  apply rep_loop_inv in H1
    as (cores & Hcores & _ & _ & Hrl & _ & Hopts & _); [|done].
  simpl in Hrl. specialize (Hopts ltac:(intros ? _; apply not_elem_of_nil)).
  simpl in Hopts.
  assert (Hreload : Forall2 (fun rep core =>
            McCore_init (Some md) None None (process_rng a)
              (Some inputFile) (Some rep) = Ok core)
            (stored_repetitions inputFile) cores).
  { eapply Forall2_impl; [exact Hcores|]. intros rep core.
    apply histogrammed_reload. }
  apply averageModes_frame in H2 as [dfs ->].
  apply averageHistograms_frame in H3 as (Hself & _).
  unfold averageOpts in H4. mrun.
  unfold averageI in H4. mrun.
  destruct (array2d _) as [rows|e]; [|done]. simpl in H4.
  destruct rows; [done|]. injection H4 as <-. simpl.
  rewrite Hself. simpl. rewrite Hrl, Hopts.
  exists cores. split; [done|]. split; [done|]. split; [done|].
  unfold dict_values. rewrite snd_zip; [done|].
  apply Forall2_length in Hcores. rewrite length_fmap. lia.
Qed.

(** X15: with one row in [_concatOpts], [averageOpts] reports five means
    and five spreads; every spread is NaN, and the mean of a finite entry is
    the entry itself. *)
Theorem averageOpts_single_repetition (a : McAnalysis) (rep : Z) (row : vec) :
  _concatOpts (self_ a) = [(rep, row)] ->
  exists ms,
    _averagedOpts (self_ (averageOpts a).2) = Some ms
    /\ length (valMean ms) = 5%nat /\ length (valStd ms) = 5%nat
    /\ (forall (j : nat) (v : float),
          valStd ms !! j = Some v -> PrimFloat.is_nan v = true)
    /\ (forall (j : nat) (x v : float),
          row !! j = Some x -> finite x = true ->
          valMean ms !! j = Some v -> v = x).
Proof.
  intros Hrow. unfold averageOpts. mrun. rewrite Hrow. simpl.
  eexists. split; [reflexivity|]. simpl.
  split; [done|]. split; [done|]. split.
  - intros j v Hv. apply df_reduce_single in Hv as ->. apply pd_std_single.
  - intros j x v Hx Hfin Hv. apply df_reduce_single in Hv as ->.
    rewrite Hx. simpl. unfold pd_mean, dropna.
    assert (Hnan : PrimFloat.is_nan x = false).
    { unfold finite in Hfin. apply andb_true_iff in Hfin as [Hn _].
      by apply negb_true_iff in Hn. }
    rewrite filter_cons, filter_nil, decide_True by done.
    unfold Np.mean, sum. simpl.
    change (float_of_int 1) with 1%float. by apply div_one.
Qed.

(** [averageModes] fails on the first range that has no table of modes. *)
Lemma averageModes_missing (a : McAnalysis) (h : Z) (range : HistRange)
    (rest : list (Z * HistRange)) (e : Exn) :
  _histRanges (self_ a) = (h, range) :: rest ->
  dict_get (_concatModes (cls a)) h = Raise e ->
  averageModes a = (Raise e, a).
Proof.
  intros Hranges Hdict. unfold averageModes.
  unfold mbind at 1, M_bind at 1, bind at 1, get at 1.
  rewrite Hranges. cbn [foldl].
  unfold mbind at 1, M_bind at 1, bind at 1.
  rewrite (averageModes_fold_raise rest e); [done|].
  unfold averageMode. mrun. by rewrite Hdict.
Qed.

(** X16: in a process that has analysed nothing yet, the analysis of a
    file without repetitions never returns: it raises [KeyError] (from
    [averageMode]) if there is a histogram range and [ValueError] (from
    [averageI]) if there is none. *)
Theorem analysis_without_repetitions_fails (inputFile : string) (md : MeasData)
    (ranges : list (Z * HistRange)) (store : bool) (r : Rng) :
  isfile inputFile = true ->
  stored_repetitions inputFile = [] ->
  (McAnalysis_init inputFile (Some md) (Some ranges) store
     (new_instance class_body r)).1
  = Raise (match ranges with [] => ValueError | _ => KeyError end).
Proof.
  intros Hfile Hreps. unfold McAnalysis_init, getNRep. mrun.
  rewrite Hfile, Hreps. simpl.
  destruct ranges as [|[h range] ranges]; simpl.
  - reflexivity.
  - erewrite averageModes_missing; [reflexivity|reflexivity|reflexivity].
Qed.

(** X17: when the class-level [_concatI] is empty before the analysis and
    the analysis returns, [_concatI] holds the scaled intensity of every
    repetition found, in their order, and [_averagedI] is their mean and
    standard deviation per Q point. *)
Theorem first_analysis_averages_intensity (inputFile : string)
    (measData : option MeasData) (histRanges : option (list (Z * HistRange)))
    (store : bool) (a a' : McAnalysis) :
  McAnalysis_init inputFile measData histRanges store a = (Ok tt, a') ->
  _concatI (cls a) = [] ->
  NoDup (stored_repetitions inputFile) ->
  exists cores,
    Forall2 (fun rep core =>
               McCore_init measData None None (process_rng a)
                 (Some inputFile) (Some rep) = Ok core)
      (stored_repetitions inputFile) cores
    /\ _concatI (cls a') = zip (stored_repetitions inputFile) (scaledI <$> cores)
    /\ _averagedI (self_ a')
       = Some (mkAvgI (reduce_axis0 Np.mean (scaledI <$> cores))
                 (reduce_axis0 (std 0) (scaledI <$> cores))).
Proof.
  intros Hinit Hempty Hnd.
  apply McAnalysis_init_inv in Hinit
    as (md & ranges & a1 & a2 & a3 & -> & -> & _ & H1 & H2 & H3 & H4).
  apply histAndLoadReps_concatI in H1 as (cores & Hcores & HI); [|done|].
  2:{ intros rep _. simpl. rewrite Hempty. apply not_elem_of_nil. }
  simpl in Hcores, HI. rewrite Hempty in HI. simpl in HI.
  apply averageModes_frame in H2 as [dfs ->].
  apply averageHistograms_frame in H3 as (_ & _ & HI3). simpl in HI3.
  pose proof (averageI_inv _ _ H4) as Havg.
  assert (HI' : _concatI (cls a') = _concatI (cls a3)).
  { revert H4. unfold averageI, averageOpts. mrun.
    destruct (array2d _) as [rows|e]; [|done]. simpl.
    destruct rows; [done|]. by intros [= <-]. }
  exists cores. split; [done|].
  rewrite HI', Havg.
  replace (_concatI (cls (averageOpts a3).2)) with (_concatI (cls a3)) by done.
  rewrite HI3, HI. split; [done|].
  unfold dict_values. rewrite snd_zip; [done|].
  apply Forall2_length in Hcores. rewrite length_fmap. lia.
Qed.











End Analysis_facts.

(** ** The repetition keys *)

Section Repetition_facts.

Import PyStr Repetitions.

Lemma lstrip_by_id (p : ascii -> bool) (c : ascii) (s : string) :
  p c = false -> lstrip_by p (String c s) = String c s.
Proof. simpl. by intros ->. Qed.

Lemma rstrip_by_id (p : ascii -> bool) (s : string) :
  (forall c, c ∈ String.list_ascii_of_string s -> p c = false) -> rstrip_by p s = s.
Proof.
  induction s as [|c s IH]; simpl; [done|]. intros Hp.
  rewrite IH by (intros c' Hc'; apply Hp; by right).
  destruct s; [|done]. by rewrite Hp by left.
Qed.

Lemma uint_chars (d : Decimal.uint) (c : ascii) :
  c ∈ String.list_ascii_of_string (NilEmpty.string_of_uint d) -> number_char c = true.
Proof.
  induction d; simpl; try (by intros ?%elem_of_nil);
    intros [->|Hin]%elem_of_cons; auto.
Qed.

Lemma str_chars (n : Z) (c : ascii) :
  c ∈ String.list_ascii_of_string (str n) -> number_char c = true.
Proof.
  unfold str.
  assert (Hz : forall d, c ∈ String.list_ascii_of_string (NilZero.string_of_uint d) ->
                         number_char c = true).
  { intros d. destruct d; simpl;
      [intros [->|Hin%elem_of_nil]%elem_of_cons; done|..];
      (intros [->|Hin]%elem_of_cons; [done|exact (uint_chars _ _ Hin)]). }
  destruct n as [|p|p]; simpl.
  - intros [->|Hin%elem_of_nil]%elem_of_cons; done.
  - apply Hz.
  - intros [->|Hin]%elem_of_cons; [done|]. by apply (Hz (Pos.to_uint p)).
Qed.

Lemma number_char_kept (c : ascii) :
  number_char c = true ->
  in_chars "repetition" c = false /\ is_space c = false.
Proof.
  unfold number_char, in_chars at 1. intros Hc.
  apply existsb_exists in Hc as (x & Hin & Heq).
  apply Ascii.eqb_eq in Heq. subst x. simpl in Hin.
  repeat (destruct Hin as [<-|Hin]; [split; reflexivity|]). done.
Qed.

Lemma str_nonempty (n : Z) : exists c s, str n = String c s.
Proof.
  unfold str.
  assert (Hz : forall d, exists c s, NilZero.string_of_uint d = String c s)
    by (intros d; destruct d; simpl; eauto).
  destruct n as [|p|p]; simpl; eauto.
Qed.

Lemma strip_str (p : ascii -> bool) (n : Z) :
  (forall c, number_char c = true -> p c = false) ->
  rstrip_by p (lstrip_by p (str n)) = str n.
Proof.
  intros Hp. destruct (str_nonempty n) as (c & s & Hs).
  pose proof (str_chars n) as Hchars. rewrite Hs in *.
  rewrite lstrip_by_id by (apply Hp, Hchars; left).
  apply rstrip_by_id. intros c' Hc'. by apply Hp, Hchars.
Qed.

Lemma int_digits_acc (d : Decimal.uint) :
  forall acc : positive,
  int_digits (NilEmpty.string_of_uint d) (Z.pos acc) true
  = Some (Z.pos (Pos.of_uint_acc d acc)).
Proof.
  induction d; intros acc; simpl; try done;
    match goal with
    | IH : forall acc, _ |- int_digits _ ?z true = Some (Z.pos (Pos.of_uint_acc _ ?q)) =>
        replace z with (Z.pos q) by lia; apply IH
    end.
Qed.

Lemma int_digits_uint (d : Decimal.uint) :
  forall b : bool, d <> Decimal.Nil \/ b = true ->
  int_digits (NilEmpty.string_of_uint d) 0 b = Some (Z.of_N (Pos.of_uint d)).
Proof.
  induction d; intros b Hb; simpl;
    try (apply (int_digits_acc _ _)).
  - by destruct Hb as [?| ->].
  - apply IHd. by right.
Qed.

Lemma to_uint_nonnil (p : positive) : Pos.to_uint p <> Decimal.Nil.
Proof.
  intros Hnil. pose proof (DecimalPos.Unsigned.of_to p) as Hp.
  by rewrite Hnil in Hp.
Qed.

Lemma int_digits_pos (p : positive) :
  int_digits (NilZero.string_of_uint (Pos.to_uint p)) 0 false = Some (Z.pos p).
Proof.
  pose proof (to_uint_nonnil p) as Hnn.
  replace (NilZero.string_of_uint (Pos.to_uint p))
    with (NilEmpty.string_of_uint (Pos.to_uint p))
    by (by destruct (Pos.to_uint p)).
  rewrite int_digits_uint by (by left).
  by rewrite DecimalPos.Unsigned.of_to.
Qed.

Lemma uint_head (d : Decimal.uint) :
  d <> Decimal.Nil ->
  exists c s, NilZero.string_of_uint d = String c s
              /\ Ascii.eqb c "-"%char = false /\ Ascii.eqb c "+"%char = false.
Proof. destruct d; simpl; [done|..]; intros _; eauto. Qed.

(** [int] reads back what [str] prints. *)
Lemma int_str (n : Z) : int (str n) = Ok n.
Proof.
  unfold int. rewrite strip_str by (intros c Hc; by apply number_char_kept).
  unfold str. destruct n as [|p|p]; simpl.
  - done.
  - destruct (uint_head _ (to_uint_nonnil p)) as (c & s & Hs & Hm & Hp).
    pose proof (int_digits_pos p) as Hd. rewrite Hs in *.
    by rewrite Hm, Hp, Hd.
  - by rewrite int_digits_pos.
Qed.

Lemma strip_repetition_key (n : Z) : strip "repetition" (repetition_key n) = str n.
Proof.
  unfold strip, repetition_key. simpl.
  apply strip_str. intros c Hc. by apply number_char_kept.
Qed.

Lemma key_pass_repetition (n : Z) (l : list Z) :
  key_pass (repetition_key n) l = (Ok tt, l ++ [n]).
Proof.
  unfold key_pass.
  replace (contains "repetition" (repetition_key n)) with true.
  2:{ unfold repetition_key. by destruct (str_nonempty n) as (c & s & ->). }
  mrun. by rewrite strip_repetition_key, int_str.
Qed.

(** X18: [getNRep] reads back the numbers that the keys were named with:
    among keys that are either ["repetition{}".format(n)] for an integer [n]
    or names that do not contain the word, the list it builds holds, in the
    order of the keys, exactly those [n], whatever the list held before. *)
Theorem read_repetitions_of_keys (items : list (string + Z)) (old : list Z) :
  (forall other, inl other ∈ items -> contains "repetition" other = false) ->
  read_repetitions (group_key <$> items) old = (Ok tt, repetitions_among items).
Proof.
  intros Hother. unfold read_repetitions. mrun.
  assert (Hloop : forall l,
    for_ (group_key <$> items) key_pass l = (Ok tt, l ++ repetitions_among items)).
  { induction items as [|[other|n] items IH]; intros l; simpl.
    - by rewrite app_nil_r.
    - unfold bind, key_pass at 1. rewrite Hother by left. mrun.
      apply IH. intros o Ho. apply Hother. by right.
    - unfold bind. rewrite key_pass_repetition.
      unfold repetitions_among. simpl.
      rewrite IH by (intros o Ho; apply Hother; by right).
      by rewrite <- app_assoc. }
  apply Hloop.
Qed.

End Repetition_facts.

(** ** The command line *)

Section Cli_facts.

Import Analysis Cli.

(** Once an argument is gone, the loop runs off the end of the list. *)
Lemma drop_psn_short (m : nat) :
  forall (k : nat) (l : list string),
  (0 < m)%nat -> (length l < k + m)%nat ->
  (for_ (seq k m) psn_pass l).1 = Raise IndexError.
Proof.
  induction m as [|m IH]; intros k l Hm Hlen; [lia|].
  simpl. unfold bind, psn_pass at 1. mrun. unfold list_item.
  destruct (l !! k) as [arg|] eqn:Hk; [|done]. simpl.
  apply lookup_lt_Some in Hk.
  destruct (is_psn arg); simpl.
  - apply IH; [lia|]. rewrite length_delete by (apply lookup_lt_is_Some; lia). lia.
  - apply IH; lia.
Qed.

Lemma existsb_removelast_cons {A} (f : A -> bool) (x : A) (l : list A) :
  existsb f (removelast (x :: l))
  = match l with [] => false | _ => f x || existsb f (removelast l) end.
Proof. by destruct l. Qed.

Lemma drop_psn_loop (m : nat) :
  forall (k : nat) (l : list string),
  length l = (k + m)%nat ->
  for_ (seq k m) psn_pass l
  = if existsb is_psn (removelast (drop k l))
    then (Raise IndexError, (for_ (seq k m) psn_pass l).2)
    else (Ok tt, take k l ++ filter (fun a => is_psn a = false) (drop k l)).
Proof.
  induction m as [|m IH]; intros k l Hlen.
  - rewrite drop_ge by lia. simpl. rewrite take_ge by lia. by rewrite app_nil_r.
  - destruct (l !! k) as [arg|] eqn:Hk.
    2:{ apply lookup_ge_None in Hk. lia. }
    rewrite (drop_S _ _ _ Hk), existsb_removelast_cons.
    cbn [seq for_]. unfold bind, psn_pass at 1 3. mrun. unfold list_item.
    rewrite Hk. simpl.
    destruct (is_psn arg) eqn:Hpsn; simpl.
    + rewrite filter_cons_False by (by rewrite Hpsn).
      destruct (drop (S k) l) as [|y rest] eqn:Hrest.
      * assert (m = 0)%nat as ->.
        { apply (f_equal length) in Hrest. rewrite length_drop in Hrest. simpl in *. lia. }
        simpl. f_equal. rewrite app_nil_r.
        transitivity (delete (length (take k l)) (take k l ++ arg :: [])).
        { rewrite length_take_le by lia. f_equal.
          rewrite <- Hrest, <- (drop_S _ _ _ Hk). by rewrite take_drop. }
        by rewrite delete_middle, app_nil_r.
      * pose proof (drop_psn_short m (S k) (delete k l)) as Hshort.
        destruct (for_ (seq (S k) m) psn_pass (delete k l)) as [r s] eqn:Hloop.
        simpl in Hshort. rewrite Hshort; [done| |].
        -- apply (f_equal length) in Hrest. rewrite length_drop in Hrest.
           simpl in *. lia.
        -- rewrite length_delete by eauto. lia.
    + rewrite filter_cons_True by done.
      rewrite (IH (S k) l) by lia.
      destruct (drop (S k) l) as [|y rest] eqn:Hrest.
      * simpl. f_equal. rewrite (take_S_r _ _ _ Hk), <- app_assoc. done.
      * destruct (existsb is_psn (removelast (y :: rest))); [done|].
        f_equal. rewrite (take_S_r _ _ _ Hk), <- app_assoc. done.
Qed.

(** X19: the loop that removes the [-psn] arguments raises [IndexError]
    exactly when an argument other than the last one starts with [-psn];
    when it returns it has removed every such argument; and on a platform
    other than macOS the arguments are not touched. *)
Theorem drop_psn_outcome (argv : list string) :
  (drop_psn argv).1
  = (if existsb is_psn (removelast argv) then Raise IndexError else Ok tt)
  /\ (existsb is_psn (removelast argv) = false ->
      (drop_psn argv).2 = filter (fun a => is_psn a = false) argv)
  /\ (forall platform, isMac platform = false ->
        prepare_argv platform argv = (Ok tt, argv)).
Proof.
  assert (Hrun : drop_psn argv = for_ (seq 0 (length argv)) psn_pass argv) by done.
  rewrite Hrun, (drop_psn_loop (length argv) 0 argv) by done.
  rewrite drop_0. simpl.
  split; [by destruct (existsb _ _)|]. split.
  - by intros ->.
  - intros platform Hmac. unfold prepare_argv. by rewrite Hmac.
Qed.

(** The three platform tests exclude one another. *)
Lemma platform_tests_exclusive (platform : string) :
  isLinux platform && isMac platform = false
  /\ isLinux platform && isWindows platform = false
  /\ isMac platform && isWindows platform = false.
Proof.
  unfold isLinux, isMac, isWindows.
  destruct (String.eqb_spec platform "linux") as [->|_]; [done|].
  destruct (String.eqb_spec platform "linux2") as [->|_]; [done|].
  destruct (String.eqb_spec platform "darwin") as [->|_]; [done|].
  done.
Qed.

End Cli_facts.

(** ** The properties on the concrete instance *)

Import Np HDF Core Analysis Fixture.

#[local] Existing Instance externals.
#[local] Existing Instance analysis_externals.
#[local] Existing Instance h5library.

#[local] Open Scope float_scope.

Example core2_constructed (rs : list float) : core2 rs = Ok (start2 rs).
Proof. reflexivity. Qed.

Example core1_constructed (rs : list float) : core1 rs = Ok (start1 rs).
Proof. reflexivity. Qed.

Example lenient_constructed (rs : list float) :
  McCore_init (Some measData0) (Some (two_spheres 1 2)) (Some lenient_opt)
    rs None None = Ok (start_lenient rs).
Proof. reflexivity. Qed.

(** C1 on the instance: the draw of radius 5 lowers the fit of the two-sphere
    core from 11.25 to 1.25 and is accepted. *)
Lemma iterate_strict_descent_witness :
  exists s2 s',
    reEvaluate (pick (start2 [5])).2 = (Ok 1.25, s2)
    /\ iterate (start2 [5]) = (Ok tt, s')
    /\ accepted (_opt s') = 1%Z
    /\ gof (_opt s') = 1.25
    /\ (gof (_opt s') <? gof (_opt (start2 [5]))) = true.
Proof.
  exists (reEvaluate (pick (start2 [5])).2).2, (iterate (start2 [5])).2.
  assert (H1 : reEvaluate (pick (start2 [5])).2
               = (Ok 1.25, (reEvaluate (pick (start2 [5])).2).2))
    by (apply run_result; vm_compute; reflexivity).
  assert (H2 : iterate (start2 [5]) = (Ok tt, (iterate (start2 [5])).2))
    by (apply run_result; vm_compute; reflexivity).
  destruct (iterate_strict_descent (start2 [5]) _ _ _ H1 H2)
    as (Hacc & _ & _ & Hdesc).
  assert (Ha : accepted (_opt (iterate (start2 [5])).2)
               = Z.add (accepted (_opt (start2 [5]))) 1%Z)
    by (apply Hacc; vm_compute; reflexivity).
  destruct (Hdesc Ha) as [Hg Hlt].
  split; [exact H1|]. split; [exact H2|]. split; [exact Ha|].
  split; [exact Hg|exact Hlt].
Defined.

(** C2 on the instance: at step 0 of the two-sphere core the row considered is
    row 0, and the trial intensity for the draw of radius 5 is
    [1.5 q + (5 q - 1 q) / 2 = 3.5 q]. *)
Lemma reEvaluate_round_robin_trial_witness :
  exists s2,
    reEvaluate (pick (start2 [5])).2 = (Ok 1.25, s2)
    /\ (exists row,
          parameterSet (_model (start2 [5])) !! 0%Z = Some row
          /\ testModelI (_opt s2) = trialI (pick (start2 [5])).2 row
          /\ testModelV (_opt s2) = trialV (pick (start2 [5])).2)
    /\ testModelI (_opt s2) = [3.5; 7].
Proof.
  exists (reEvaluate (pick (start2 [5])).2).2.
  assert (H1 : reEvaluate (pick (start2 [5])).2
               = (Ok 1.25, (reEvaluate (pick (start2 [5])).2).2))
    by (apply run_result; vm_compute; reflexivity).
  split; [exact H1|]. split; [|vm_compute; reflexivity].
  destruct (reEvaluate_round_robin_trial (start2 [5]) _ _ H1)
    as (row & Hrow & HI & HV & _).
  exists row. split; [exact Hrow|]. split; [exact HI|exact HV].
Defined.

(** C4 on the instance: the draw of radius 1 replaces a sphere of radius 1, the
    fit ties at 11.25, the step is rejected: only [step] moves. *)
Lemma iterate_frame_witness :
  exists s2 s',
    reEvaluate (pick (start2 [1])).2 = (Ok 11.25, s2)
    /\ iterate (start2 [1]) = (Ok tt, s')
    /\ step (_opt s') = 1%Z
    /\ parameterSet (_model s') = parameterSet (_model (start2 [1]))
    /\ volumes (_model s') = [2; 3]
    /\ modelI (_opt s') = [1.5; 3]
    /\ gof (_opt s') = 11.25
    /\ accepted (_opt s') = 0%Z.
Proof.
  exists (reEvaluate (pick (start2 [1])).2).2, (iterate (start2 [1])).2.
  assert (H1 : reEvaluate (pick (start2 [1])).2
               = (Ok 11.25, (reEvaluate (pick (start2 [1])).2).2))
    by (apply run_result; vm_compute; reflexivity).
  assert (H2 : iterate (start2 [1]) = (Ok tt, (iterate (start2 [1])).2))
    by (apply run_result; vm_compute; reflexivity).
  destruct (iterate_frame (start2 [1]) _ _ _ H1 H2) as (Hstep & Hrej & _).
  destruct Hrej as (Hps & Hvol & HmI & _ & Hgof & Hacc);
    [vm_compute; reflexivity|].
  split; [exact H1|]. split; [exact H2|]. split; [exact Hstep|].
  split; [exact Hps|]. split; [exact Hvol|]. split; [exact HmI|].
  split; [exact Hgof|exact Hacc].
Defined.

(** C3 on the instance: with [convCrit = 1e12] the core leaves its
    constructor with a fit of 11.25, and [optimize] returns it untouched. *)
Lemma optimize_runs_while_keepGoing_witness :
  optimize (start_lenient [5; 1]) = (Ok tt, start_lenient [5; 1])
  /\ step (_opt (start_lenient [5; 1])) = 0%Z
  /\ accepted (_opt (start_lenient [5; 1])) = 0%Z.
Proof.
  destruct (optimize_runs_while_keepGoing (start_lenient [5; 1]))
    as (_ & _ & _ & _ & Hnew).
  apply (Hnew measData0 (two_spheres 1 2) lenient_opt [5; 1]).
  - reflexivity.
  - vm_compute. reflexivity.
Defined.

(** The loop at work: two accepted draws bring the fit to 0. *)
Example optimize_two_steps :
  (optimize (start2 [5; 1; 3])).1 = Ok tt
  /\ step (_opt (optimize (start2 [5; 1; 3])).2) = 2%Z
  /\ accepted (_opt (optimize (start2 [5; 1; 3])).2) = 2%Z
  /\ gof (_opt (optimize (start2 [5; 1; 3])).2) = 0
  /\ modelI (_opt (optimize (start2 [5; 1; 3])).2) = [3; 6]
  /\ rng (optimize (start2 [5; 1; 3])).2 = [3].
Proof. repeat split; vm_compute; reflexivity. Qed.

(** C8 does not hold on the instance: in the one-sphere core the draw of radius 0 makes
    the trial intensity constant, the solver raises [IllConditioned], and
    so do [iterate] and [optimize]; the step is not counted as a rejected
    one, and the next draw is never made. *)
Lemma solver_failure_is_not_a_rejection :
  (reEvaluate (pick (start1 [0; 5])).2).1 = Raise IllConditioned
  /\ (iterate (start1 [0; 5])).1 = Raise IllConditioned
  /\ step (_opt (iterate (start1 [0; 5])).2) = 0%Z
  /\ (optimize (start1 [0; 5])).1 = Raise IllConditioned
  /\ rng (optimize (start1 [0; 5])).2 = [5].
Proof. repeat split; vm_compute; reflexivity. Qed.

(** C8 as the code has it, on the same step. *)
Lemma iterate_propagates_solver_failure_witness :
  exists s2,
    reEvaluate (pick (start1 [0; 5])).2 = (Raise IllConditioned, s2)
    /\ iterate (start1 [0; 5]) = (Raise IllConditioned, s2)
    /\ optimize (start1 [0; 5]) = (Raise IllConditioned, s2)
    /\ step (_opt s2) = 0%Z
    /\ gof (_opt s2) = 20.
Proof.
  exists (reEvaluate (pick (start1 [0; 5])).2).2.
  assert (H1 : reEvaluate (pick (start1 [0; 5])).2
               = (Raise IllConditioned, (reEvaluate (pick (start1 [0; 5])).2).2))
    by (apply run_result; vm_compute; reflexivity).
  destruct (iterate_propagates_solver_failure (start1 [0; 5]) _ _ H1)
    as (Hit & Hopt & Hstep & _ & Hgof & _).
  split; [exact H1|]. split; [exact Hit|].
  split; [apply Hopt; vm_compute; reflexivity|].
  split; [exact Hstep|exact Hgof].
Defined.

(** C5 on the instance: repetition 2 of [run.h5] is stored without its
    intensity; the reload computes it, finds the stored fit of 1.25 again
    and returns. *)
Lemma load_recomputes_and_checks_witness :
  exists core,
    McCore_init (Some measData0) None None ([] : list float)
      (Some "run.h5"%string) (Some 2%Z) = Ok core
    /\ modelI (_opt stored2) = []
    /\ modelI (_opt core) = [2.5; 5]
    /\ gof (_opt core) = 1.25.
Proof.
  exists (init_body None stored2).2.
  destruct (@load_recomputes_and_checks externals measData0 [] "run.h5" 2
              None None) as (Hiff & _).
  split; [|repeat split; vm_compute; reflexivity].
  apply Hiff. split.
  - apply run_result. vm_compute. reflexivity.
  - vm_compute. reflexivity.
Defined.

(** The stored fit of [drift.h5] is off, and the reload raises the mismatch. *)
Example reload_disagreeing :
  res_map (fun _ => tt)
    (McCore_init (Some measData0) None None ([] : list float)
       (Some "drift.h5"%string) (Some 0%Z))
  = Raise (AssertionError
      "goodness-of-fit mismatch between loaded results and new calculation").
Proof. vm_compute. reflexivity. Qed.

(** C6 does not hold on the instance.  [run.h5] is analysed over [0, 4],
    then [late.h5], which holds repetition 2 only, over [0, 8]; the tables
    of bin edges and of histograms belong to the class, so the second
    analysis replaces the entries of repetition 2.  For the first instance
    the list is still [0, 1, 2], repetition 2 has other bin edges than
    repetitions 0 and 1, and [averageHistogram] returns: it averages the
    three histograms and reports the bins of repetition 0. *)
Lemma later_repetition_edges_unchecked :
  run_analysis.1 = Ok tt
  /\ late_analysis.1 = Ok tt
  /\ _repetitionList (self_ run_instance_later) = [0; 1; 2]%Z
  /\ dict_get (_concatBinEdges (cls run_instance_later)) 0
     = Ok [(0%Z, [0; 2; 4]); (1%Z, [0; 2; 4]); (2%Z, [0; 4; 8])]
  /\ averageHistogram 0 run_instance_later
     = (Ok (mkAvgHist [1; 3] [2; 2]
              (reduce_axis0 Np.mean [[5; 0]; [5; 0]; [8; 0]])
              (reduce_axis0 (std 1) [[5; 0]; [5; 0]; [8; 0]])),
        run_instance_later).
Proof. repeat split; vm_compute; reflexivity. Qed.

(** C6 as the code has it, on the analysis of [run.h5]: the bin edges of
    repetitions 0 and 1 are equal, and the histogram is averaged. *)
Lemma averageHistogram_compares_first_two_edges_witness :
  averageHistogram 0 run_analysis.2
  = (averaged [[5; 0]; [5; 0]; [2; 5]] [0; 2; 4], run_analysis.2).
Proof.
  destruct (averageHistogram_compares_first_two_edges 0 run_analysis.2)
    as (_ & Hcheck & _).
  assert (Hh : stacked_histograms 0 run_analysis.2 = Ok [[5; 0]; [5; 0]; [2; 5]])
    by (vm_compute; reflexivity).
  specialize (Hcheck _ Hh).
  assert (Hreps : _repetitionList (self_ run_analysis.2) = [0; 1; 2]%Z)
    by (vm_compute; reflexivity).
  rewrite Hreps in Hcheck.
  apply (Hcheck [0; 2; 4] [0; 2; 4]); vm_compute; reflexivity.
Defined.

(** The assertion fires when the first two repetitions differ: here
    repetition 1 has got the bin edges over [0, 8]. *)
Example first_two_edges_checked :
  (averageHistogram 0
     (with_binEdges 0 1 [(0%Z, [0; 2; 4]); (1%Z, [0; 2; 4]); (2%Z, [0; 2; 4])]
        [0; 4; 8] run_analysis.2)).1
  = Raise (AssertionError "").
Proof. vm_compute. reflexivity. Qed.





(** In the process that has analysed [run.h5] before, the table of modes
    still holds the three rows of that analysis, and the spread of the modes
    of [single.h5] is taken over four rows. *)
Example later_analysis_valStd_is_finite :
  _repetitionList (self_ second_analysis.2) = [7%Z]
  /\ ((fun df => df.*1) <$> dict_values (_concatModes (cls second_analysis.2)))
     = [[0; 1; 2; 7]%Z]
  /\ (forallb finite <$> (valStd <$> dict_values (_averagedModes (self_ second_analysis.2))))
     = [true]
  /\ (yStd <$> dict_values (_averagedHistograms (cls second_analysis.2)))
     = [[0; 0]].
Proof. repeat split; vm_compute; reflexivity. Qed.

(** C9 does not hold on the instance: the analysis of [single.h5] in a process that
    has analysed [run.h5] before.  One repetition is found, number 7, with
    scaled intensity [2, 4]; the class-level [_concatI] still holds the
    three repetitions of the first file, and the averaged intensity is the
    mean over all four.  In a new process the same analysis gives [2, 4]. *)
Theorem stale_repetitions_enter_the_average :
  run_analysis.1 = Ok tt
  /\ second_analysis.1 = Ok tt
  /\ _repetitionList (self_ second_analysis.2) = [7%Z]
  /\ _concatI (cls second_analysis.2)
     = [(0%Z, [1.5; 3]); (1%Z, [1.5; 3]); (2%Z, [2.5; 5]); (7%Z, [2; 4])]
  /\ _averagedI (self_ second_analysis.2)
     = Some (mkAvgI [1.875; 3.75]
               (reduce_axis0 (std 0) [[1.5; 3]; [1.5; 3]; [2.5; 5]; [2; 4]]))
  /\ _averagedI (self_ single_analysis.2) = Some (mkAvgI [2; 4] [0; 0]).
Proof. repeat split; vm_compute; reflexivity. Qed.

(** C10 on the instance: storing [None] under the key of an existing
    dataset leaves the dataset as it is. *)
Lemma HDFstoreKV_None_writes_no_dataset_witness :
  h5_get (_HDFstoreKV (Some "out.h5"%string) (Some ["entry1"%string])
            (Some "gof"%string) PyNone one_dataset).2
    "out.h5" ["entry1"; "gof"]%string
  = Some (Dataset (mkNdArray Float64 [] [SFloat 1.25])).
Proof.
  pose proof (HDFstoreKV_None_writes_no_dataset one_dataset "out.h5"
                ["entry1"%string] "gof") as Hnone.
  destruct (_HDFstoreKV _ _ _ _ _) as [r fs']. destruct Hnone as (_ & Hkey & _).
  simpl. etransitivity; [exact Hkey|]. vm_compute. reflexivity.
Defined.

(** Under a path that does not exist yet the group is created, empty. *)
Example store_None_creates_group :
  h5_get (_HDFstoreKV (Some "out.h5"%string) (Some ["entry1"; "analysis"]%string)
            (Some "gof"%string) PyNone one_dataset).2
    "out.h5" ["entry1"; "analysis"; "gof"]%string = None
  /\ (_HDFstoreKV (Some "out.h5"%string) (Some ["entry1"; "analysis"]%string)
        (Some "gof"%string) PyNone one_dataset).1 = Ok tt.
Proof. split; vm_compute; reflexivity. Qed.

(** A value that is not [None] is written. *)
Example store_scalar_overwrites :
  h5_get (_HDFstoreKV (Some "out.h5"%string) (Some ["entry1"%string])
            (Some "gof"%string) (PyScalar (SFloat 2)) one_dataset).2
    "out.h5" ["entry1"; "gof"]%string
  = Some (Dataset (mkNdArray Float64 [] [SFloat 2])).
Proof. vm_compute. reflexivity. Qed.

(** X3 on the instance: the two-sphere core, one step with it, and a run of
    three draws. *)
Lemma constructed_ensemble_stays_consistent_witness :
  ensemble_consistent (start2 [5; 1; 3])
  /\ ensemble_consistent (iterate (start2 [5; 1; 3])).2
  /\ ensemble_consistent (optimize (start2 [5; 1; 3])).2.
Proof.
  apply (@constructed_ensemble_stays_consistent externals (Some measData0)
           (Some (two_spheres 1 2)) (Some fresh_opt) [5; 1; 3] None None).
  reflexivity.
Defined.

(** X6 on the instance: a core with no contribution. *)
Lemma no_contribution_no_step_witness :
  iterate (no_spheres [5]) = (Raise ZeroDivisionError, (pick (no_spheres [5])).2)
  /\ (optimize (no_spheres [5])).1 = Raise ZeroDivisionError.
Proof.
  destruct (@no_contribution_no_step externals (no_spheres [5]) eq_refl)
    as [Hit Hopt].
  split; [exact Hit|]. rewrite Hopt. vm_compute. reflexivity.
Defined.

(** X7 on the instance: the two-sphere core. *)
Lemma McCore_init_fresh_witness :
  step (_opt (start2 [5])) = 0%Z
  /\ accepted (_opt (start2 [5])) = 0%Z
  /\ OSB_match (I measData0) (ISigma measData0) (modelI (_opt (start2 [5])))
       (x0 fresh_opt)
     = Ok (x0 (_opt (start2 [5])), gof (_opt (start2 [5]))).
Proof.
  destruct (@McCore_init_fresh externals measData0 (two_spheres 1 2) fresh_opt
              [5] None (start2 [5]) eq_refl)
    as (_ & _ & Hs & Ha & _ & _ & _ & _ & _ & _ & _ & _ & _ & Ho).
  split; [exact Hs|]. split; [exact Ha|exact Ho].
Defined.

(** X8 on the instance: storing the step count next to the fit leaves the
    fit as it is. *)
Lemma HDFstoreKV_writes_one_key_witness :
  h5_get (_HDFstoreKV (Some "out.h5"%string) (Some ["entry1"%string])
            (Some "step"%string) (PyScalar (SInt 7)) one_dataset).2
    "out.h5" ["entry1"; "gof"]%string
  = Some (Dataset (mkNdArray Float64 [] [SFloat 1.25])).
Proof.
  apply (HDFstoreKV_writes_one_key one_dataset "out.h5" ["entry1"%string] "step"
           (PyScalar (SInt 7)) "out.h5" ["entry1"; "gof"]%string).
  - simpl. discriminate.
  - vm_compute. reflexivity.
Defined.

(** A scalar is written where there was none, and an array is not written
    over the dataset that is there. *)
Example store_scalar_creates :
  h5_get (_HDFstoreKV (Some "out.h5"%string) (Some ["entry1"%string])
            (Some "step"%string) (PyScalar (SInt 7)) one_dataset).2
    "out.h5" ["entry1"; "step"]%string
  = Some (Dataset (mkNdArray Float64 [] [SInt 7])).
Proof. vm_compute. reflexivity. Qed.

Example store_array_keeps_dataset :
  _HDFstoreKV (Some "out.h5"%string) (Some ["entry1"%string])
    (Some "gof"%string) (PyArray (mkNdArray Float64 [] [SFloat 2])) one_dataset
  = (Ok tt, one_dataset).
Proof. vm_compute. reflexivity. Qed.

(** X11 on the instance: with [store] set, the analysis of [late.h5] ends
    in the store of the histogrammer, before any table is written; without,
    it returns.  A table of ranges that the histogrammer refuses ends the
    analysis of [run.h5] at its first repetition. *)
Example store_failure_ends_the_analysis :
  (McAnalysis_init "late.h5" (Some measData0) (Some wide_range) true
     (new_instance class_body ([] : list float))).1
  = Raise ValueError
  /\ cls (McAnalysis_init "late.h5" (Some measData0) (Some wide_range) true
            (new_instance class_body ([] : list float))).2
     = class_body
  /\ late_analysis.1 = Ok tt.
Proof. repeat split; vm_compute; reflexivity. Qed.

Example histogrammer_failure_ends_the_analysis :
  (McAnalysis_init "run.h5" (Some measData0) (Some bad_range) false
     (new_instance class_body ([] : list float))).1
  = Raise ValueError.
Proof. vm_compute. reflexivity. Qed.

(** X12 on the instance: the three repetitions of [run.h5], binned over
    [0, 4]. *)
Lemma averageHistogram_of_reloads_witness :
  exists avg cores,
    (averageHistogram 0 (histAndLoadReps "run.h5" false run_listed).2).1 = Ok avg
    /\ Forall2 (fun rep core => reload run_listed "run.h5" rep = Ok core)
         [0; 1; 2]%Z cores
    /\ yMean avg
       = reduce_axis0 Np.mean
           ((fun core => (McModelHistogrammer (_model core) (0, 4)).1.2)
              <$> cores)
    /\ yMean avg = reduce_axis0 Np.mean [[5; 0]; [5; 0]; [2; 5]].
Proof.
  exists (mkAvgHist [1; 3] [2; 2]
            (reduce_axis0 Np.mean [[5; 0]; [5; 0]; [2; 5]])
            (reduce_axis0 (std 1) [[5; 0]; [5; 0]; [2; 5]])).
  assert (H1 : histAndLoadReps "run.h5" false run_listed
               = (Ok tt, (histAndLoadReps "run.h5" false run_listed).2))
    by (apply run_result; vm_compute; reflexivity).
  assert (H2 : (averageHistogram 0 (histAndLoadReps "run.h5" false run_listed).2).1
               = Ok (mkAvgHist [1; 3] [2; 2]
                       (reduce_axis0 Np.mean [[5; 0]; [5; 0]; [2; 5]])
                       (reduce_axis0 (std 1) [[5; 0]; [5; 0]; [2; 5]])))
    by (vm_compute; reflexivity).
  assert (H3 : NoDup (_repetitionList (self_ run_listed)))
    by (apply (bool_decide_unpack _); vm_compute; exact Logic.I).
  assert (H4 : NoDup (_histRanges (self_ run_listed)).*1)
    by (apply (bool_decide_unpack _); vm_compute; exact Logic.I).
  assert (H5 : (0%Z, (0, 4)) ∈ _histRanges (self_ run_listed))
    by constructor.
  destruct (@averageHistogram_of_reloads externals analysis_externals "run.h5"
              false run_listed (histAndLoadReps "run.h5" false run_listed).2
              0%Z (0, 4)
              (mkAvgHist [1; 3] [2; 2]
                 (reduce_axis0 Np.mean [[5; 0]; [5; 0]; [2; 5]])
                 (reduce_axis0 (std 1) [[5; 0]; [5; 0]; [2; 5]]))
              H1 H3 H4 H5 H2)
    as (cores & Hcores & Hmean & _).
  exists cores. split; [exact H2|]. split; [exact Hcores|]. split; [exact Hmean|].
  reflexivity.
Defined.

(** X13 on the instance: the averaged histogram of [single.h5]. *)
Lemma averageHistogram_columns_witness :
  exists binEdges,
    xWidth (mkAvgHist [1; 3] [2; 2] [2; 4] [0; 0]) = diff binEdges
    /\ length binEdges = 3%nat.
Proof.
  destruct (@averageHistogram_columns externals analysis_externals 0%Z
              single_analysis.2 (mkAvgHist [1; 3] [2; 2] [2; 4] [0; 0]))
    as (edges & r0 & binEdges & _ & _ & _ & Hw & Hlen & _).
  - vm_compute. reflexivity.
  - exists binEdges. split; [exact Hw|].
    simpl in Hlen. destruct binEdges as [|e0 [|e1 [|e2 [|e3 rest]]]];
      simpl in Hw, Hlen; try discriminate; reflexivity.
Defined.

(** X14 on the instance: the analysis of [run.h5]. *)
Lemma analysis_averages_found_repetitions_witness :
  exists cores,
    Forall2 (fun rep core =>
               @McCore_init externals (Some measData0) None None
                 ([] : list float) (Some "run.h5"%string) (Some rep) = Ok core)
      [0; 1; 2]%Z cores
    /\ _concatOpts (self_ run_analysis.2) = zip [0; 1; 2]%Z (opt_row <$> cores)
    /\ _averagedOpts (self_ run_analysis.2)
       = Some (mkMeanStd (df_reduce 5 pd_mean (opt_row <$> cores))
                 (df_reduce 5 (pd_std 1) (opt_row <$> cores))).
Proof.
  destruct (@analysis_averages_found_repetitions externals analysis_externals
              "run.h5" (Some measData0) (Some fixed_range) false
              (@new_instance externals analysis_externals
                 class_body ([] : list float))
              run_analysis.2)
    as (cores & Hcores & _ & Hopts & Havg).
  - apply run_result. vm_compute. reflexivity.
  - apply (bool_decide_unpack _). vm_compute. exact Logic.I.
  - exists cores. split; [exact Hcores|]. split; [exact Hopts|exact Havg].
Defined.

(** X15 on the instance: the analysis of [single.h5], one repetition with
    scaling 1, background 0, fit 5, 10 accepted of 100 steps. *)
Lemma averageOpts_single_repetition_witness :
  exists ms,
    _averagedOpts (self_ (averageOpts single_analysis.2).2) = Some ms
    /\ (forall (j : nat) (v : float),
          valStd ms !! j = Some v -> PrimFloat.is_nan v = true)
    /\ (forall v : float, valMean ms !! 2%nat = Some v -> v = 5).
Proof.
  destruct (@averageOpts_single_repetition externals analysis_externals
              single_analysis.2 7%Z [1; 0; 5; 10; 100])
    as (ms & Hms & _ & _ & Hstd & Hmean).
  - vm_compute. reflexivity.
  - exists ms. split; [exact Hms|]. split; [exact Hstd|].
    intros v. apply (Hmean 2%nat 5 v); reflexivity.
Defined.

(** X16 on the instance: a file that holds no repetition. *)
Lemma analysis_without_repetitions_fails_witness :
  (@McAnalysis_init externals no_repetitions "none.h5" (Some measData0)
     (Some fixed_range) false
     (@new_instance externals no_repetitions
        class_body ([] : list float))).1
  = Raise KeyError.
Proof.
  apply (@analysis_without_repetitions_fails externals no_repetitions "none.h5"
           measData0 fixed_range false ([] : list float)); reflexivity.
Defined.

(** X17 on the instance: the analysis of [run.h5] in a new process. *)
Lemma first_analysis_averages_intensity_witness :
  exists cores,
    Forall2 (fun rep core =>
               @McCore_init externals (Some measData0) None None
                 ([] : list float) (Some "run.h5"%string) (Some rep) = Ok core)
      [0; 1; 2]%Z cores
    /\ _averagedI (self_ run_analysis.2)
       = Some (mkAvgI (reduce_axis0 Np.mean (scaledI <$> cores))
                 (reduce_axis0 (std 0) (scaledI <$> cores))).
Proof.
  destruct (@first_analysis_averages_intensity externals analysis_externals
              "run.h5" (Some measData0) (Some fixed_range) false
              (@new_instance externals analysis_externals
                 class_body ([] : list float))
              run_analysis.2)
    as (cores & Hcores & _ & Havg).
  - apply run_result. vm_compute. reflexivity.
  - reflexivity.
  - apply (bool_decide_unpack _). vm_compute. exact Logic.I.
  - exists cores. split; [exact Hcores|exact Havg].
Defined.

(** X18 on the instance: two repetitions and one other group. *)
Lemma read_repetitions_of_keys_witness :
  Repetitions.read_repetitions ["repetition0"; "settings"; "repetition12"]%string [5%Z]
  = (Ok tt, [0; 12]%Z).
Proof.
  apply (read_repetitions_of_keys [inr 0%Z; inl "settings"%string; inr 12%Z] [5%Z]).
  intros other Hin.
  repeat (apply elem_of_cons in Hin as [Heq|Hin];
          [try discriminate Heq; injection Heq as ->; reflexivity|]).
  by apply elem_of_nil in Hin.
Defined.

(** A key that holds the word and no number stops the reading. *)
Example read_repetitions_bare_key :
  (Repetitions.read_repetitions ["repetition0"; "repetition"]%string []).1
  = Raise ValueError.
Proof. reflexivity. Qed.

(** The key is stripped of the characters of the word, not of the word. *)
Example read_repetitions_strips_characters :
  Repetitions.read_repetitions ["repetition3"; "iteration_of_repetition4_note"]%string []
  = (Raise ValueError, [3%Z]).
Proof. reflexivity. Qed.

(** On macOS the serial number is dropped when it comes last, and the loop
    runs past the end of the list when it does not. *)
Example drop_psn_last :
  Cli.drop_psn ["mcsas3"; "-f"; "data.nxs"; "-psn_0_12345"]%string
  = (Ok tt, ["mcsas3"; "-f"; "data.nxs"]%string).
Proof. reflexivity. Qed.

Example drop_psn_first :
  (Cli.drop_psn ["mcsas3"; "-psn_0_12345"; "-f"; "data.nxs"]%string).1
  = Raise IndexError.
Proof. reflexivity. Qed.
